(** * Axon memory server: a shallow embedding of the orchestration services

    The development follows the TypeScript sources of the server:
    - [EmbeddingService.ts]  (text to embedding vectors, batch shape checks),
    - [EizenService.ts]      (per-contract vector store, shared Arweave config),
    - [MemoryService.ts]     (create / search / get / stats, metadata filters),
    - [middlewares/quota.ts] (subscription quota gate),
    - [schemas/memory.ts]    (request schemas).

    Asynchronous methods are modelled in a state-and-exception monad over one
    [World]: an [await] runs the awaited computation to its settlement, a
    rejected promise is a raised exception.  Calls that leave the repository
    (the transformer pipeline, the eizendb index, the Arweave wallet API, the
    Appwrite document store) are taken from an environment record. *)

From Stdlib Require Import ZArith QArith String Ascii List Bool Lia DecimalString.
From Stdlib Require Import Sorting.Sorted.
From stdpp Require Import base option list strings sorting gmap.

Open Scope string_scope.
Open Scope Z_scope.

(** ** JavaScript values, exceptions and the effect monad *)

Module Js.

(** A thrown value.  [JsError name message] is an object built by
    [new Error(message)] (or a subclass, [name] being the constructor's
    name); [HTTPException] is hono's exception carrying a status; [NonError]
    is any thrown value that is not an [instanceof Error]. *)
Inductive Exn : Type :=
  | JsError (name : string) (message : string)
  | HTTPException (status : Z) (message : string)
  | NonError.

(** [new Error(msg)] *)
Definition newError (msg : string) : Exn := JsError "Error" msg.

(** [error instanceof Error ? error.message : 'Unknown error'] *)
Definition messageOf (e : Exn) : string :=
  match e with
  | JsError _ m => m
  | HTTPException _ m => m
  | NonError => "Unknown error"
  end.

(** The constructor name of a thrown error object, when it is one. *)
Definition className (e : Exn) : option string :=
  match e with
  | JsError n _ => Some n
  | HTTPException _ _ => Some "HTTPException"
  | NonError => None
  end.

(** The settlement of a promise, or the outcome of a call. *)
Inductive Res (A : Type) : Type :=
  | Ok (a : A)
  | Throw (e : Exn).
Arguments Ok {A} a.
Arguments Throw {A} e.

Definition isOk {A} (r : Res A) : bool :=
  match r with Ok _ => true | Throw _ => false end.

(** Computations over a state [S] that may throw; the state reached when an
    exception is raised is kept, as assignments made before a [throw] are. *)
Record M (S A : Type) : Type := mkM { run : S -> Res A * S }.
Arguments mkM {S A} run.
Arguments run {S A} m s.

Definition ret {S A} (a : A) : M S A := mkM (fun s => (Ok a, s)).

Definition bind {S A B} (m : M S A) (k : A -> M S B) : M S B :=
  mkM (fun s =>
    match run m s with
    | (Ok a, s') => run (k a) s'
    | (Throw e, s') => (Throw e, s')
    end).

Definition throw {S A} (e : Exn) : M S A := mkM (fun s => (Throw e, s)).

(** [try { body } catch (error) { handler(error) }] *)
Definition try_catch {S A} (body : M S A) (handler : Exn -> M S A) : M S A :=
  mkM (fun s =>
    match run body s with
    | (Ok a, s') => (Ok a, s')
    | (Throw e, s') => run (handler e) s'
    end).

(** [try { body } finally { fin }] for a finaliser that does not throw. *)
Definition try_finally {S A} (body : M S A) (fin : S -> S) : M S A :=
  mkM (fun s => let '(r, s') := run body s in (r, fin s')).

Definition get {S} : M S S := mkM (fun s => (Ok s, s)).
Definition gets {S A} (f : S -> A) : M S A := mkM (fun s => (Ok (f s), s)).
Definition modify {S} (f : S -> S) : M S unit := mkM (fun s => (Ok tt, f s)).

(** [await p] for a promise that is already settled with [r]. *)
Definition await {S A} (r : Res A) : M S A := mkM (fun s => (r, s)).

#[global] Instance M_ret {S} : MRet (M S) := @ret S.
#[global] Instance M_bind {S} : MBind (M S) := fun A B k m => bind m k.

(** Decimal rendering of an integer inside a template string. *)
Definition showZ (z : Z) : string := NilZero.string_of_int (Z.to_int z).

(** [xs.join(sep)] *)
Fixpoint join (sep : string) (xs : list string) : string :=
  match xs with
  | [] => ""
  | [x] => x
  | x :: rest => x ++ sep ++ join sep rest
  end.

(** A Rocq string holds the UTF-8 bytes of a text, JavaScript counts its
    UTF-16 code units.  The character that starts with the byte [c] takes
    one unit, or two when [c] leads a four-byte sequence (a character
    outside the basic plane); a continuation byte starts no character. *)
Definition utf16Units (c : ascii) : nat :=
  let n := nat_of_ascii c in
  if (n <? 128)%nat then 1%nat          (* 0xxxxxxx *)
  else if (n <? 192)%nat then 0%nat     (* 10xxxxxx *)
  else if (n <? 240)%nat then 1%nat     (* 110xxxxx and 1110xxxx *)
  else 2%nat.                           (* 11110xxx *)

Fixpoint codeUnits (s : string) : nat :=
  match s with
  | EmptyString => 0%nat
  | String c rest => (utf16Units c + codeUnits rest)%nat
  end.

(** [s.length] of a string, as an integer. *)
Definition strlen (s : string) : Z := Z.of_nat (codeUnits s).

(** Truthiness of a string: every string but the empty one. *)
Definition truthy (s : string) : bool :=
  match s with EmptyString => false | String _ _ => true end.

(** [haystack.includes(needle)] *)
Fixpoint includes (haystack needle : string) : bool :=
  String.prefix needle haystack ||
  match haystack with
  | EmptyString => false
  | String _ rest => includes rest needle
  end.

End Js.
Export Js.

(** ** EmbeddingService.ts *)

Module Embedding.

(** [VectorEmbedding = number[]]: the components are passed through
    unchanged, rationals stand for them. *)
Definition VectorEmbedding : Type := list Q.

(** The value the transformer pipeline resolves to. *)
Record Tensor : Type := mkTensor {
  data : list Q;
  dims : list Z
}.

Record EmbeddingResult : Type := mkEmbeddingResult {
  embeddings : VectorEmbedding;
  dimensions : Z;
  model : string
}.

Definition modelName : string := "Xenova/all-MiniLM-L6-v2".

(** The fields of the [EmbeddingService] singleton.  [extractor] records
    whether the pipeline handle is set; [initializationPromise] holds the
    settlement of the in-flight load while one is registered.  [loads] is
    not a field of the class: it counts the calls of [pipeline] made so
    far, to pick the outcome of the next one. *)
Record EmbeddingService : Type := mkEmbeddingService {
  extractor : bool;
  isInitialized : bool;
  initializationPromise : option (Res unit);
  loads : nat
}.

(** The object returned by [getInfo()]. *)
Record EmbeddingInfo : Type := mkEmbeddingInfo {
  info_model : string;
  info_isInitialized : bool
}.

Definition fresh : EmbeddingService :=
  {| extractor := false; isInitialized := false;
     initializationPromise := None; loads := 0 |}.

(** What lies outside the service: the outcome of the [n]-th call of
    [pipeline('feature-extraction', modelName)] and the loaded extractor. *)
Record Backend : Type := mkBackend {
  pipeline : nat -> Res unit;
  extract : list string -> Res Tensor
}.

Section Service.
Context (be : Backend).

Local Abbreviation E := (M EmbeddingService).

(** [private async initialize()] *)
Definition initialize : E unit :=
  try_catch
    (n ← gets loads;
     modify (fun s => {| extractor := extractor s; isInitialized := isInitialized s;
                         initializationPromise := initializationPromise s;
                         loads := S (loads s) |});;
     await (pipeline be n);;
     modify (fun s => {| extractor := true; isInitialized := true;
                         initializationPromise := initializationPromise s;
                         loads := loads s |}))
    (fun error => throw error).

Definition set_initializationPromise (p : option (Res unit)) (s : EmbeddingService)
  : EmbeddingService :=
  {| extractor := extractor s; isInitialized := isInitialized s;
     initializationPromise := p; loads := loads s |}.

(** [async ensureInitialized()].  The promise returned by [initialize()] is
    represented by its settlement: the body runs, its outcome is stored in
    the field and then awaited. *)
Definition ensureInitialized : E unit :=
  s ← get;
  if isInitialized s && extractor s then mret tt
  else match initializationPromise s with
  | Some p => await p
  | None =>
      try_finally
        (mkM (fun s0 =>
           let '(r, s1) := run initialize s0 in
           run (await r) (set_initializationPromise (Some r) s1)))
        (set_initializationPromise None);;
      ex ← gets extractor;
      if negb ex then throw (newError "EmbeddingService is not properly initialized")
      else mret tt
  end.

(** [async textToEmbeddings(text)] *)
Definition textToEmbeddings (text : string) : E EmbeddingResult :=
  ensureInitialized;;
  ex ← gets extractor;
  if negb ex then throw (newError "Extractor not initialized")
  else
    try_catch
      (response ← await (extract be [text]);
       let embeddings := data response in
       mret {| embeddings := embeddings;
               dimensions := Z.of_nat (length embeddings);
               model := modelName |})
      (fun error =>
         throw (newError ("Failed to generate embeddings: " ++ messageOf error))).

(** The rank-2 loop of [batchTextToEmbeddings]: rows [i, i+1, ...] for the
    remaining [count] texts, pushed onto [results] in order. *)
Fixpoint sliceRows (response : Tensor) (embeddingDim : Z) (i : Z) (count : nat)
    (results : list EmbeddingResult) : Res (list EmbeddingResult) :=
  match count with
  | O => Ok results
  | S count' =>
      let startIdx := i * embeddingDim in
      let endIdx := startIdx + embeddingDim in
      let len := Z.of_nat (length (data response)) in
      if (startIdx >=? len) || (endIdx >? len) then
        Throw (newError ("Index out of bounds: trying to slice [" ++ showZ startIdx
                         ++ ":" ++ showZ endIdx ++ "] from data of length "
                         ++ showZ len))
      else
        let embeddings :=
          take (Z.to_nat embeddingDim) (drop (Z.to_nat startIdx) (data response)) in
        sliceRows response embeddingDim (i + 1) count'
          (results ++ [{| embeddings := embeddings;
                          dimensions := Z.of_nat (length embeddings);
                          model := modelName |}])%list
  end.

(** The shape checks of [batchTextToEmbeddings] on the pipeline's response,
    the body of its [try] block after the [await]. *)
Definition shapeResults (texts : list string) (response : Tensor)
  : Res (list EmbeddingResult) :=
  let textsLength := Z.of_nat (length texts) in
  let embeddingDim := default 0 (last (dims response)) in    (* dims.at(-1) ?? 0 *)
  if embeddingDim <=? 0 then
    Throw (newError ("Invalid embedding dimension: " ++ showZ embeddingDim))
  else
    let batchDim := default 0 (dims response !! 0%nat) in  (* dims[0] ?? 0 *)
    if negb (batchDim =? textsLength) then
      Throw (newError ("Batch dimension mismatch: expected " ++ showZ textsLength
                       ++ " but got " ++ showZ batchDim))
    else
      match length (dims response) with
      | 1%nat =>
          if negb (textsLength =? 1) then
            Throw (newError ("Expected 1 text for 1D tensor, got " ++ showZ textsLength
                             ++ " texts"))
          else
            let embeddings := data response in
            Ok [{| embeddings := embeddings;
                   dimensions := Z.of_nat (length embeddings);
                   model := modelName |}]
      | 2%nat => sliceRows response embeddingDim 0 (length texts) []
      | rank =>
          Throw (newError ("Unexpected tensor dimensionality: "
                           ++ showZ (Z.of_nat rank) ++ "D tensor with dims ["
                           ++ join ", " (map showZ (dims response)) ++ "]"))
      end.

(** [async batchTextToEmbeddings(texts)] *)
Definition batchTextToEmbeddings (texts : list string) : E (list EmbeddingResult) :=
  ensureInitialized;;
  ex ← gets extractor;
  if negb ex then throw (newError "Extractor not initialized")
  else
    try_catch
      (response ← await (extract be texts);
       await (shapeResults texts response))
      (fun error =>
         throw (newError ("Failed to generate batch embeddings: " ++ messageOf error))).

(** [getInfo()] *)
Definition getInfo (s : EmbeddingService) : EmbeddingInfo :=
  {| info_model := modelName; info_isInitialized := isInitialized s |}.

End Service.

End Embedding.

(** ** schemas/common.ts and schemas/eizen.ts *)

Module Schemas.

Import Embedding.

(** [interface VectorMetadata]: the recognised optional keys, and the
    open part [[key: string]: unknown] as a map from key to its JSON text. *)
Record VectorMetadata : Type := mkVectorMetadata {
  content : option string;
  context : option string;
  importance : option Z;
  tags : option (list string);
  timestamp : option string;
  client : option string;
  sessionId : option string;
  userId : option string;
  createdAt : option string;
  extra : gmap string string
}.

(** The object literal [{}]. *)
Definition emptyMetadata : VectorMetadata :=
  {| content := None; context := None; importance := None; tags := None;
     timestamp := None; client := None; sessionId := None; userId := None;
     createdAt := None; extra := ∅ |}.

(** [{ ...m, content: c }] *)
Definition withContent (m : VectorMetadata) (c : string) : VectorMetadata :=
  {| content := Some c; context := context m; importance := importance m;
     tags := tags m; timestamp := timestamp m; client := client m;
     sessionId := sessionId m; userId := userId m; createdAt := createdAt m;
     extra := extra m |}.

(** The inferred type of [searchFiltersSchema]. *)
Record SearchFilters : Type := mkSearchFilters {
  f_tags : option (list string);
  importance_min : option Z;
  importance_max : option Z;
  date_from : option string;
  date_to : option string;
  f_context : option string;
  f_client : option string
}.

Definition noFilters : SearchFilters :=
  {| f_tags := None; importance_min := None; importance_max := None;
     date_from := None; date_to := None; f_context := None; f_client := None |}.

(** [interface InsertVector] *)
Record InsertVector : Type := mkInsertVector {
  vector : VectorEmbedding;
  iv_metadata : option VectorMetadata
}.

(** [interface SearchVector] *)
Record SearchVector : Type := mkSearchVector {
  query : VectorEmbedding;
  k : Z
}.

(** [interface EizenSearchResult]; the hits of the index have this shape
    too, their [metadata] being [null] when none was stored. *)
Record EizenSearchResult : Type := mkEizenSearchResult {
  id : Z;
  distance : Q;
  metadata : option VectorMetadata
}.

(** [interface EizenInsertResult] *)
Record EizenInsertResult : Type := mkEizenInsertResult {
  success : bool;
  vectorId : Z;
  message : string
}.

(** What [get_vector] resolves to for a stored id. *)
Record StoredVector : Type := mkStoredVector {
  point : VectorEmbedding;
  sv_metadata : option VectorMetadata
}.

End Schemas.

(** ** EizenService.ts *)

Module Eizen.

Import Embedding Schemas.

(** The operations of the eizendb index ([EizenDbVector]) that the service
    consumes, over the state [index] of one contract. *)
Class VectorIndex (index : Type) : Type := {
  get_datasize : index -> Res Z;
  insert : index -> VectorEmbedding -> option VectorMetadata -> Res unit * index;
  knn_search : index -> VectorEmbedding -> Z -> Res (list EizenSearchResult);
  get_vector : index -> Z -> Res (option StoredVector)
}.

(** [ArweaveConfig]: the wallet and the warp instance, by name. *)
Record ArweaveConfig : Type := mkArweaveConfig {
  wallet : string;
  warp : string
}.

Record HnswParams : Type := mkHnswParams {
  m : Z;
  efConstruction : Z;
  efSearch : Z
}.

(** Everything the service reads from outside: the process environment,
    [getArweaveConfig] of config/arweave.ts (the settlement of its [n]-th
    invocation), the wallet API, the two deployment paths and the files
    read by the development path. *)
Record Env : Type := mkEnv {
  NODE_ENV : option string;
  EIZEN_M : option Z;                 (* Number(process.env.EIZEN_M), None for NaN *)
  EIZEN_EF_CONSTRUCTION : option Z;
  EIZEN_EF_SEARCH : option Z;
  getArweaveConfig : nat -> Res ArweaveConfig;
  getAddress : ArweaveConfig -> Res string;
  getBalance : string -> nat -> Res string;   (* balance at the n-th query *)
  winstonToAr : string -> string;
  parseFloat : string -> option Q;             (* None for NaN *)
  deployProduction : ArweaveConfig -> Res string;
  readFileSync : string -> Res string;
  stateWithOwner : string -> string -> Res string;
    (* JSON.stringify of JSON.parse(text) with its owner set *)
  warpDeploy : ArweaveConfig -> string -> string -> Res string
}.

(** Calls that leave the process, most recent first in the log. *)
Inductive Event : Type :=
  | CallGetArweaveConfig
  | CallGetAddress
  | CallGetBalance
  | CallDeployProduction
  | CallWarpDeploy
  | CallGetDatasize
  | CallInsert (v : VectorEmbedding) (md : option VectorMetadata)
  | CallKnnSearch (q : VectorEmbedding) (k : Z)
  | CallGetVector (i : Z).

Definition isGetArweaveConfig (e : Event) : bool :=
  match e with CallGetArweaveConfig => true | _ => false end.

Definition isGetBalance (e : Event) : bool :=
  match e with CallGetBalance => true | _ => false end.

Definition isDeploy (e : Event) : bool :=
  match e with CallDeployProduction | CallWarpDeploy => true | _ => false end.

(** [private static sharedArweaveConfig] and [arweaveInitPromise]; the
    promise is represented by its settlement. *)
Record Statics : Type := mkStatics {
  sharedArweaveConfig : option ArweaveConfig;
  arweaveInitPromise : option (Res ArweaveConfig)
}.

(** The instance fields of one [EizenService]. *)
Record EizenService : Type := mkEizenService {
  vectorDb : option HnswParams;
  sdk : option (string * string * string);
  contractId : string;
  isInitialized : bool
}.

(** The process: the statics, the service instance under consideration,
    the index of its contract, the embedding singleton, and the log of the
    calls made so far (kept by the model, not by the code). *)
Record World (index : Type) : Type := mkWorld {
  statics : Statics;
  service : EizenService;
  db : index;
  embedding : EmbeddingService;
  log : list Event
}.
Arguments mkWorld {index}.
Arguments statics {index}.
Arguments service {index}.
Arguments db {index}.
Arguments embedding {index}.
Arguments log {index}.

Section Service.
Context {index : Type} `{VectorIndex index} (env : Env).

Local Abbreviation W := (M (World index)).

Definition set_statics (f : Statics -> Statics) (w : World index) : World index :=
  mkWorld (f (statics w)) (service w) (db w) (embedding w) (log w).
Definition set_service (f : EizenService -> EizenService) (w : World index) : World index :=
  mkWorld (statics w) (f (service w)) (db w) (embedding w) (log w).
Definition set_db (d : index) (w : World index) : World index :=
  mkWorld (statics w) (service w) d (embedding w) (log w).
Definition set_embedding (e : EmbeddingService) (w : World index) : World index :=
  mkWorld (statics w) (service w) (db w) e (log w).
Definition logCall (ev : Event) (w : World index) : World index :=
  mkWorld (statics w) (service w) (db w) (embedding w) (ev :: log w).

(** A method of the embedding singleton run inside the process. *)
Definition liftE {A} (c : M EmbeddingService A) : W A :=
  mkM (fun w => let '(r, e) := run c (embedding w) in (r, set_embedding e w)).

(** An external call whose outcome is [r]: logged, then awaited. *)
Definition external {A} (ev : Event) (r : Res A) : W A :=
  modify (logCall ev);; await r.

(** How many times [getArweaveConfig] has been invoked so far. *)
Definition arweaveCalls (w : World index) : nat :=
  length (filter (fun e => isGetArweaveConfig e = true) (log w)).

Definition balanceQueries (w : World index) : nat :=
  length (filter (fun e => isGetBalance e = true) (log w)).

(** The call [getArweaveConfig()]: it returns a promise, here its settlement. *)
Definition invokeGetArweaveConfig : W (Res ArweaveConfig) :=
  n ← gets arweaveCalls;
  modify (logCall CallGetArweaveConfig);;
  mret (getArweaveConfig env n).

(** [private static async getSharedArweaveConfig()] *)
Definition getSharedArweaveConfig : W ArweaveConfig :=
  st ← gets statics;
  match sharedArweaveConfig st with
  | Some config => mret config
  | None =>
      p ← match arweaveInitPromise st with
          | Some p => mret p
          | None =>
              p ← invokeGetArweaveConfig;
              modify (set_statics (fun s =>
                {| sharedArweaveConfig := sharedArweaveConfig s;
                   arweaveInitPromise := Some p |}));;
              mret p
          end;
      config ← await p;
      modify (set_statics (fun s =>
        {| sharedArweaveConfig := Some config;
           arweaveInitPromise := arweaveInitPromise s |}));;
      mret config
  end.

(** [Number(process.env.X) || fallback] *)
Definition numberOr (v : option Z) (fallback : Z) : Z :=
  match v with
  | Some n => if n =? 0 then fallback else n
  | None => fallback
  end.

(** [private static getHnswParams()] *)
Definition getHnswParams : HnswParams :=
  {| m := numberOr (EIZEN_M env) 16;
     efConstruction := numberOr (EIZEN_EF_CONSTRUCTION env) 200;
     efSearch := numberOr (EIZEN_EF_SEARCH env) 50 |}.

(** [private async initialize()] *)
Definition initialize : W unit :=
  try_catch
    (arweaveConfig ← getSharedArweaveConfig;
     cid ← gets (fun w => contractId (service w));
     let options := getHnswParams in
     modify (set_service (fun s =>
       {| vectorDb := Some options;
          sdk := Some (wallet arweaveConfig, cid, warp arweaveConfig);
          contractId := contractId s;
          isInitialized := true |})))
    (fun error => throw error).

(** [private async ensureInitialized()] *)
Definition ensureInitialized : W unit :=
  init ← gets (fun w => isInitialized (service w));
  (if negb init then initialize else mret tt);;
  vdb ← gets (fun w => vectorDb (service w));
  match vdb with
  | None => throw (newError "EizenService is not properly initialized")
  | Some _ => mret tt
  end.

(** [new EizenService(contractId)] *)
Definition newService (cid : string) : EizenService :=
  {| vectorDb := None; sdk := None; contractId := cid; isInitialized := false |}.

(** [static async forContract(contractId)]: the instance under
    consideration is replaced by a new one, which is then initialised. *)
Definition forContract (cid : string) : W unit :=
  modify (set_service (fun _ => newService cid));;
  initialize.

(** [async insertVector(data)] *)
Definition insertVector (data : InsertVector) : W EizenInsertResult :=
  ensureInitialized;;
  vdb ← gets (fun w => vectorDb (service w));
  match vdb with
  | None => throw (newError "Vector database not initialized")
  | Some _ =>
      try_catch
        (d ← gets db;
         vectorId ← external CallGetDatasize (get_datasize d);
         mkM (fun w =>
           let '(r, d') := insert (db w) (vector data) (iv_metadata data) in
           (r, set_db d' (logCall (CallInsert (vector data) (iv_metadata data)) w)));;
         mret {| success := true;
                 vectorId := vectorId;
                 message := "Vector inserted successfully with ID: " ++ showZ vectorId |})
        (fun error =>
           throw (newError ("Failed to insert vector: " ++ messageOf error)))
  end.

(** [async searchVectors(data)] *)
Definition searchVectors (data : SearchVector) : W (list EizenSearchResult) :=
  ensureInitialized;;
  vdb ← gets (fun w => vectorDb (service w));
  match vdb with
  | None => throw (newError "Vector database not initialized")
  | Some _ =>
      try_catch
        (d ← gets db;
         results ← external (CallKnnSearch (query data) (k data))
                            (knn_search d (query data) (k data));
         mret (map (fun result =>
                      {| id := id result;
                         distance := distance result;
                         metadata := metadata result |}) results))
        (fun error =>
           throw (newError ("Failed to search vectors: " ++ messageOf error)))
  end.

(** [async getVector(vectorId)] *)
Definition getVector (vectorId : Z) : W (option StoredVector) :=
  ensureInitialized;;
  vdb ← gets (fun w => vectorDb (service w));
  match vdb with
  | None => throw (newError "Vector database not initialized")
  | Some _ =>
      try_catch
        (d ← gets db;
         result ← external (CallGetVector vectorId) (get_vector d vectorId);
         match result with
         | Some r => mret (Some {| point := point r; sv_metadata := sv_metadata r |})
         | None => mret None
         end)
        (fun error =>
           throw (newError ("Failed to retrieve vector: " ++ messageOf error)))
  end.

(** [private async getVectorCount()] *)
Definition getVectorCount : W Z :=
  vdb ← gets (fun w => vectorDb (service w));
  match vdb with
  | None => mret 0
  | Some _ => d ← gets db; external CallGetDatasize (get_datasize d)
  end.

Record EizenStats : Type := mkEizenStats {
  totalVectors : Z;
  stats_isInitialized : bool;
  stats_contractId : string
}.

(** [async getStats()] *)
Definition getStats : W EizenStats :=
  try_catch
    (vdb ← gets (fun w => vectorDb (service w));
     total ← match vdb with Some _ => getVectorCount | None => mret 0 end;
     s ← gets service;
     mret {| totalVectors := total;
             stats_isInitialized := isInitialized s;
             stats_contractId := contractId s |})
    (fun _ =>
       s ← gets service;
       mret {| totalVectors := 0;
               stats_isInitialized := isInitialized s;
               stats_contractId := contractId s |}).

(** [async cleanup()] *)
Definition cleanup : W unit :=
  modify (set_service (fun s =>
    {| vectorDb := None; sdk := None; contractId := contractId s;
       isInitialized := false |})).

(** [parseFloat(readableBalance) <= 0], false when the number is NaN. *)
Definition notPositive (x : option Q) : bool :=
  match x with
  | Some q => Qle_bool q 0
  | None => false
  end.

Definition isProduction : bool :=
  match NODE_ENV env with
  | Some v => String.eqb v "production"
  | None => false
  end.

Definition queryBalance (walletAddress : string) : W string :=
  n ← gets balanceQueries;
  external CallGetBalance (getBalance env walletAddress n).

(** [static async deployNewContract()]; the result is the pair of
    [contractId] and [walletAddress]. *)
Definition deployNewContract : W (string * string) :=
  arweaveConfig ← getSharedArweaveConfig;
  try_catch
    (walletAddress ← external CallGetAddress (getAddress env arweaveConfig);
     balance ← queryBalance walletAddress;
     let readableBalance := winstonToAr env balance in
     if notPositive (parseFloat env readableBalance) then
       if negb isProduction then
         throw (newError
           ("Insufficient wallet balance. Current: " ++ readableBalance ++ " AR. "
            ++ "💡 Dev tip: ArLocal should auto-mint tokens. Check ArLocal is running."))
       else
         throw (newError
           ("Insufficient wallet balance for deployment. Current: "
            ++ readableBalance ++ " AR."))
     else
       contractTxId ←
         (if isProduction then
            external CallDeployProduction (deployProduction env arweaveConfig)
          else
            contractSource ← await (readFileSync env "data/contract.js");
            stateText ← await (readFileSync env "data/state.json");
            initState ← await (stateWithOwner env stateText walletAddress);
            external CallWarpDeploy (warpDeploy env arweaveConfig initState contractSource));
       queryBalance walletAddress;;
       mret (contractTxId, walletAddress))
    (fun error =>
       throw (newError ("Failed to deploy contract: " ++ messageOf error))).

End Service.

End Eizen.

(** ** MemoryService.ts *)

Module Memory.

Import Embedding Schemas Eizen.

(** [type CreateMemory] *)
Record CreateMemory : Type := mkCreateMemory {
  cm_content : string;
  cm_metadata : option VectorMetadata
}.

(** [type SearchMemory]; [sm_k] is [None] when the property is undefined. *)
Record SearchMemory : Type := mkSearchMemory {
  sm_query : string;
  sm_k : option Z;
  sm_filters : option SearchFilters
}.

(** [interface MemoryResult] *)
Record MemoryResult : Type := mkMemoryResult {
  mr_id : Z;
  mr_content : option string;
  mr_metadata : option VectorMetadata;
  mr_distance : option Q
}.

(** [interface CreateMemoryResult] *)
Record CreateMemoryResult : Type := mkCreateMemoryResult {
  cr_success : bool;
  memoryId : Z;
  cr_message : string
}.

Inductive EmbeddingServiceName : Type := xenova | unavailable.

(** [interface MemoryStats] *)
Record MemoryStats : Type := mkMemoryStats {
  totalMemories : Z;
  embeddingService : EmbeddingServiceName;
  ms_isInitialized : bool
}.

(** [(x as string) || undefined]: an empty string is dropped. *)
Definition nonEmpty (x : option string) : option string :=
  match x with
  | Some s => if truthy s then Some s else None
  | None => None
  end.

(** [a || b] on two optional strings. *)
Definition orElse (a b : option string) : option string :=
  match nonEmpty a with
  | Some s => Some s
  | None => b
  end.

(** [data.k || 10] *)
Definition kOrDefault (k : option Z) : Z :=
  match k with
  | Some n => if n =? 0 then 10 else n
  | None => 10
  end.

Section Filters.
(** [new Date(text)] as its time value, [None] for an invalid date. *)
Context (dateValue : string -> option Z).

(** [a < b] on two dates; a comparison with an invalid date is false. *)
Definition dateLt (a b : option Z) : bool :=
  match a, b with
  | Some x, Some y => x <? y
  | _, _ => false
  end.

(** The callback of [memories.filter] in [applyFilters]. *)
Definition keep (filters : SearchFilters) (memory : MemoryResult) : bool :=
  match mr_metadata memory with
  | None => true                                  (* if (!memory.metadata) return true *)
  | Some md =>
      if match f_tags filters with
         | Some ftags =>
             let memoryTags := default [] (tags md) in
             negb (existsb (fun tag => bool_decide (tag ∈ memoryTags)) ftags)
         | None => false
         end then false
      else if match importance_min filters with
              | Some lo => default 0 (importance md) <? lo
              | None => false
              end then false
      else if match importance_max filters with
              | Some hi => default 0 (importance md) >? hi
              | None => false
              end then false
      else if match nonEmpty (f_client filters) with
              | Some fc => negb (includes (default "" (client md)) fc)
              | None => false
              end then false
      else
        match nonEmpty (date_from filters), nonEmpty (date_to filters) with
        | None, None => true
        | from, to =>
            match nonEmpty (orElse (timestamp md) (createdAt md)) with
            | Some ts =>
                let memoryDate := dateValue ts in
                if match from with
                   | Some f => dateLt memoryDate (dateValue f)
                   | None => false
                   end then false
                else if match to with
                        | Some t => dateLt (dateValue t) memoryDate
                        | None => false
                        end then false
                else true
            | None => true
            end
        end
  end.

(** [private applyFilters(memories, filters?)] *)
Definition applyFilters (memories : list MemoryResult) (filters : option SearchFilters)
  : list MemoryResult :=
  match filters with
  | None => memories
  | Some f => List.filter (keep f) memories
  end.

End Filters.

Section Service.
Context {index : Type} `{VectorIndex index}.
Context (env : Env) (be : Backend) (dateValue : string -> option Z).

Local Abbreviation W := (M (World index)).

(** [private async textToEmbeddings(text)] *)
Definition textToEmbeddings (text : string) : W VectorEmbedding :=
  try_catch
    (result ← liftE (Embedding.textToEmbeddings be text);
     mret (embeddings result))
    (fun error =>
       throw (newError ("Failed to generate embeddings: " ++ messageOf error))).

(** [{ ...data.metadata, content: data.content }] *)
Definition enhance (data : CreateMemory) : VectorMetadata :=
  withContent (default emptyMetadata (cm_metadata data)) (cm_content data).

(** [async createMemory(data)] *)
Definition createMemory (data : CreateMemory) : W CreateMemoryResult :=
  try_catch
    (embeddings ← textToEmbeddings (cm_content data);
     let enhancedMetadata := enhance data in
     result ← insertVector env
       {| vector := embeddings; iv_metadata := Some enhancedMetadata |};
     mret {| cr_success := true;
             memoryId := vectorId result;
             cr_message := "Memory created from " ++ showZ (strlen (cm_content data))
                           ++ " characters of content" |})
    (fun error =>
       throw (newError ("Failed to create memory: " ++ messageOf error))).

(** The callback of [searchResults.map] in [searchMemories]. *)
Definition toMemory (result : EizenSearchResult) : MemoryResult :=
  {| mr_id := id result;
     mr_content := nonEmpty (md ← metadata result; content md);
     mr_metadata := metadata result;
     mr_distance := Some (distance result) |}.

(** [async searchMemories(data)] *)
Definition searchMemories (data : SearchMemory) : W (list MemoryResult) :=
  try_catch
    (queryEmbeddings ← textToEmbeddings (sm_query data);
     searchResults ← searchVectors env
       {| query := queryEmbeddings; k := kOrDefault (sm_k data) |};
     let memories := map toMemory searchResults in
     let filteredMemories := applyFilters dateValue memories (sm_filters data) in
     mret filteredMemories)
    (fun error =>
       throw (newError ("Failed to search memories: " ++ messageOf error))).

(** [async getMemory(memoryId)] *)
Definition getMemory (memoryId : Z) : W (option MemoryResult) :=
  try_catch
    (vector ← getVector env memoryId;
     match vector with
     | None => mret None
     | Some v =>
         mret (Some {| mr_id := memoryId;
                       mr_content := nonEmpty (md ← sv_metadata v; content md);
                       mr_metadata := sv_metadata v;
                       mr_distance := None |})
     end)
    (fun error =>
       throw (newError ("Failed to retrieve memory: " ++ messageOf error))).

(** The body of [getStats] over the two calls it makes: the statistics of
    the store service the [MemoryService] was constructed with, and the
    information of the embedding engine. *)
Definition getStatsWith (storeStats : W EizenStats) (engineInfo : W EmbeddingInfo)
  : W MemoryStats :=
  try_catch
    (eizenStats ← storeStats;
     embeddingInfo ← engineInfo;
     mret {| totalMemories := totalVectors eizenStats;
             embeddingService :=
               if info_isInitialized embeddingInfo then xenova else unavailable;
             ms_isInitialized :=
               stats_isInitialized eizenStats && info_isInitialized embeddingInfo |})
    (fun _ =>
       mret {| totalMemories := 0;
               embeddingService := unavailable;
               ms_isInitialized := false |}).

(** [async getStats()], over [EizenService.getStats] and
    [embeddingService.getInfo]. *)
Definition getStats : W MemoryStats :=
  getStatsWith Eizen.getStats (gets (fun w => getInfo (embedding w))).

End Service.

End Memory.

(** ** middlewares/quota.ts *)

Module Quota.

Inductive Plan : Type := basic | pro | enterprise.

(** [interface Subscription] of AppwriteService.ts *)
Record Subscription : Type := mkSubscription {
  userId : string;
  plan : Plan;
  quotaLimit : Z;
  quotaUsed : Z;
  isActive : bool;
  renewsAt : string
}.

(** The variables of the hono context that the middleware touches. *)
Record Context : Type := mkContext {
  ctx_userId : option string;              (* c.get('userId') *)
  ctx_subscription : option Subscription   (* c.set('subscription', ...) *)
}.

Definition attach (s : Subscription) (c : Context) : Context :=
  {| ctx_userId := ctx_userId c; ctx_subscription := Some s |}.

Section Middleware.
(** [AppwriteService.getUserSubscription] and the rest of the chain. *)
Context (getUserSubscription : string -> Res (option Subscription)).
Context (next : M Context unit).

(** [export async function quotaMiddleware(c, next)] *)
Definition quotaMiddleware : M Context unit :=
  uid ← gets ctx_userId;
  match uid with
  | Some (String a rest) =>
      let userId := String a rest in
      try_catch
        (subscription ← await (getUserSubscription userId);
         match subscription with
         | None => throw (HTTPException 403 "No active subscription found")
         | Some subscription =>
             if negb (isActive subscription) then
               throw (HTTPException 403 "Subscription is inactive")
             else if quotaUsed subscription >=? quotaLimit subscription then
               throw (HTTPException 429
                 ("Quota exceeded. Used " ++ showZ (quotaUsed subscription) ++ "/"
                  ++ showZ (quotaLimit subscription)))
             else
               modify (attach subscription);;
               next
         end)
        (fun error =>
           match error with
           | HTTPException _ _ => throw error
           | _ => throw (HTTPException 500 "Failed to check quota")
           end)
  | _ => throw (HTTPException 401 "Authentication required")   (* if (!userId) *)
  end.

End Middleware.

End Quota.

(** ** schemas/memory.ts *)

Module MemorySchema.

Import Schemas Memory.

(** One issue of a failed zod parse: the path of the field and the code. *)
Record Issue : Type := mkIssue {
  path : string;
  code : string
}.

Inductive Parsed (A : Type) : Type :=
  | Valid (a : A)
  | Invalid (issues : list Issue).
Arguments Valid {A} a.
Arguments Invalid {A} issues.

(** [z.number().min(lo).max(hi)] on a present number. *)
Definition boundIssues (path : string) (lo hi n : Z) : list Issue :=
  if n <? lo then [mkIssue path "too_small"]
  else if n >? hi then [mkIssue path "too_big"]
  else [].

(** [z.number().min(1).max(100).default(10)] *)
Definition parseK (k : option Z) : Parsed Z :=
  match k with
  | None => Valid 10
  | Some n =>
      match boundIssues "k" 1 100 n with
      | [] => Valid n
      | issues => Invalid issues
      end
  end.

Section Schema.
(** The format check of [z.string().datetime()]. *)
Context (isDatetime : string -> bool).

Definition datetimeIssues (path : string) (v : option string) : list Issue :=
  match v with
  | Some s => if isDatetime s then [] else [mkIssue path "invalid_string"]
  | None => []
  end.

Definition optionalBound (path : string) (lo hi : Z) (v : option Z) : list Issue :=
  match v with
  | Some n => boundIssues path lo hi n
  | None => []
  end.

(** [searchFiltersSchema] of schemas/common.ts *)
Definition filtersIssues (f : option SearchFilters) : list Issue :=
  match f with
  | None => []
  | Some f =>
      (optionalBound "filters.importance_min" 1 10 (importance_min f)
       ++ optionalBound "filters.importance_max" 1 10 (importance_max f)
       ++ datetimeIssues "filters.date_from" (date_from f)
       ++ datetimeIssues "filters.date_to" (date_to f))%list
  end.

(** [z.string().min(1, 'Query is required')] *)
Definition queryIssues (q : string) : list Issue :=
  if strlen q <? 1 then [mkIssue "query" "too_small"] else [].

(** [searchMemorySchema.parse] *)
Definition searchMemorySchema (input : SearchMemory) : Parsed SearchMemory :=
  let kIssues := match parseK (sm_k input) with Valid _ => [] | Invalid i => i end in
  match (queryIssues (sm_query input) ++ kIssues ++ filtersIssues (sm_filters input))%list with
  | [] =>
      Valid {| sm_query := sm_query input;
               sm_k := match parseK (sm_k input) with
                       | Valid n => Some n
                       | Invalid _ => None
                       end;
               sm_filters := sm_filters input |}
  | issues => Invalid issues
  end.

(** [z.string().min(1, 'Content is required').max(10000, 'Content too long')] *)
Definition contentIssues (c : string) : list Issue :=
  boundIssues "content" 1 10000 (strlen c).

(** [memoryMetadataSchema] of schemas/common.ts, with its default client. *)
Definition metadataIssues (md : option VectorMetadata) : list Issue :=
  match md with
  | None => []
  | Some md =>
      (optionalBound "metadata.importance" 1 10 (importance md)
       ++ datetimeIssues "metadata.timestamp" (timestamp md))%list
  end.

Definition withDefaultClient (md : VectorMetadata) : VectorMetadata :=
  {| content := content md; context := context md; importance := importance md;
     tags := tags md; timestamp := timestamp md;
     client := Some (default "unknown" (client md));
     sessionId := sessionId md; userId := Schemas.userId md;
     createdAt := createdAt md; extra := extra md |}.

(** [createMemorySchema.parse] *)
Definition createMemorySchema (input : CreateMemory) : Parsed CreateMemory :=
  match (contentIssues (cm_content input) ++ metadataIssues (cm_metadata input))%list with
  | [] =>
      Valid {| cm_content := cm_content input;
               cm_metadata := withDefaultClient <$> cm_metadata input |}
  | issues => Invalid issues
  end.

End Schema.

End MemorySchema.

(** ** Two indexes to run the services on

    [ListIndex] keeps the stored vectors in insertion order, the id of a
    vector being its position, and answers a search by exact distances.
    [BrokenIndex] is a contract whose every interaction fails. *)

Module ListIndex.

Import Embedding Schemas Eizen.

Definition t : Type := list StoredVector.

Fixpoint sqDist (a b : list Q) : Q :=
  match a, b with
  | x :: a', y :: b' => ((x - y) * (x - y) + sqDist a' b')%Q
  | _, _ => 0%Q
  end.

(** Insertion into a list of hits kept in ascending distance; a new hit
    goes before the hits at the same distance. *)
Fixpoint place (h : EizenSearchResult) (hits : list EizenSearchResult)
  : list EizenSearchResult :=
  match hits with
  | [] => [h]
  | h' :: rest =>
      if Qle_bool (distance h) (distance h') then h :: h' :: rest
      else h' :: place h rest
  end.

Fixpoint ranked (q : list Q) (i : Z) (l : t) : list EizenSearchResult :=
  match l with
  | [] => []
  | v :: rest =>
      place {| id := i; distance := Qred (sqDist q (point v)); metadata := sv_metadata v |}
            (ranked q (i + 1) rest)
  end.

#[global] Instance listIndex : VectorIndex t := {
  get_datasize l := Ok (Z.of_nat (length l));
  insert l v md := (Ok tt, (l ++ [{| point := v; sv_metadata := md |}])%list);
  knn_search l q k := Ok (take (Z.to_nat k) (ranked q 0 l));
  get_vector l i := Ok (if i <? 0 then None else l !! Z.to_nat i)
}.

End ListIndex.

Module BrokenIndex.

Import Eizen.

Definition offline {A} : Res A := Throw (newError "Contract interaction failed").

#[global] Instance brokenIndex : VectorIndex unit := {
  get_datasize _ := offline;
  insert d _ _ := (offline, d);
  knn_search _ _ _ := offline;
  get_vector _ _ := offline
}.

End BrokenIndex.

(** ** Concrete processes *)

Module Demo.

Import Embedding Schemas Eizen Memory.

(** A three-component stand-in for the sentence encoder. *)
Definition encode (text : string) : list Q :=
  [inject_Z (strlen text); inject_Z (Z.of_nat (length (filter (fun c => c = " "%char)
                                                      (list_ascii_of_string text)))); 1%Q].

(** A backend that loads at once and answers with a rank-2 tensor. *)
Definition backend : Backend :=
  {| pipeline := fun _ => Ok tt;
     extract := fun texts =>
       Ok {| data := flat_map encode texts;
             dims := [Z.of_nat (length texts); 3] |} |}.

(** A backend that answers with a rank-1 tensor of 384 components. *)
Definition flatBackend : Backend :=
  {| pipeline := fun _ => Ok tt;
     extract := fun _ => Ok {| data := repeat 0%Q 384; dims := [384] |} |}.

Definition config : ArweaveConfig := {| wallet := "jwk"; warp := "warp" |}.

(** Reads an unsigned decimal integer, as [parseFloat] does on one. *)
Definition readDecimal (s : string) : option Q :=
  match NilZero.uint_of_string s with
  | Some u => Some (inject_Z (Z.of_uint u))
  | None => None
  end.

(** A funded wallet or an unfunded one, in a given mode. *)
Definition ledger (mode : option string) (balance : string) : Env :=
  {| NODE_ENV := mode;
     EIZEN_M := None; EIZEN_EF_CONSTRUCTION := None; EIZEN_EF_SEARCH := None;
     getArweaveConfig := fun _ => Ok config;
     getAddress := fun _ => Ok "wallet-address";
     getBalance := fun _ _ => Ok balance;
     winstonToAr := fun winston => winston;
     parseFloat := readDecimal;
     deployProduction := fun _ => Ok "contract-tx";
     readFileSync := fun _ => Ok "{}";
     stateWithOwner := fun text _ => Ok text;
     warpDeploy := fun _ _ _ => Ok "contract-tx" |}.

Definition env : Env := ledger (Some "production") "1000".

(** The first call of [getArweaveConfig] fails, every later one succeeds. *)
Definition flakyEnv : Env :=
  {| NODE_ENV := Some "production";
     EIZEN_M := None; EIZEN_EF_CONSTRUCTION := None; EIZEN_EF_SEARCH := None;
     getArweaveConfig := fun n =>
       match n with
       | O => Throw (newError "wallet file missing")
       | S _ => Ok config
       end;
     getAddress := fun _ => Ok "wallet-address";
     getBalance := fun _ _ => Ok "1000";
     winstonToAr := fun winston => winston;
     parseFloat := readDecimal;
     deployProduction := fun _ => Ok "contract-tx";
     readFileSync := fun _ => Ok "{}";
     stateWithOwner := fun text _ => Ok text;
     warpDeploy := fun _ _ _ => Ok "contract-tx" |}.

(** A process that has just started, bound to one contract. *)
Definition start {index : Type} (d : index) : World index :=
  {| statics := {| sharedArweaveConfig := None; arweaveInitPromise := None |};
     service := newService "contract-1";
     db := d;
     embedding := fresh;
     log := [] |}.

(** A process whose service and embedding engine are both initialised. *)
Definition ready {index : Type} (d : index) : World index :=
  {| statics := {| sharedArweaveConfig := Some config;
                   arweaveInitPromise := Some (Ok config) |};
     service := {| vectorDb := Some {| m := 16; efConstruction := 200; efSearch := 50 |};
                   sdk := Some ("jwk", "contract-1", "warp");
                   contractId := "contract-1";
                   isInitialized := true |};
     db := d;
     embedding := {| extractor := true; Embedding.isInitialized := true;
                     initializationPromise := None; loads := 1 |};
     log := [CallGetArweaveConfig] |}.

Definition noDate (s : string) : option Z := None.

Definition darkMode : CreateMemory :=
  {| cm_content := "User prefers dark mode";
     cm_metadata := Some {| content := Some "something else"; context := None;
                            importance := Some 7; tags := Some ["preference"];
                            timestamp := None; client := None; sessionId := None;
                            userId := None; createdAt := None; extra := ∅ |} |}.

(** A stored vector without metadata, as another writer may leave one. *)
Definition bare : StoredVector := {| point := [1%Q; 0%Q; 1%Q]; sv_metadata := None |}.

Definition importantOnly : SearchMemory :=
  {| sm_query := "dark mode preference";
     sm_k := None;
     sm_filters := Some {| f_tags := None; importance_min := Some 5;
                           importance_max := None; date_from := None;
                           date_to := None; f_context := None; f_client := None |} |}.

End Demo.

(** ** Vocabulary of the statements *)

Module Spec.

Import Embedding Schemas Eizen Memory.

Definition onlyConfigCalls (evs : list Event) : Prop :=
  Forall (fun e => e = CallGetArweaveConfig) evs.

(** What initialising a service may change: the statics, the service
    fields, and the log by calls of [getArweaveConfig] only. *)
Definition quiet {index : Type} (w w' : World index) : Prop :=
  db w' = db w /\ embedding w' = embedding w /\
  exists evs, log w' = (evs ++ log w)%list /\ onlyConfigCalls evs.

(** A service that passes [ensureInitialized] without initialising. *)
Definition initialised {index : Type} (w : World index) : Prop :=
  isInitialized (service w) = true /\ is_Some (vectorDb (service w)).

(** What a call of the embedding engine may change: its own fields. *)
Definition embeddingOnly {index : Type} (w w' : World index) : Prop :=
  statics w' = statics w /\ service w' = service w /\
  db w' = db w /\ log w' = log w.

(** The index keeps what it is given: the vector inserted when the count
    was [n] is the one read back under the id [n]. *)
Definition keepsInserted (index : Type) `{VectorIndex index} : Prop :=
  forall (d d' : index) v md n,
    get_datasize d = Ok n ->
    insert d v md = (Ok tt, d') ->
    get_vector d' n = Ok (Some {| point := v; sv_metadata := md |}).

(** A hit whose metadata carries an importance of at least [lo]. *)
Definition importanceAtLeast (lo : Z) (r : MemoryResult) : Prop :=
  exists md i, mr_metadata r = Some md /\ importance md = Some i /\ lo <= i.

(** A hit that carries no metadata mapping. *)
Definition withoutMetadata (r : MemoryResult) : bool :=
  match mr_metadata r with
  | None => true
  | Some _ => false
  end.

(** A thrown value of the class [DeploymentError]. *)
Definition isDeploymentError (e : Exn) : Prop :=
  className e = Some "DeploymentError".

(** The two messages of a refused deployment. *)
Definition devRefusal (readableBalance : string) : string :=
  "Failed to deploy contract: Insufficient wallet balance. Current: "
  ++ readableBalance
  ++ " AR. 💡 Dev tip: ArLocal should auto-mint tokens. Check ArLocal is running.".

Definition prodRefusal (readableBalance : string) : string :=
  "Failed to deploy contract: Insufficient wallet balance for deployment. Current: "
  ++ readableBalance ++ " AR.".

(** The distances of a list of results, in order. *)
Definition distances (rs : list MemoryResult) : list Q :=
  omap mr_distance rs.

End Spec.

(** ** AppwriteService.ts (subscriptions and instances) *)

Module Appwrite.

(** A subscription document: its [$id] and its fields. *)
Record SubscriptionDoc : Type := mkSubscriptionDoc {
  sub_id : string;
  sub : Quota.Subscription
}.

(** [interface Instance], the fields the routes read, with its [$id]. *)
Record Instance : Type := mkInstance {
  inst_id : string;
  userId : string;
  contractId : string;
  isActive : option bool
}.

(** The Appwrite database client, by the outcome of its calls. *)
Record Databases : Type := mkDatabases {
  listSubscriptions : string -> Res (list SubscriptionDoc);  (* by userId, limit 1 *)
  listInstances : string -> Res (list Instance);             (* by userId *)
  getDocument : string -> Res SubscriptionDoc;
  updateDocument : string -> Z -> Res SubscriptionDoc        (* { quotaUsed } *)
}.

Section Service.
Context (databases : Databases).

(** The state kept here is the list of the updates sent to the
    subscriptions collection, most recent first: the id and the new
    [quotaUsed]. *)
Local Abbreviation A := (M (list (string * Z))).

(** [static async getUserSubscription(userId)] *)
Definition getUserSubscription (userId : string) : A (option SubscriptionDoc) :=
  try_catch
    (result ← await (listSubscriptions databases userId);
     mret (head result))
    (fun error => throw error).

(** [static async updateQuota(subscriptionId, quotaUsed)] *)
Definition updateQuota (subscriptionId : string) (quotaUsed : Z) : A SubscriptionDoc :=
  try_catch
    (modify (cons (subscriptionId, quotaUsed));;
     await (updateDocument databases subscriptionId quotaUsed))
    (fun error => throw error).

(** [static async incrementQuota(subscriptionId)] *)
Definition incrementQuota (subscriptionId : string) : A SubscriptionDoc :=
  try_catch
    (subscription ← await (getDocument databases subscriptionId);
     updateQuota subscriptionId (Quota.quotaUsed (sub subscription) + 1))
    (fun error => throw error).

(** [static async listUserInstances(userId)] *)
Definition listUserInstances (userId : string) : A (list Instance) :=
  try_catch
    (result ← await (listInstances databases userId);
     mret result)
    (fun error => throw error).

End Service.

End Appwrite.

(** ** utils/responses.ts *)

Module Responses.

(** [SuccessResponse<T>] and [ErrorResponse]. *)
Inductive ApiResponse (T : Type) : Type :=
  | Success (data : T) (message : option string) (timestamp : string)
  | Failure (error : string) (details : option string) (timestamp : string).
Arguments Success {T} data message timestamp.
Arguments Failure {T} error details timestamp.

Section Helpers.
(** [new Date().toISOString()] at the time of the call. *)
Context (now : string).

(** [successResponse(data, message?)]: an empty message is left out. *)
Definition successResponse {T} (data : T) (message : option string) : ApiResponse T :=
  Success data (Memory.nonEmpty message) now.

(** [errorResponse(error, details?)] *)
Definition errorResponse {T} (error : string) (details : option string) : ApiResponse T :=
  Failure error details now.

End Helpers.

End Responses.

(** ** routes/memories.ts *)

Module Routes.

Import Embedding Schemas Eizen Memory Responses.

(** [interface AppUser], by its [$id]. *)
Record AppUser : Type := mkAppUser {
  user_id : string;
  email : string;
  name : string
}.

(** What [c.json(body, status)] answers. *)
Record Response (T : Type) : Type := mkResponse {
  status : Z;
  body : ApiResponse T
}.
Arguments mkResponse {T} status body.
Arguments status {T} r.
Arguments body {T} r.

(** The server: the process of the user's contract and the updates sent
    to the subscriptions collection. *)
Record Server (index : Type) : Type := mkServer {
  world : World index;
  updates : list (string * Z)
}.
Arguments mkServer {index} world updates.
Arguments world {index} s.
Arguments updates {index} s.

Section Handlers.
Context {index : Type} `{VectorIndex index}.
Context (env : Env) (be : Backend) (dateValue : string -> option Z).
Context (databases : Appwrite.Databases).
Context (now : string).
(** [Number.parseInt(text, 10)], [None] for NaN. *)
Context (parseInt : string -> option Z).

Local Abbreviation R := (M (Server index)).

Definition inWorld {A} (c : M (World index) A) : R A :=
  mkM (fun s => let '(r, w) := run c (world s) in (r, mkServer w (updates s))).

Definition inAppwrite {A} (c : M (list (string * Z)) A) : R A :=
  mkM (fun s => let '(r, u) := run c (updates s) in (r, mkServer (world s) u)).

(** [c.json(body)] and [c.json(body, status)] *)
Definition json {T} (body : ApiResponse T) (status : Z) : R (Response T) :=
  mret (mkResponse status body).

(** [instances.find(i => i.isActive) || instances[0]] *)
Definition pickInstance (instances : list Appwrite.Instance) : option Appwrite.Instance :=
  match List.find (fun i => default false (Appwrite.isActive i)) instances with
  | Some i => Some i
  | None => head instances
  end.

(** [async function getUserMemoryService(c)]: the service inside the new
    [MemoryService], or [None] for [null]. *)
Definition getUserMemoryService (user : option AppUser) : R (option EizenService) :=
  match user with
  | None => mret None
  | Some user =>
      try_catch
        (instances ← inAppwrite (Appwrite.listUserInstances databases (user_id user));
         if (length instances =? 0)%nat then mret None
         else match pickInstance instances with
         | None => mret None
         | Some instance =>
             let contractId := Appwrite.contractId instance in
             if negb (truthy contractId) then mret None
             else
               inWorld (forContract env contractId);;
               eizenService ← inWorld (gets service);
               mret (Some eizenService)
         end)
        (fun _ => mret None)
  end.

(** The handler of [POST /memories/insert], after the quota middleware and
    the validator: [body] is the validated request. *)
Definition insertHandler (user : option AppUser) (body : CreateMemory)
  : R (Response CreateMemoryResult) :=
  try_catch
    (match user with
     | None => json (errorResponse now "Authentication failed" (Some "User not found")) 401
     | Some user =>
         memoryService ← getUserMemoryService (Some user);
         match memoryService with
         | None =>
             json (errorResponse now "Memory service not available"
                     (Some "Unable to initialize memory service")) 500
         | Some _ =>
             result ← inWorld (createMemory env be body);
             try_catch
               (subscription ← inAppwrite
                  (Appwrite.getUserSubscription databases (user_id user));
                match subscription with
                | Some subscription =>
                    inAppwrite (Appwrite.incrementQuota databases
                                  (Appwrite.sub_id subscription));;
                    mret tt
                | None => mret tt
                end)
               (fun _ => mret tt);;
             json (successResponse now result (Some "Memory created successfully")) 201
         end
     end)
    (fun error =>
       json (errorResponse now "Failed to create memory" (Some (messageOf error))) 500).

(** The handler of [POST /memories/search]. *)
Definition searchHandler (user : option AppUser) (body : SearchMemory)
  : R (Response (list MemoryResult)) :=
  try_catch
    (memoryService ← getUserMemoryService user;
     match memoryService with
     | None =>
         json (errorResponse now "Memory service not available"
                 (Some "Unable to initialize memory service")) 500
     | Some _ =>
         results ← inWorld (searchMemories env be dateValue body);
         json (successResponse now results
                 (Some ("Found " ++ showZ (Z.of_nat (length results))
                        ++ " relevant memories"))) 200
     end)
    (fun error =>
       json (errorResponse now "Failed to search memories" (Some (messageOf error))) 500).

(** The handler of [GET /memories/:id]; [idParam] is [c.req.param('id')]. *)
Definition getHandler (user : option AppUser) (idParam : string)
  : R (Response MemoryResult) :=
  try_catch
    (memoryService ← getUserMemoryService user;
     match memoryService with
     | None =>
         json (errorResponse now "Memory service not available"
                 (Some "Unable to initialize memory service")) 500
     | Some _ =>
         match parseInt idParam with
         | None =>
             json (errorResponse now "Invalid memory ID"
                     (Some "Memory ID must be a number")) 400
         | Some memoryId =>
             memory ← inWorld (getMemory env memoryId);
             match memory with
             | None =>
                 json (errorResponse now "Memory not found"
                         (Some ("No memory found with ID: " ++ showZ memoryId))) 404
             | Some memory =>
                 json (successResponse now memory
                         (Some "Memory retrieved successfully")) 200
             end
         end
     end)
    (fun error =>
       json (errorResponse now "Failed to retrieve memory" (Some (messageOf error))) 500).

(** The handler of [GET /memories]. *)
Definition statsHandler (user : option AppUser) : R (Response MemoryStats) :=
  try_catch
    (memoryService ← getUserMemoryService user;
     match memoryService with
     | None =>
         json (errorResponse now "Memory service not available"
                 (Some "Unable to initialize memory service")) 500
     | Some _ =>
         stats ← inWorld Memory.getStats;
         json (successResponse now stats (Some "Memory statistics retrieved")) 200
     end)
    (fun error =>
       json (errorResponse now "Failed to get memory statistics"
               (Some (messageOf error))) 500).

End Handlers.

End Routes.

(** ** Further concrete processes *)

Module Scenes.

Import Embedding Schemas Eizen Memory.

(** A backend whose first load fails and whose later loads succeed. *)
Definition slowStart : Backend :=
  {| pipeline := fun n =>
       match n with
       | O => Throw (newError "model download failed")
       | S _ => Ok tt
       end;
     extract := extract Demo.backend |}.

(** A backend whose encoder rejects every input. *)
Definition deaf : Backend :=
  {| pipeline := fun _ => Ok tt;
     extract := fun _ => Throw (newError "session closed") |}.

(** A backend that answers two texts with two rows of two components. *)
Definition pairs : Backend :=
  {| pipeline := fun _ => Ok tt;
     extract := fun _ => Ok {| data := [1%Q; 2%Q; 3%Q; 4%Q]; dims := [2; 2] |} |}.

(** Metadata written by a client named cursor-ide. *)
Definition cursorNote : VectorMetadata :=
  {| content := None; context := None; importance := None; tags := None;
     timestamp := None; client := Some "cursor-ide"; sessionId := None;
     userId := None; createdAt := None; extra := ∅ |}.

(** The filter of one category alone, the other categories left out. *)
Definition onlyTags (f : SearchFilters) : SearchFilters :=
  {| f_tags := f_tags f; importance_min := None; importance_max := None;
     date_from := None; date_to := None; f_context := None; f_client := None |}.
Definition onlyMin (f : SearchFilters) : SearchFilters :=
  {| f_tags := None; importance_min := importance_min f; importance_max := None;
     date_from := None; date_to := None; f_context := None; f_client := None |}.
Definition onlyMax (f : SearchFilters) : SearchFilters :=
  {| f_tags := None; importance_min := None; importance_max := importance_max f;
     date_from := None; date_to := None; f_context := None; f_client := None |}.
Definition onlyClient (f : SearchFilters) : SearchFilters :=
  {| f_tags := None; importance_min := None; importance_max := None;
     date_from := None; date_to := None; f_context := None; f_client := f_client f |}.
Definition onlyDates (f : SearchFilters) : SearchFilters :=
  {| f_tags := None; importance_min := None; importance_max := None;
     date_from := date_from f; date_to := date_to f;
     f_context := None; f_client := None |}.

(** Timestamps written as day numbers, read as such. *)
Definition dayNumber (text : string) : option Z :=
  Z.of_uint <$> NilZero.uint_of_string text.

(** Metadata stamped on day 20260115, and a request for January 2026. *)
Definition stamped : VectorMetadata :=
  {| content := None; context := None; importance := Some 3; tags := None;
     timestamp := None; client := None; sessionId := None;
     userId := None; createdAt := Some "20260115"; extra := ∅ |}.

Definition january : SearchFilters :=
  {| f_tags := None; importance_min := Some 2; importance_max := None;
     date_from := Some "20260101"; date_to := Some "20260131";
     f_context := None; f_client := None |}.

(** A search request asking for more neighbours than the schema allows. *)
Definition wide : SearchMemory :=
  {| sm_query := "anything"; sm_k := Some 250; sm_filters := None |}.

(** A user with two instances, the second one active, and a subscription
    whose usage cannot be written. *)
Definition alice : Routes.AppUser :=
  Routes.mkAppUser "alice" "alice@example.org" "Alice".

Definition almostFull : Appwrite.SubscriptionDoc :=
  Appwrite.mkSubscriptionDoc "sub-1"
    (Quota.mkSubscription "alice" Quota.pro 1000 999 true "2026-02-01").

Definition office : Appwrite.Databases :=
  {| Appwrite.listSubscriptions := fun _ => Ok [almostFull];
     Appwrite.listInstances := fun _ =>
       Ok [Appwrite.mkInstance "inst-1" "alice" "contract-old" (Some false);
           Appwrite.mkInstance "inst-2" "alice" "contract-new" (Some true)];
     Appwrite.getDocument := fun _ => Ok almostFull;
     Appwrite.updateDocument := fun _ _ => Throw (newError "quota write refused") |}.

(** A user without any instance. *)
Definition emptyOffice : Appwrite.Databases :=
  {| Appwrite.listSubscriptions := fun _ => Ok [];
     Appwrite.listInstances := fun _ => Ok [];
     Appwrite.getDocument := fun _ => Throw (newError "document not found");
     Appwrite.updateDocument := fun _ _ => Throw (newError "document not found") |}.

Definition opening : Routes.Server ListIndex.t :=
  Routes.mkServer (Demo.start []) [].

(** Metadata that records an importance and nothing else. *)
Definition rated (i : Z) : VectorMetadata :=
  {| content := None; context := None; importance := Some i; tags := None;
     timestamp := None; client := None; sessionId := None;
     userId := None; createdAt := None; extra := ∅ |}.

(** Five stored vectors around the point (20, 2, 1), which is what
    [Demo.encode] makes of "dark mode preference".  By distance their ids
    come as 3, 1, 2, 0, 4; the vector 2 has no metadata, the vector 4 has
    metadata without an importance. *)
Definition shelf : ListIndex.t :=
  [ {| point := [23%Q; 2%Q; 1%Q]; sv_metadata := Some (rated 9) |};
    {| point := [21%Q; 2%Q; 1%Q]; sv_metadata := Some (rated 2) |};
    {| point := [22%Q; 2%Q; 1%Q]; sv_metadata := None |};
    {| point := [20%Q; 2%Q; 1%Q]; sv_metadata := Some (rated 7) |};
    {| point := [24%Q; 2%Q; 1%Q]; sv_metadata := Some cursorNote |} ].

(** The four nearest neighbours, of importance 5 at least. *)
Definition topFour : SearchMemory :=
  {| sm_query := "dark mode preference";
     sm_k := Some 4;
     sm_filters := Some {| f_tags := None; importance_min := Some 5;
                           importance_max := None; date_from := None;
                           date_to := None; f_context := None; f_client := None |} |}.

(** The server of a process that starts on the shelf of five vectors. *)
Definition library : Routes.Server ListIndex.t :=
  Routes.mkServer (Demo.start shelf) [].

(** [unit.repeat(n)] *)
Fixpoint repeated (n : nat) (unit : string) : string :=
  match n with
  | O => ""
  | S n' => unit ++ repeated n' unit
  end.

(** A request whose content is ten thousand times the letter e with an
    acute accent: 10,000 characters in 20,000 bytes. *)
Definition accents : CreateMemory :=
  {| cm_content := repeated (100 * 100) "é"; cm_metadata := Some (rated 4) |}.

(** Decimal ids only. *)
Definition decimalId (text : string) : option Z :=
  Z.of_uint <$> NilZero.uint_of_string text.

(** An embedding service after a successful load. *)
Definition loaded : EmbeddingService :=
  {| extractor := true; Embedding.isInitialized := true;
     initializationPromise := None; loads := 1 |}.

End Scenes.

(** * Properties *)

Import Embedding Schemas Eizen Memory Spec.

(** ** Running the monad *)

Lemma run_bind {S A B} (c : M S A) (k : A -> M S B) (s : S) :
  run (c ≫= k) s =
  match run c s with
  | (Ok a, s') => run (k a) s'
  | (Throw e, s') => (Throw e, s')
  end.
Proof. reflexivity. Qed.

Lemma run_try_catch {S A} (body : M S A) (handler : Exn -> M S A) (s : S) :
  run (try_catch body handler) s =
  match run body s with
  | (Ok a, s') => (Ok a, s')
  | (Throw e, s') => run (handler e) s'
  end.
Proof. reflexivity. Qed.

(** A [try]/[catch] whose handler rethrows never turns a failure into a
    result: a result of the whole is a result of the body. *)
Lemma try_catch_rethrow_ok {S A} (body : M S A) (wrap : Exn -> Exn) s a s' :
  run (try_catch body (fun e => throw (wrap e))) s = (Ok a, s') ->
  run body s = (Ok a, s').
Proof.
  rewrite run_try_catch. destruct (run body s) as [[x|e] s1]; cbn; congruence.
Qed.

(** ** EizenService: the shared configuration and initialisation *)

Section EizenFacts.
Context {index : Type} `{VectorIndex index} (env : Env).

Lemma quiet_refl (w : World index) : quiet w w.
Proof. repeat split. exists []. split; [reflexivity | constructor]. Qed.

Lemma quiet_trans (w1 w2 w3 : World index) :
  quiet w1 w2 -> quiet w2 w3 -> quiet w1 w3.
Proof.
  intros (Hd1 & He1 & evs1 & Hl1 & Hc1) (Hd2 & He2 & evs2 & Hl2 & Hc2).
  repeat split; [congruence | congruence |].
  exists (evs2 ++ evs1)%list. split.
  - rewrite Hl2, Hl1. apply app_assoc.
  - apply Forall_app; split; assumption.
Qed.

Lemma getSharedArweaveConfig_quiet (w : World index) r w' :
  run (getSharedArweaveConfig env) w = (r, w') ->
  quiet w w' /\ service w' = service w.
Proof.
  unfold getSharedArweaveConfig. destruct w as [[shared promise] sv d e l]. cbn.
  destruct shared as [c|]; cbn.
  - intros [= <- <-]. split; [apply quiet_refl | reflexivity].
  - destruct promise as [p|]; cbn.
    + destruct p as [c|err]; cbn; intros [= <- <-];
        (split; [| reflexivity]); repeat split;
        exists []; (split; [reflexivity | constructor]).
    + destruct (getArweaveConfig env _) as [c|err]; cbn; intros [= <- <-];
        (split; [| reflexivity]); repeat split;
        exists [CallGetArweaveConfig]; (split; [reflexivity | repeat constructor]).
Qed.

Lemma initialize_quiet (w : World index) r w' :
  run (initialize env) w = (r, w') ->
  quiet w w' /\ (r = Ok tt -> initialised w').
Proof.
  unfold initialize. rewrite run_try_catch, run_bind.
  destruct (run (getSharedArweaveConfig env) w) as [[c|err] w1] eqn:E;
    apply getSharedArweaveConfig_quiet in E as [Q _].
  - cbn. intros [= <- <-]. split; [| intros _; split; cbn; eauto].
    destruct Q as (? & ? & ?). repeat split; assumption.
  - cbn. intros [= <- <-]. split; [assumption | discriminate].
Qed.

Lemma ensureInitialized_quiet (w : World index) r w' :
  run (ensureInitialized env) w = (r, w') ->
  quiet w w' /\ (r = Ok tt -> initialised w').
Proof.
  unfold ensureInitialized. rewrite run_bind. cbn [gets run].
  rewrite run_bind.
  destruct (isInitialized (service w)) eqn:I; cbn [negb].
  - cbn. destruct (vectorDb (service w)) eqn:V; cbn; intros [= <- <-];
      (split; [apply quiet_refl |]); [| discriminate].
    intros _. split; [assumption | rewrite V; eauto].
  - destruct (run (initialize env) w) as [[[]|err] w1] eqn:E;
      apply initialize_quiet in E as [Q V].
    + cbn. destruct (V eq_refl) as [Hi [h Hh]]. rewrite Hh. cbn.
      intros [= <- <-]. split; [assumption | intros _; split; [assumption | rewrite Hh; eauto]].
    + intros [= <- <-]. split; [assumption | discriminate].
Qed.

(** An initialised service is left as it is. *)
Lemma ensureInitialized_again (w : World index) :
  initialised w -> run (ensureInitialized env) w = (Ok tt, w).
Proof.
  intros [I [h V]]. unfold ensureInitialized. rewrite run_bind. cbn [gets run].
  rewrite I. cbn. rewrite V. reflexivity.
Qed.

End EizenFacts.

(** ** EizenService: the index operations *)

Section EizenOperations.
Context {index : Type} `{VectorIndex index} (env : Env).

Lemma insertVector_inv data w r w' :
  run (insertVector env data) w = (Ok r, w') ->
  exists w1 n d',
    run (ensureInitialized env) w = (Ok tt, w1) /\
    get_datasize (db w1) = Ok n /\
    insert (db w1) (vector data) (iv_metadata data) = (Ok tt, d') /\
    success r = true /\ vectorId r = n /\
    w' = set_db d' (logCall (CallInsert (vector data) (iv_metadata data))
                            (logCall CallGetDatasize w1)).
Proof.
  unfold insertVector. rewrite run_bind.
  destruct (run (ensureInitialized env) w) as [[[]|err] w1] eqn:E; [| discriminate].
  rewrite run_bind. cbn [gets run].
  destruct (vectorDb (service w1)); [| discriminate].
  intros R. apply try_catch_rethrow_ok in R. revert R. cbn.
  destruct (get_datasize (db w1)) as [n|err] eqn:G; cbn; [| discriminate].
  destruct (insert (db w1) (vector data) (iv_metadata data)) as [[[]|err] d'] eqn:I;
    cbn; [| discriminate].
  intros [= <- <-]. exists w1, n, d'. repeat split; assumption.
Qed.

Lemma searchVectors_inv data w rs w' :
  run (searchVectors env data) w = (Ok rs, w') ->
  exists w1 hits,
    run (ensureInitialized env) w = (Ok tt, w1) /\
    knn_search (db w1) (query data) (k data) = Ok hits /\
    rs = hits /\
    w' = logCall (CallKnnSearch (query data) (k data)) w1.
Proof.
  unfold searchVectors. rewrite run_bind.
  destruct (run (ensureInitialized env) w) as [[[]|err] w1] eqn:E; [| discriminate].
  rewrite run_bind. cbn [gets run].
  destruct (vectorDb (service w1)); [| discriminate].
  intros R. apply try_catch_rethrow_ok in R. revert R. cbn.
  destruct (knn_search (db w1) (query data) (k data)) as [hits|err] eqn:K;
    cbn; [| discriminate].
  intros [= <- <-]. exists w1, hits. repeat split; try assumption.
  clear. induction hits as [|[i d md] hits IH]; cbn; [reflexivity | now f_equal].
Qed.

Lemma getVector_run vectorId w w1 v :
  run (ensureInitialized env) w = (Ok tt, w1) ->
  get_vector (db w1) vectorId = Ok (Some v) ->
  run (getVector env vectorId) w = (Ok (Some v), logCall (CallGetVector vectorId) w1).
Proof.
  intros E G. unfold getVector. rewrite run_bind, E, run_bind. cbn [gets run].
  destruct (ensureInitialized_quiet env _ _ _ E) as [_ V].
  destruct (V eq_refl) as [_ [h Hh]]. rewrite Hh.
  rewrite run_try_catch. cbn. rewrite G. cbn. now destruct v.
Qed.

End EizenOperations.

(** ** MemoryService: the embedding helper *)

Section MemoryFacts.
Context {index : Type} `{VectorIndex index}.
Context (env : Env) (be : Backend) (dateValue : string -> option Z).

Lemma textToEmbeddings_frame text (w : World index) r w' :
  run (Memory.textToEmbeddings be text) w = (r, w') -> embeddingOnly w w'.
Proof.
  unfold Memory.textToEmbeddings. rewrite run_try_catch, run_bind.
  unfold liftE at 1. cbn [run].
  destruct (run (Embedding.textToEmbeddings be text) (embedding w)) as [[res|err] e1];
    cbn; intros [= <- <-]; repeat split.
Qed.

End MemoryFacts.

Section MemoryOperations.
Context {index : Type} `{VectorIndex index}.
Context (env : Env) (be : Backend) (dateValue : string -> option Z).

Lemma createMemory_inv data (w : World index) r w' :
  run (createMemory env be data) w = (Ok r, w') ->
  exists v w0 ir,
    run (Memory.textToEmbeddings be (cm_content data)) w = (Ok v, w0) /\
    run (insertVector env {| vector := v; iv_metadata := Some (enhance data) |}) w0
      = (Ok ir, w') /\
    cr_success r = true /\ memoryId r = vectorId ir.
Proof.
  intros R. unfold createMemory in R. apply try_catch_rethrow_ok in R.
  rewrite run_bind in R.
  destruct (run (Memory.textToEmbeddings be (cm_content data)) w) as [[v|err] w0] eqn:T;
    [| discriminate].
  rewrite run_bind in R.
  destruct (run (insertVector env _) w0) as [[ir|err] w1] eqn:I; [| discriminate].
  cbn in R. injection R as <- <-. exists v, w0, ir. repeat split. exact I.
Qed.

Lemma searchMemories_inv data (w : World index) rs w' :
  run (searchMemories env be dateValue data) w = (Ok rs, w') ->
  exists v w0 hits,
    run (Memory.textToEmbeddings be (sm_query data)) w = (Ok v, w0) /\
    run (searchVectors env {| query := v; k := kOrDefault (sm_k data) |}) w0
      = (Ok hits, w') /\
    rs = applyFilters dateValue (map toMemory hits) (sm_filters data).
Proof.
  intros R. unfold searchMemories in R. apply try_catch_rethrow_ok in R.
  rewrite run_bind in R.
  destruct (run (Memory.textToEmbeddings be (sm_query data)) w) as [[v|err] w0] eqn:T;
    [| discriminate].
  rewrite run_bind in R.
  destruct (run (searchVectors env _) w0) as [[hits|err] w1] eqn:I; [| discriminate].
  cbn in R. injection R as <- <-. exists v, w0, hits. repeat split. exact I.
Qed.

End MemoryOperations.

(** ** Identifiers and the round trip of the content *)

Lemma embedding_textToEmbeddings_ready be (s : EmbeddingService) text tensor :
  Embedding.isInitialized s = true ->
  extractor s = true ->
  extract be [text] = Ok tensor ->
  run (Embedding.textToEmbeddings be text) s
  = (Ok {| embeddings := data tensor;
           dimensions := Z.of_nat (length (data tensor));
           model := modelName |}, s).
Proof.
  intros Hinit Hex Hresp.
  unfold Embedding.textToEmbeddings, Embedding.ensureInitialized.
  rewrite !run_bind. cbn [get gets run]. rewrite Hinit, Hex. cbn [andb negb].
  cbn [mret M_ret ret run]. rewrite run_bind. cbn [gets run]. rewrite Hex. cbn [negb].
  rewrite run_try_catch, run_bind. cbn [await run]. rewrite Hresp. reflexivity.
Qed.

Section Creation.
Context {index : Type} `{VectorIndex index}.
Context (env : Env) (be : Backend).

(** On a process that is ready, [createMemory] returns as soon as the
    encoder, the count and the insert answer. *)
Lemma createMemory_ready data (w : World index) tensor n d' :
  Embedding.isInitialized (embedding w) = true ->
  extractor (embedding w) = true ->
  initialised w ->
  extract be [cm_content data] = Ok tensor ->
  get_datasize (db w) = Ok n ->
  insert (db w) (Embedding.data tensor) (Some (enhance data)) = (Ok tt, d') ->
  run (createMemory env be data) w
  = (Ok {| cr_success := true;
           memoryId := n;
           cr_message := "Memory created from " ++ showZ (strlen (cm_content data))
                         ++ " characters of content" |},
     set_db d' (logCall (CallInsert (Embedding.data tensor) (Some (enhance data)))
                        (logCall CallGetDatasize w))).
Proof.
  intros Hinit Hex Init Hresp Hcount Hins.
  assert (T : run (Memory.textToEmbeddings be (cm_content data)) w = (Ok (Embedding.data tensor), w)).
  { unfold Memory.textToEmbeddings. rewrite run_try_catch, run_bind.
    unfold liftE at 1. cbn [run].
    rewrite (embedding_textToEmbeddings_ready be _ _ tensor Hinit Hex Hresp).
    destruct w. reflexivity. }
  assert (V : run (insertVector env
                     {| vector := Embedding.data tensor; iv_metadata := Some (enhance data) |}) w
              = (Ok {| success := true; vectorId := n;
                       message := "Vector inserted successfully with ID: " ++ showZ n |},
                 set_db d' (logCall (CallInsert (Embedding.data tensor) (Some (enhance data)))
                                    (logCall CallGetDatasize w)))).
  { unfold insertVector. rewrite run_bind, (ensureInitialized_again env w Init).
    rewrite run_bind. cbn [gets run]. destruct Init as [_ [h ->]].
    rewrite run_try_catch. cbn. rewrite Hcount. cbn. rewrite Hins. reflexivity. }
  unfold createMemory. rewrite run_try_catch, run_bind, T, run_bind, V. reflexivity.
Qed.

End Creation.

Lemma strlen_nonempty (s : string) : 1 <= strlen s -> truthy s = true.
Proof. unfold strlen. destruct s; cbn [codeUnits truthy]; [lia | reflexivity]. Qed.

(** C5: the id assigned by a successful [insertVector] is the element count
    of the index read just before the insert (the count is read, then the
    vector is inserted into that same index state); in particular a
    [createMemory] that succeeds on a store whose count is 0 returns
    [success = true] and [memoryId = 0], and on a ready process it does
    succeed once the encoder, the count and the insert answer. *)
Theorem insert_assigns_prior_count :
  forall (index : Type) (H : VectorIndex index) (env : Env) (be : Backend),
    (forall (data : InsertVector) (w w' : World index) (r : EizenInsertResult),
        run (insertVector env data) w = (Ok r, w') ->
        success r = true /\
        get_datasize (db w) = Ok (vectorId r) /\
        insert (db w) (vector data) (iv_metadata data) = (Ok tt, db w') /\
        exists w1, quiet w w1 /\
          log w' = CallInsert (vector data) (iv_metadata data)
                   :: CallGetDatasize :: log w1)
    /\
    (forall (data : CreateMemory) (w w' : World index) (r : CreateMemoryResult),
        get_datasize (db w) = Ok 0 ->
        run (createMemory env be data) w = (Ok r, w') ->
        cr_success r = true /\ memoryId r = 0)
    /\
    (forall (data : CreateMemory) (w : World index) tensor d',
        Embedding.isInitialized (embedding w) = true ->
        extractor (embedding w) = true ->
        initialised w ->
        extract be [cm_content data] = Ok tensor ->
        get_datasize (db w) = Ok 0 ->
        insert (db w) (Embedding.data tensor) (Some (enhance data)) = (Ok tt, d') ->
        exists r w',
          run (createMemory env be data) w = (Ok r, w') /\
          cr_success r = true /\ memoryId r = 0).
Proof.
  intros index H env be.
  assert (Hins : forall (data : InsertVector) (w w' : World index) r,
        run (insertVector env data) w = (Ok r, w') ->
        success r = true /\
        get_datasize (db w) = Ok (vectorId r) /\
        insert (db w) (vector data) (iv_metadata data) = (Ok tt, db w') /\
        exists w1, quiet w w1 /\
          log w' = CallInsert (vector data) (iv_metadata data)
                   :: CallGetDatasize :: log w1).
  { intros data w w' r R.
    destruct (insertVector_inv env _ _ _ _ R) as (w1 & n & d' & E & G & I & S & V & ->).
    destruct (ensureInitialized_quiet env _ _ _ E) as [Q _].
    pose proof Q as (Hdb & _ & _). rewrite Hdb in G, I.
    repeat split; [assumption | congruence | exact I |].
    exists w1. split; [assumption | reflexivity]. }
  split; [exact Hins |]. split.
  - intros data w w' r G R.
    destruct (createMemory_inv env be _ _ _ _ R) as (v & w0 & ir & T & I & S & Hid).
    apply textToEmbeddings_frame in T as (_ & _ & Hdb & _).
    apply Hins in I as (_ & G' & _).
    rewrite Hdb, G in G'. split; [assumption | congruence].
  - intros data w tensor d' Hinit Hex Init Hresp Hcount Hinsert.
    eexists _, _. split.
    + exact (createMemory_ready env be data w tensor 0 d'
               Hinit Hex Init Hresp Hcount Hinsert).
    + split; reflexivity.
Qed.

(** The dark-mode memory created by a process that has just started, on an
    empty list index, gets the id 0. *)
Lemma insert_assigns_prior_count_witness :
  exists r w',
    run (createMemory Demo.env Demo.backend Demo.darkMode)
        (Demo.start ([] : ListIndex.t)) = (Ok r, w') /\
    cr_success r = true /\ memoryId r = 0.
Proof.
  eexists _, _. split; [cbv; reflexivity |].
  eapply (proj1 (proj2 (insert_assigns_prior_count ListIndex.t _ Demo.env Demo.backend))
                Demo.darkMode (Demo.start [])); [reflexivity | cbv; reflexivity].
Defined.

Section RoundTrip.
Context {index : Type} `{VectorIndex index}.
Context (env : Env) (be : Backend).

Lemma getMemory_after_createMemory data (w w' : World index) r :
  keepsInserted index ->
  truthy (cm_content data) = true ->
  run (createMemory env be data) w = (Ok r, w') ->
  exists v rest,
    log w' = CallInsert v (Some (enhance data)) :: rest /\
    run (getMemory env (memoryId r)) w'
      = (Ok (Some {| mr_id := memoryId r;
                     mr_content := Some (cm_content data);
                     mr_metadata := Some (enhance data);
                     mr_distance := None |}),
         logCall (CallGetVector (memoryId r)) w').
Proof.
  intros Law Hne R.
  destruct (createMemory_inv env be _ _ _ _ R) as (v & w0 & ir & T & I & S & Hid).
  destruct (insertVector_inv env _ _ _ _ I) as (w1 & n & d' & E & G & Ins & _ & V & ->).
  cbn [vector iv_metadata] in *.
  exists v, (CallGetDatasize :: log w1). split; [reflexivity |].
  destruct (ensureInitialized_quiet env _ _ _ E) as [_ Init].
  specialize (Init eq_refl).
  set (w' := set_db d' _) in *.
  assert (Again : run (ensureInitialized env) w' = (Ok tt, w'))
    by (apply ensureInitialized_again; exact Init).
  pose proof (Law _ _ _ _ _ G Ins) as Got.
  rewrite Hid, V in *.
  assert (Read := getVector_run env n w' w' _ Again Got).
  unfold getMemory. rewrite run_try_catch, run_bind, Read. cbn.
  rewrite Hne. reflexivity.
Qed.

End RoundTrip.

(** C3: for every content of 1 to 10,000 characters and any caller metadata
    (with or without a content key of its own), a successful [createMemory]
    stores metadata whose content field is the original text, and
    [getMemory] of the returned id yields that text and that metadata, on
    an index that keeps what it is given. *)
Theorem createMemory_getMemory_roundtrip :
  forall (index : Type) (H : VectorIndex index) (env : Env) (be : Backend)
         (data : CreateMemory) (w w' : World index) (r : CreateMemoryResult),
    keepsInserted index ->
    1 <= strlen (cm_content data) <= 10000 ->
    run (createMemory env be data) w = (Ok r, w') ->
    exists v rest stored m w'',
      log w' = CallInsert v (Some stored) :: rest /\
      content stored = Some (cm_content data) /\
      run (getMemory env (memoryId r)) w' = (Ok (Some m), w'') /\
      mr_id m = memoryId r /\
      mr_content m = Some (cm_content data) /\
      mr_metadata m = Some stored.
Proof.
  intros index H env be data w w' r Law [Hlo _] R.
  destruct (getMemory_after_createMemory env be data w w' r Law
              (strlen_nonempty _ Hlo) R) as (v & rest & Hlog & Hget).
  exists v, rest, (enhance data). eexists _, _.
  split; [exact Hlog |]. split; [reflexivity |]. split; [exact Hget |].
  repeat split.
Qed.

Lemma listIndex_keepsInserted : keepsInserted ListIndex.t.
Proof.
  intros d d' v md n G I. cbn in G, I. injection G as <-. injection I as <-.
  cbn. destruct (Z.ltb_spec (Z.of_nat (length d)) 0) as [Hneg|_]; [lia |].
  rewrite Nat2Z.id. f_equal. unfold ListIndex.t in d.
  now apply list_lookup_middle.
Qed.

(** The dark-mode memory, whose caller metadata carries another content,
    is read back with the original text. *)
Lemma createMemory_getMemory_roundtrip_witness :
  exists r w' m w'',
    run (createMemory Demo.env Demo.backend Demo.darkMode)
        (Demo.start ([] : ListIndex.t)) = (Ok r, w') /\
    run (getMemory Demo.env (memoryId r)) w' = (Ok (Some m), w'') /\
    mr_content m = Some "User prefers dark mode".
Proof.
  destruct (createMemory_getMemory_roundtrip ListIndex.t _ Demo.env Demo.backend
              Demo.darkMode (Demo.start [])
              _ _ listIndex_keepsInserted ltac:(cbv; split; discriminate) eq_refl)
    as (v & rest & stored & m & w'' & _ & _ & G & _ & C & _).
  eexists _, _, m, w''. split; [reflexivity |]. split; [exact G | exact C].
Defined.

(** ** Searching and filtering *)

Lemma filter_sublist_of {A} (f : A -> bool) (l : list A) :
  List.filter f l `sublist_of` l.
Proof.
  induction l as [|x l IH]; cbn; [constructor |].
  destruct (f x); [now apply sublist_skip | now apply sublist_cons].
Qed.

Lemma applyFilters_sublist dateValue memories filters :
  applyFilters dateValue memories filters `sublist_of` memories.
Proof.
  destruct filters as [f|]; cbn; [apply filter_sublist_of | reflexivity].
Qed.

Lemma sublist_omap {A B} (f : A -> option B) (l1 l2 : list A) :
  l1 `sublist_of` l2 -> omap f l1 `sublist_of` omap f l2.
Proof.
  induction 1 as [|x l1 l2 _ IH|x l1 l2 _ IH]; cbn.
  - constructor.
  - destruct (f x); [now apply sublist_skip | assumption].
  - destruct (f x); [now apply sublist_cons | assumption].
Qed.

Lemma sublist_map {A B} (f : A -> B) (l1 l2 : list A) :
  l1 `sublist_of` l2 -> map f l1 `sublist_of` map f l2.
Proof.
  induction 1; cbn; [constructor | now apply sublist_skip | now apply sublist_cons].
Qed.

Lemma StronglySorted_sublist {A} (R : A -> A -> Prop) (l1 l2 : list A) :
  l1 `sublist_of` l2 -> StronglySorted R l2 -> StronglySorted R l1.
Proof.
  induction 1 as [|x l1 l2 Hs IH|x l1 l2 Hs IH]; intros S.
  - constructor.
  - apply StronglySorted_inv in S as [S F]. constructor; [now apply IH |].
    rewrite Forall_forall in *. intros y Hy. apply F.
    now apply (sublist_subseteq _ _ Hs).
  - apply StronglySorted_inv in S as [S _]. now apply IH.
Qed.

Lemma distances_toMemory hits : distances (map toMemory hits) = map distance hits.
Proof. induction hits as [|h hits IH]; cbn; [reflexivity | now f_equal]. Qed.

Lemma keep_importance_min dateValue f lo r md :
  importance_min f = Some lo -> 1 <= lo ->
  keep dateValue f r = true -> mr_metadata r = Some md ->
  exists i, importance md = Some i /\ lo <= i.
Proof.
  intros Hlo Hpos K Hmd. unfold keep in K. rewrite Hmd, Hlo in K.
  destruct (match f_tags f with Some _ => _ | None => _ end); [discriminate |].
  destruct (Z.ltb_spec (default 0 (importance md)) lo) as [|Hle]; [discriminate |].
  destruct (importance md) as [i|]; cbn in Hle; [| lia].
  exists i. split; [reflexivity | assumption].
Qed.

Lemma keep_without_metadata (dateValue : string -> option Z) f (h : EizenSearchResult) :
  metadata h = None -> keep dateValue f (toMemory h) = true.
Proof. intros Hmd. unfold keep, toMemory. cbn. now rewrite Hmd. Qed.

Lemma filter_withoutMetadata_keep dateValue f (l : list MemoryResult) :
  List.filter withoutMetadata (List.filter (keep dateValue f) l)
  = List.filter withoutMetadata l.
Proof.
  induction l as [|r l IH]; [reflexivity |]. cbn [List.filter].
  destruct (keep dateValue f r) eqn:K; cbn [List.filter]; rewrite IH.
  - reflexivity.
  - unfold withoutMetadata. unfold keep in K.
    destruct (mr_metadata r); [reflexivity | discriminate K].
Qed.

Section SearchFacts.
Context {index : Type} `{VectorIndex index}.
Context (env : Env) (be : Backend) (dateValue : string -> option Z).

(** The calls a search makes, whatever its outcome. *)
Lemma searchVectors_log data (w : World index) r w' :
  run (searchVectors env data) w = (r, w') ->
  exists evs, log w' = (evs ++ log w)%list /\
    Forall (fun e => e = CallGetArweaveConfig \/
                     e = CallKnnSearch (query data) (k data)) evs.
Proof.
  unfold searchVectors. rewrite run_bind.
  destruct (run (ensureInitialized env) w) as [[[]|err] w1] eqn:E;
    apply ensureInitialized_quiet in E as [(_ & _ & evs & Hl & Hc) _].
  - rewrite run_bind. cbn [gets run].
    destruct (vectorDb (service w1)).
    + rewrite run_try_catch. cbn.
      destruct (knn_search (db w1) (query data) (k data)); cbn; intros [= <- <-];
        (exists (CallKnnSearch (query data) (k data) :: evs); split;
          [cbn; now rewrite Hl
          | constructor; [now right | eapply Forall_impl; [exact Hc | cbn; auto]]]).
    + cbn. intros [= <- <-]. exists evs. split; [assumption |].
      eapply Forall_impl; [exact Hc | cbn; auto].
  - intros [= <- <-]. exists evs. split; [assumption |].
    eapply Forall_impl; [exact Hc | cbn; auto].
Qed.

Lemma searchMemories_log data (w : World index) r w' :
  run (searchMemories env be dateValue data) w = (r, w') ->
  exists evs, log w' = (evs ++ log w)%list /\
    forall q n, In (CallKnnSearch q n) evs -> n = kOrDefault (sm_k data).
Proof.
  unfold searchMemories. rewrite run_try_catch, run_bind.
  destruct (run (Memory.textToEmbeddings be (sm_query data)) w) as [[v|err] w0] eqn:T;
    apply textToEmbeddings_frame in T as (_ & _ & _ & Hl0).
  - rewrite run_bind.
    destruct (run (searchVectors env _) w0) as [[hits|err] w1] eqn:S;
      apply searchVectors_log in S as (evs & Hl & Hc); cbn; intros [= <- <-];
      exists evs; rewrite Hl, Hl0; (split; [reflexivity |]);
      intros q n Hin; rewrite Forall_forall in Hc;
      apply list_elem_of_In in Hin;
      destruct (Hc _ Hin) as [Habs | Heq]; try discriminate;
      now injection Heq.
  - cbn. intros [= <- <-]. exists []. split; [now rewrite Hl0 | intros q n []].
Qed.

Lemma searchMemories_hits data (w : World index) rs w' :
  run (searchMemories env be dateValue data) w = (Ok rs, w') ->
  exists q hits rest,
    log w' = CallKnnSearch q (kOrDefault (sm_k data)) :: rest /\
    knn_search (db w') q (kOrDefault (sm_k data)) = Ok hits /\
    rs = applyFilters dateValue (map toMemory hits) (sm_filters data).
Proof.
  intros R.
  destruct (searchMemories_inv env be dateValue _ _ _ _ R) as (v & w0 & hits & T & S & ->).
  destruct (searchVectors_inv env _ _ _ _ S) as (w1 & hits' & E & K & -> & ->).
  cbn [query k] in *. exists v, hits', (log w1). repeat split. exact K.
Qed.

End SearchFacts.

(** C7: the results of [searchMemories] are a subsequence of the hits that
    the index search returned, mapped one to one: nothing is reordered or
    duplicated, and an ascending order of the distances survives. *)
Theorem searchMemories_subsequence :
  forall (index : Type) (H : VectorIndex index) (env : Env) (be : Backend)
         (dateValue : string -> option Z)
         (data : SearchMemory) (w w' : World index) (rs : list MemoryResult),
    run (searchMemories env be dateValue data) w = (Ok rs, w') ->
    exists q hits rest,
      log w' = CallKnnSearch q (kOrDefault (sm_k data)) :: rest /\
      knn_search (db w') q (kOrDefault (sm_k data)) = Ok hits /\
      rs `sublist_of` map toMemory hits /\
      map mr_id rs `sublist_of` map id hits /\
      (StronglySorted Qle (map distance hits) -> StronglySorted Qle (distances rs)).
Proof.
  intros index H env be dateValue data w w' rs R.
  destruct (searchMemories_hits env be dateValue _ _ _ _ R)
    as (q & hits & rest & Hlog & K & ->).
  exists q, hits, rest. split; [assumption |]. split; [assumption |].
  pose proof (applyFilters_sublist dateValue (map toMemory hits) (sm_filters data)) as Sub.
  split; [assumption |]. split.
  - replace (map id hits) with (map mr_id (map toMemory hits)).
    + now apply sublist_map.
    + rewrite map_map. reflexivity.
  - intros Sorted. eapply StronglySorted_sublist.
    + apply sublist_omap. exact Sub.
    + fold (distances (map toMemory hits)). now rewrite distances_toMemory.
Qed.

(** On the shelf of five vectors the index returns the four nearest, of
    ids 3, 1, 2, 0 at the distances 0, 1, 4, 9; the filter removes the hit 1
    from the middle, and the results are the hits 3, 2, 0 in that order. *)
Lemma searchMemories_subsequence_witness :
  exists rs w' q hits rest,
    run (searchMemories Demo.env Demo.backend Demo.noDate Scenes.topFour)
        (Demo.ready Scenes.shelf) = (Ok rs, w') /\
    log w' = CallKnnSearch q 4 :: rest /\
    knn_search (db w') q 4 = Ok hits /\
    map id hits = [3; 1; 2; 0] /\
    map distance hits = [0%Q; 1%Q; 4%Q; 9%Q] /\
    map mr_id rs = [3; 2; 0] /\
    distances rs = [0%Q; 4%Q; 9%Q] /\
    rs `sublist_of` map toMemory hits /\
    map mr_id rs `sublist_of` map id hits /\
    StronglySorted Qle (distances rs).
Proof.
  eassert (R : run (searchMemories Demo.env Demo.backend Demo.noDate Scenes.topFour)
                   (Demo.ready Scenes.shelf) = (Ok _, _))
    by (cbv; reflexivity).
  destruct (searchMemories_subsequence ListIndex.t _ Demo.env Demo.backend Demo.noDate
              Scenes.topFour _ _ _ R)
    as (q & hits & rest & Hlog & K & Sub & SubId & Sorted).
  cbn [log] in Hlog. injection Hlog as <- Hrest.
  cbv in K. injection K as <-.
  eexists _, _, _, _, rest. split; [exact R |].
  split; [now rewrite Hrest |].
  split; [cbv; reflexivity |].
  split; [reflexivity |]. split; [reflexivity |].
  split; [reflexivity |]. split; [reflexivity |].
  split; [exact Sub |]. split; [exact SubId |].
  apply Sorted. repeat constructor; unfold Qle; cbn; lia.
Defined.

(** C1, as the code has it: with [importance_min = lo >= 1], every returned
    hit that carries metadata has an importance recorded in it, and that
    importance is at least [lo]; a hit without any metadata is outside all
    the filters: every such hit of the index search is returned, and the
    returned hits without metadata are those of the index search, in its
    order. *)
Theorem searchMemories_importance_min :
  forall (index : Type) (H : VectorIndex index) (env : Env) (be : Backend)
         (dateValue : string -> option Z)
         (data : SearchMemory) (f : SearchFilters) (lo : Z)
         (w w' : World index) (rs : list MemoryResult),
    sm_filters data = Some f ->
    importance_min f = Some lo ->
    1 <= lo ->
    run (searchMemories env be dateValue data) w = (Ok rs, w') ->
    (forall r, In r rs -> is_Some (mr_metadata r) -> importanceAtLeast lo r)
    /\
    exists q hits rest,
      log w' = CallKnnSearch q (kOrDefault (sm_k data)) :: rest /\
      knn_search (db w') q (kOrDefault (sm_k data)) = Ok hits /\
      (forall h, In h hits -> metadata h = None -> In (toMemory h) rs) /\
      List.filter withoutMetadata rs
      = List.filter withoutMetadata (map toMemory hits).
Proof.
  intros index H env be dateValue data f lo w w' rs Hf Hlo Hpos R.
  destruct (searchMemories_hits env be dateValue _ _ _ _ R)
    as (q & hits & rest & Hlog & K & ->).
  rewrite Hf. cbn [applyFilters]. split.
  - intros r Hin [md Hmd]. apply filter_In in Hin as [_ Keep].
    destruct (keep_importance_min dateValue f lo r md Hlo Hpos Keep Hmd)
      as (i & Hi & Hle).
    exists md, i. repeat split; assumption.
  - exists q, hits, rest. split; [assumption |]. split; [assumption |]. split.
    + intros h Hin Hmd. apply filter_In. split; [now apply in_map |].
      apply keep_without_metadata. exact Hmd.
    + apply filter_withoutMetadata_keep.
Qed.

(** On the shelf of five vectors, a minimum of 5 keeps the hits 3 and 0 (of
    importance 7 and 9) and the hit 2, which has no metadata; it removes
    the hit 1 (of importance 2) and the hit 4 (metadata without an
    importance). *)
Lemma searchMemories_importance_min_witness :
  exists rs w' q hits rest,
    run (searchMemories Demo.env Demo.backend Demo.noDate Demo.importantOnly)
        (Demo.ready Scenes.shelf) = (Ok rs, w') /\
    log w' = CallKnnSearch q 10 :: rest /\
    knn_search (db w') q 10 = Ok hits /\
    map id hits = [3; 1; 2; 0; 4] /\
    map (fun h => md ← metadata h; importance md) hits
      = [Some 7; Some 2; None; Some 9; None] /\
    map mr_id rs = [3; 2; 0] /\
    (forall r, In r rs -> is_Some (mr_metadata r) -> importanceAtLeast 5 r) /\
    (forall h, In h hits -> metadata h = None -> In (toMemory h) rs) /\
    map mr_id (List.filter withoutMetadata rs) = [2].
Proof.
  eassert (R : run (searchMemories Demo.env Demo.backend Demo.noDate Demo.importantOnly)
                   (Demo.ready Scenes.shelf) = (Ok _, _))
    by (cbv; reflexivity).
  destruct (searchMemories_importance_min ListIndex.t _ Demo.env Demo.backend Demo.noDate
              Demo.importantOnly _ 5 _ _ _ eq_refl eq_refl ltac:(lia) R)
    as (Bound & q & hits & rest & Hlog & K & Kept & Same).
  cbn [log] in Hlog. injection Hlog as <- Hrest.
  cbv in K. injection K as <-.
  eexists _, _, _, _, rest. split; [exact R |].
  split; [now rewrite Hrest |].
  split; [cbv; reflexivity |].
  split; [reflexivity |]. split; [reflexivity |]. split; [reflexivity |].
  split; [exact Bound |]. split; [exact Kept |]. reflexivity.
Defined.

(** C1 as stated fails on a hit without metadata: a vector inserted with no
    metadata is returned by a search with [importance_min = 5], although it
    has no importance at all. *)
Lemma searchMemories_importance_min_counterexample :
  exists r w',
    run (searchMemories Demo.env Demo.backend Demo.noDate Demo.importantOnly)
        (snd (run (insertVector Demo.env
                     {| vector := [1%Q; 0%Q; 1%Q]; iv_metadata := None |})
                  (Demo.start ([] : ListIndex.t)))) = (Ok [r], w') /\
    mr_metadata r = None /\
    ~ importanceAtLeast 5 r.
Proof.
  eexists _, _. split; [cbv; reflexivity |]. split; [reflexivity |].
  intros (md & i & Hmd & _). discriminate Hmd.
Qed.

(** C10: with [k] undefined the index is searched with [k = 10], and with
    nothing else; [searchMemorySchema] yields [k = 10] for an absent [k],
    keeps an explicit [k] of 1 to 100, and rejects any other. *)
Theorem search_default_k :
  forall (index : Type) (H : VectorIndex index) (env : Env) (be : Backend)
         (dateValue : string -> option Z) (isDatetime : string -> bool),
    (forall (data : SearchMemory) (w w' : World index) r,
        sm_k data = None ->
        run (searchMemories env be dateValue data) w = (r, w') ->
        exists evs,
          log w' = (evs ++ log w)%list /\
          (forall q n, In (CallKnnSearch q n) evs -> n = 10) /\
          (isOk r = true -> exists q rest, evs = CallKnnSearch q 10 :: rest))
    /\
    (forall (input out : SearchMemory),
        MemorySchema.searchMemorySchema isDatetime input = MemorySchema.Valid out ->
        exists n, sm_k out = Some n /\ 1 <= n <= 100 /\
                  match sm_k input with
                  | None => n = 10
                  | Some given => n = given
                  end)
    /\
    (forall (input : SearchMemory) (given : Z),
        sm_k input = Some given ->
        given < 1 \/ 100 < given ->
        exists issues,
          MemorySchema.searchMemorySchema isDatetime input = MemorySchema.Invalid issues).
Proof.
  intros index H env be dateValue isDatetime. split; [| split].
  - intros data w w' r Hk R.
    destruct (searchMemories_log env be dateValue _ _ _ _ R) as (evs & Hl & Hc).
    rewrite Hk in Hc. cbn in Hc. exists evs. split; [assumption |]. split; [assumption |].
    destruct r as [rs|err]; [intros _ | discriminate].
    destruct (searchMemories_hits env be dateValue _ _ _ _ R)
      as (q & hits & rest & Hlog & _ & _).
    rewrite Hk in Hlog. cbn in Hlog. rewrite Hl in Hlog.
    destruct evs as [|e evs].
    + exfalso. cbn in Hlog.
      assert (Hlen : length (log w) = length (CallKnnSearch q 10 :: rest)) by now rewrite Hlog.
      destruct (searchMemories_inv env be dateValue _ _ _ _ R) as (v & w0 & hs & T & S & _).
      destruct (searchVectors_inv env _ _ _ _ S) as (w1 & hs' & E & _ & _ & ->).
      apply textToEmbeddings_frame in T as (_ & _ & _ & Hl0).
      apply ensureInitialized_quiet in E as [(_ & _ & evs1 & Hl1 & _) _].
      cbn in Hl. rewrite Hl1, Hl0 in Hl.
      apply (f_equal (@length Event)) in Hl. cbn in Hl. rewrite length_app in Hl. lia.
    + cbn in Hlog. injection Hlog as -> _. eauto.
  - intros input out. unfold MemorySchema.searchMemorySchema, MemorySchema.parseK.
    destruct (sm_k input) as [given|]; cbn.
    + unfold MemorySchema.boundIssues.
      destruct (Z.ltb_spec given 1); cbn.
      { destruct (MemorySchema.queryIssues _); discriminate. }
      destruct (Z.gtb_spec given 100); cbn.
      { destruct (MemorySchema.queryIssues _); discriminate. }
      destruct (_ ++ _)%list; [| discriminate].
      intros [= <-]. cbn. exists given. repeat split; lia.
    + destruct (_ ++ _)%list; [| discriminate].
      intros [= <-]. cbn. exists 10. repeat split; lia.
  - intros input given Hk Hout.
    unfold MemorySchema.searchMemorySchema, MemorySchema.parseK, MemorySchema.boundIssues.
    rewrite Hk.
    destruct (Z.ltb_spec given 1); cbn.
    { destruct (MemorySchema.queryIssues _); cbn; eauto. }
    destruct (Z.gtb_spec given 100); cbn; [| lia].
    destruct (MemorySchema.queryIssues _); cbn; eauto.
Qed.

(** A search request without [k] reaches the index with [k = 10]. *)
Lemma search_default_k_witness :
  exists rs w' q rest,
    run (searchMemories Demo.env Demo.backend Demo.noDate Demo.importantOnly)
        (Demo.ready ([Demo.bare] : ListIndex.t)) = (Ok rs, w') /\
    log w' = (CallKnnSearch q 10 :: rest) /\
    MemorySchema.searchMemorySchema (fun _ => true) Demo.importantOnly
      = MemorySchema.Valid
          {| sm_query := sm_query Demo.importantOnly;
             sm_k := Some 10;
             sm_filters := sm_filters Demo.importantOnly |}.
Proof.
  destruct (search_default_k ListIndex.t _ Demo.env Demo.backend Demo.noDate
              (fun _ => true)) as (Calls & Parsed & _).
  eassert (R : run (searchMemories Demo.env Demo.backend Demo.noDate Demo.importantOnly)
                   (Demo.ready ([Demo.bare] : ListIndex.t)) = (Ok _, _))
    by (cbv; reflexivity).
  destruct (Calls Demo.importantOnly _ _ _ eq_refl R) as (evs & Hl & _ & Hok).
  destruct (Hok eq_refl) as (q & rest & ->).
  eexists _, _, q, (rest ++ _)%list. split; [exact R |].
  split; [exact Hl | reflexivity].
Defined.

(** ** The shared configuration after a failure *)

(** C2 fails on the code: when the first [getArweaveConfig()] rejects, the
    rejected promise stays in [arweaveInitPromise]; the next call awaits it
    again, fails with the same error and makes no new attempt. *)
Theorem failed_shared_init_is_cached :
  forall (index : Type) (env : Env) (w : World index) (err : Exn),
    sharedArweaveConfig (statics w) = None ->
    arweaveInitPromise (statics w) = None ->
    getArweaveConfig env (arweaveCalls w) = Throw err ->
    exists w1,
      run (getSharedArweaveConfig env) w = (Throw err, w1) /\
      sharedArweaveConfig (statics w1) = None /\
      arweaveInitPromise (statics w1) = Some (Throw err) /\
      arweaveCalls w1 = S (arweaveCalls w) /\
      run (getSharedArweaveConfig env) w1 = (Throw err, w1).
Proof.
  intros index env [[shared promise] sv d e l] err Hs Hp Hfail.
  cbn in Hs, Hp. subst shared promise.
  eexists. split.
  - unfold getSharedArweaveConfig. cbn. cbn in Hfail. rewrite Hfail. cbn. reflexivity.
  - cbn. repeat split.
Qed.

(** A process whose first attempt fails although the second would succeed:
    a service created afterwards still fails with the first error. *)
Lemma failed_shared_init_is_cached_witness :
  exists w1,
    run (getSharedArweaveConfig Demo.flakyEnv) (Demo.start ([] : ListIndex.t))
      = (Throw (newError "wallet file missing"), w1) /\
    getArweaveConfig Demo.flakyEnv (arweaveCalls w1) = Ok Demo.config /\
    fst (run (forContract Demo.flakyEnv "contract-2") w1)
      = Throw (newError "wallet file missing").
Proof.
  destruct (failed_shared_init_is_cached ListIndex.t Demo.flakyEnv (Demo.start [])
              (newError "wallet file missing") eq_refl eq_refl eq_refl)
    as (w1 & R & Hs & Hp & Hc & Again).
  exists w1. split; [exact R |]. split; [now rewrite Hc |].
  unfold forContract, initialize. rewrite run_bind. cbn [modify run].
  rewrite run_try_catch, run_bind.
  replace (run (getSharedArweaveConfig Demo.flakyEnv)
               (set_service (fun _ => newService "contract-2") w1))
    with (Throw (A := ArweaveConfig) (newError "wallet file missing"),
          set_service (fun _ => newService "contract-2") w1); [reflexivity |].
  unfold getSharedArweaveConfig. rewrite run_bind. cbn [gets run set_service statics].
  rewrite Hs, run_bind, Hp. reflexivity.
Defined.

(** ** The shape checks of a batch *)

Lemma shapeResults_rank1_mismatch text values d :
  1 < d ->
  shapeResults [text] {| data := values; dims := [d] |}
  = Throw (newError ("Batch dimension mismatch: expected 1 but got " ++ showZ d)).
Proof.
  intros Hd. unfold shapeResults. cbn [dims data length last default lookup].
  cbn. change (Z.of_nat 1) with 1. destruct (Z.leb_spec d 0); [lia |].
  destruct (Z.eqb_spec d 1); [lia |]. reflexivity.
Qed.

(** C4 fails on the code: for one input text and a rank-1 tensor whose
    length [d] is the dimensionality, the first-axis check compares [d]
    with the number of texts and throws for every [d > 1], before the
    rank-1 branch is reached. *)
Theorem batch_rank1_single_text_rejected :
  forall (be : Backend) (s : EmbeddingService) (text : string)
         (values : list Q) (d : Z),
    extractor s = true ->
    Embedding.isInitialized s = true ->
    1 < d ->
    extract be [text] = Ok {| data := values; dims := [d] |} ->
    run (batchTextToEmbeddings be [text]) s
    = (Throw (newError ("Failed to generate batch embeddings: "
                        ++ "Batch dimension mismatch: expected 1 but got " ++ showZ d)),
       s).
Proof.
  intros be s text values d Hex Hinit Hd Hresp.
  unfold batchTextToEmbeddings, Embedding.ensureInitialized.
  rewrite !run_bind. cbn [get gets run]. rewrite Hinit, Hex. cbn [andb negb].
  cbn [mret M_ret ret run]. rewrite run_bind. cbn [gets run]. rewrite Hex. cbn [negb].
  rewrite run_try_catch, run_bind. cbn [await run]. rewrite Hresp.
  rewrite (shapeResults_rank1_mismatch text values d Hd). reflexivity.
Qed.

(** One text and 384 components in a rank-1 tensor. *)
Lemma batch_rank1_single_text_rejected_witness :
  fst (run (batchTextToEmbeddings Demo.flatBackend ["hello"])
           (embedding (Demo.ready ([] : ListIndex.t))))
  = Throw (newError
      "Failed to generate batch embeddings: Batch dimension mismatch: expected 1 but got 384").
Proof.
  rewrite (batch_rank1_single_text_rejected Demo.flatBackend
             (embedding (Demo.ready ([] : ListIndex.t))) "hello" (repeat 0%Q 384) 384
             eq_refl eq_refl ltac:(lia) eq_refl).
  reflexivity.
Defined.

(** ** Deployment with an empty wallet *)

Lemma refusals_differ readableBalance :
  prodRefusal readableBalance <> devRefusal readableBalance.
Proof. unfold prodRefusal, devRefusal. cbn. intros E. discriminate E. Qed.

(** C6, as the code has it: with a balance that is not positive the
    deployment stops before any deployment call and throws a plain [Error]
    whose message names the balance; the message of production mode differs
    from the one of development mode. *)
Theorem deploy_refused_on_zero_balance :
  forall (index : Type) (env : Env) (w w0 : World index)
         (config : ArweaveConfig) (address balance : string),
    run (getSharedArweaveConfig env) w = (Ok config, w0) ->
    getAddress env config = Ok address ->
    getBalance env address (balanceQueries w0) = Ok balance ->
    notPositive (parseFloat env (winstonToAr env balance)) = true ->
    let readableBalance := winstonToAr env balance in
    let refusal :=
      if isProduction env then prodRefusal readableBalance
      else devRefusal readableBalance in
    exists w' evs,
      run (deployNewContract env) w = (Throw (JsError "Error" refusal), w') /\
      log w' = (evs ++ log w)%list /\
      Forall (fun e => isDeploy e = false) evs /\
      prodRefusal readableBalance <> devRefusal readableBalance.
Proof.
  intros index env w w0 config address balance Hcfg Haddr Hbal Hzero rb refusal.
  destruct (getSharedArweaveConfig_quiet env _ _ _ Hcfg)
    as [(_ & _ & evs & Hl & Hc) _].
  exists (logCall CallGetBalance (logCall CallGetAddress w0)),
         (CallGetBalance :: CallGetAddress :: evs).
  split; [| split; [| split]].
  - unfold deployNewContract. rewrite run_bind, Hcfg, run_try_catch, run_bind.
    unfold external at 1. rewrite run_bind. cbn [modify run await]. rewrite Haddr.
    rewrite run_bind. unfold queryBalance. rewrite run_bind. cbn [gets run].
    unfold external at 1. rewrite run_bind. cbn [modify run await].
    replace (balanceQueries (logCall CallGetAddress w0)) with (balanceQueries w0)
      by reflexivity.
    rewrite Hbal, Hzero. subst refusal rb. unfold prodRefusal, devRefusal.
    destruct (isProduction env); cbn; reflexivity.
  - cbn. now rewrite Hl.
  - repeat constructor.
    eapply Forall_impl; [exact Hc |]. cbn. now intros e ->.
  - apply refusals_differ.
Qed.

(** A production process with a wallet holding nothing. *)
Lemma deploy_refused_on_zero_balance_witness :
  exists w',
    run (deployNewContract (Demo.ledger (Some "production") "0"))
        (Demo.start ([] : ListIndex.t))
    = (Throw (newError
         "Failed to deploy contract: Insufficient wallet balance for deployment. Current: 0 AR."),
       w') /\
    filter (fun e => isDeploy e = true) (log w') = [].
Proof.
  eassert (R : run (getSharedArweaveConfig (Demo.ledger (Some "production") "0"))
                   (Demo.start ([] : ListIndex.t)) = (Ok _, _))
    by (cbv; reflexivity).
  destruct (deploy_refused_on_zero_balance ListIndex.t
              (Demo.ledger (Some "production") "0") _ _ _
              "wallet-address" "0" R eq_refl eq_refl eq_refl)
    as (w' & evs & Run & Hl & Hc & _).
  exists w'. split; [exact Run |].
  rewrite Hl. cbn [Demo.start log]. rewrite app_nil_r.
  clear -Hc. induction Hc as [|e evs He _ IH]; [reflexivity |].
  rewrite filter_cons. destruct (decide (isDeploy e = true)); [congruence | exact IH].
Defined.

(** C6 as stated fails: the error thrown for a production wallet holding
    nothing is a plain [Error], not one of a class [DeploymentError]. *)
Lemma deploy_refused_on_zero_balance_counterexample :
  exists e w',
    run (deployNewContract (Demo.ledger (Some "production") "0"))
        (Demo.start ([] : ListIndex.t)) = (Throw e, w') /\
    className e = Some "Error" /\
    ~ isDeploymentError e.
Proof.
  eexists _, _. split; [cbv; reflexivity |]. split; [reflexivity |].
  unfold isDeploymentError. cbn. discriminate.
Qed.

(** ** The quota gate *)

Import Quota.

(** C8: with an authenticated user and a subscription lookup that answers,
    a missing subscription is refused with 403, an inactive one with 403,
    an active one that has used up its limit with 429, the three signals
    being different from each other; any other subscription is attached to
    the context and the rest of the chain runs. *)
Theorem quota_gate_cases :
  forall (getUserSubscription : string -> Res (option Subscription))
         (next : M Context unit) (c : Context) (uid : string)
         (fetched : option Subscription),
    ctx_userId c = Some uid ->
    truthy uid = true ->
    getUserSubscription uid = Ok fetched ->
    let missing := HTTPException 403 "No active subscription found" in
    let inactive := HTTPException 403 "Subscription is inactive" in
    let exceeded (s : Subscription) :=
      HTTPException 429 ("Quota exceeded. Used " ++ showZ (quotaUsed s) ++ "/"
                         ++ showZ (quotaLimit s)) in
    (fetched = None ->
       run (quotaMiddleware getUserSubscription next) c = (Throw missing, c)) /\
    (forall s, fetched = Some s -> isActive s = false ->
       run (quotaMiddleware getUserSubscription next) c = (Throw inactive, c)) /\
    (forall s, fetched = Some s -> isActive s = true -> quotaLimit s <= quotaUsed s ->
       run (quotaMiddleware getUserSubscription next) c = (Throw (exceeded s), c)) /\
    (forall s, fetched = Some s -> isActive s = true -> quotaUsed s < quotaLimit s ->
       forall r c', run next (attach s c) = (r, c') ->
       ctx_subscription (attach s c) = Some s /\
       run (quotaMiddleware getUserSubscription next) c =
         (match r with
          | Ok tt => Ok tt
          | Throw (HTTPException status message) => Throw (HTTPException status message)
          | Throw _ => Throw (HTTPException 500 "Failed to check quota")
          end, c')) /\
    missing <> inactive /\
    (forall s, missing <> exceeded s) /\
    (forall s, inactive <> exceeded s).
Proof.
  intros getUserSubscription next c uid fetched Hc Huid Hfetch missing inactive exceeded.
  assert (Hrun : run (quotaMiddleware getUserSubscription next) c =
    run (try_catch
          (match fetched with
           | None => throw missing
           | Some s =>
               if negb (isActive s) then throw inactive
               else if quotaUsed s >=? quotaLimit s then throw (exceeded s)
               else modify (attach s);; next
           end)
          (fun error =>
             match error with
             | HTTPException _ _ => throw error
             | _ => throw (HTTPException 500 "Failed to check quota")
             end)) c).
  { unfold quotaMiddleware. rewrite run_bind. cbn [gets run]. rewrite Hc.
    destruct uid as [|a rest]; [discriminate |].
    rewrite !run_try_catch, run_bind. cbn [await run]. rewrite Hfetch. reflexivity. }
  rewrite Hrun. clear Hrun.
  split; [| split; [| split; [| split; [| split; [| split]]]]].
  - intros ->. reflexivity.
  - intros s -> Hact. rewrite run_try_catch. cbn. rewrite Hact. reflexivity.
  - intros s -> Hact Hq. rewrite run_try_catch. cbn. rewrite Hact. cbn.
    destruct (Z.geb_spec (quotaUsed s) (quotaLimit s)); [reflexivity | lia].
  - intros s -> Hact Hq r c' Hnext. rewrite run_try_catch. cbn. rewrite Hact. cbn.
    destruct (Z.geb_spec (quotaUsed s) (quotaLimit s)); [lia |].
    cbn. rewrite Hnext. split; [reflexivity |].
    destruct r as [[]|[name msg|status msg|]]; reflexivity.
  - discriminate.
  - intros s. discriminate.
  - intros s. discriminate.
Qed.

(** A user whose subscription has used 1000 of 1000 is rate-limited. *)
Lemma quota_gate_cases_witness :
  let s := {| userId := "user-1"; plan := basic; quotaLimit := 1000;
              quotaUsed := 1000; isActive := true; renewsAt := "2026-01-01" |} in
  let c := {| ctx_userId := Some "user-1"; ctx_subscription := None |} in
  run (quotaMiddleware (fun _ => Ok (Some s)) (mret tt)) c
  = (Throw (HTTPException 429 "Quota exceeded. Used 1000/1000"), c).
Proof.
  intros s c.
  destruct (quota_gate_cases (fun _ => Ok (Some s)) (mret tt) c "user-1" (Some s)
              eq_refl eq_refl eq_refl) as (_ & _ & Exceeded & _).
  exact (Exceeded s eq_refl eq_refl ltac:(cbn; lia)).
Defined.

(** ** Statistics *)

Section Stats.
Context {index : Type} `{VectorIndex index}.

Lemma eizen_getStats_total (w : World index) :
  exists w',
    run Eizen.getStats w =
      (Ok {| totalVectors :=
               match vectorDb (service w), get_datasize (db w) with
               | Some _, Ok n => n
               | _, _ => 0
               end;
             stats_isInitialized := isInitialized (service w);
             stats_contractId := contractId (service w) |}, w') /\
    service w' = service w /\ embedding w' = embedding w.
Proof.
  unfold Eizen.getStats, getVectorCount. rewrite run_try_catch, run_bind.
  cbn [gets run]. rewrite run_bind.
  destruct (vectorDb (service w)) as [h|] eqn:V.
  - rewrite run_bind. cbn [gets run]. rewrite V, run_bind. cbn [gets run].
    unfold external. rewrite run_bind. cbn [modify run await].
    destruct (get_datasize (db w)) as [n|err]; cbn; eexists; repeat split.
  - cbn. eexists; repeat split.
Qed.

End Stats.

(** C9: [getStats] never throws.  Whatever the statistics call of the
    store service and the information call of the embedding engine do, a
    result is returned; when either of the two calls fails, it is the
    zeroed result: no memories, embedding service unavailable, not
    initialised; when both answer, it reports what they answered.  With the
    service's own collaborators, [EizenService.getStats] and [getInfo], a
    result is returned from every state. *)
Theorem getStats_never_throws :
  forall (index : Type) (H : VectorIndex index)
         (storeStats : M (World index) EizenStats)
         (engineInfo : M (World index) EmbeddingInfo) (w : World index),
    let zeroed := {| totalMemories := 0; embeddingService := unavailable;
                     ms_isInitialized := false |} in
    (exists stats w',
       run (getStatsWith storeStats engineInfo) w = (Ok stats, w') /\
       (forall e w1, run storeStats w = (Throw e, w1) -> stats = zeroed) /\
       (forall answered w1 e w2,
           run storeStats w = (Ok answered, w1) ->
           run engineInfo w1 = (Throw e, w2) -> stats = zeroed) /\
       (forall answered w1 info w2,
           run storeStats w = (Ok answered, w1) ->
           run engineInfo w1 = (Ok info, w2) ->
           stats = {| totalMemories := totalVectors answered;
                      embeddingService :=
                        if info_isInitialized info then xenova else unavailable;
                      ms_isInitialized :=
                        stats_isInitialized answered && info_isInitialized info |}))
    /\
    (exists stats w', run Memory.getStats w = (Ok stats, w')).
Proof.
  intros index H storeStats engineInfo w zeroed. split.
  - unfold getStatsWith. rewrite run_try_catch, run_bind.
    destruct (run storeStats w) as [[answered|e] w1] eqn:S1.
    + rewrite run_bind.
      destruct (run engineInfo w1) as [[info|e] w2] eqn:S2; cbn.
      * eexists _, _. split; [reflexivity |]. split; [discriminate |].
        split; intros a v1 x v2 E1 E2; injection E1 as <- <-;
          rewrite S2 in E2; [discriminate E2 |].
        injection E2 as <- _. reflexivity.
      * eexists _, _. split; [reflexivity |]. split; [discriminate |].
        split; [reflexivity |].
        intros a v1 x v2 E1 E2; injection E1 as <- <-.
        rewrite S2 in E2. discriminate E2.
    + cbn. eexists _, _. split; [reflexivity |]. split; [reflexivity |].
      split; intros a v1 x v2 E1; discriminate E1.
  - destruct (eizen_getStats_total w) as (w' & R & _).
    eexists _, w'. unfold Memory.getStats, getStatsWith.
    rewrite run_try_catch, run_bind, R. reflexivity.
Qed.

(** A store service whose statistics call rejects, on a ready process. *)
Lemma getStats_never_throws_witness :
  run (getStatsWith (throw (newError "statistics unavailable"))
                    (gets (fun w => getInfo (embedding w))))
      (Demo.ready ([Demo.bare] : ListIndex.t))
  = (Ok {| totalMemories := 0; embeddingService := unavailable;
           ms_isInitialized := false |},
     Demo.ready ([Demo.bare] : ListIndex.t)).
Proof.
  destruct (getStats_never_throws ListIndex.t _
              (throw (newError "statistics unavailable"))
              (gets (fun w => getInfo (embedding w)))
              (Demo.ready ([Demo.bare] : ListIndex.t)))
    as [(stats & w' & R & Store & _) _].
  rewrite (Store (newError "statistics unavailable")
                 (Demo.ready ([Demo.bare] : ListIndex.t)) eq_refl) in R.
  rewrite R. f_equal.
  apply (f_equal snd) in R. exact (eq_sym R).
Defined.

(** A count of the index that fails is not a failure of the store
    service's statistics call: [EizenService.getStats] absorbs it and
    reports 0 vectors with its own initialised flag. *)
Lemma getStats_absorbs_failing_count :
  get_datasize (db (Demo.ready tt)) = Throw (newError "Contract interaction failed") /\
  fst (run Memory.getStats (Demo.ready tt))
  = Ok {| totalMemories := 0; embeddingService := xenova; ms_isInitialized := true |}.
Proof. split; reflexivity. Qed.

(** * Further properties *)

(** ** EmbeddingService: loading *)

(** X1: a failed load of the model is not remembered: the in-flight
    promise is cleared, the service stays uninitialised, and the next call
    loads again and succeeds when that load does. *)
Theorem embedding_failed_load_is_retried :
  forall (be : Backend) (s : EmbeddingService) (err : Exn),
    Embedding.isInitialized s = false ->
    initializationPromise s = None ->
    pipeline be (loads s) = Throw err ->
    exists s1,
      run (Embedding.ensureInitialized be) s = (Throw err, s1) /\
      initializationPromise s1 = None /\
      Embedding.isInitialized s1 = false /\
      loads s1 = S (loads s) /\
      (pipeline be (S (loads s)) = Ok tt ->
       exists s2,
         run (Embedding.ensureInitialized be) s1 = (Ok tt, s2) /\
         Embedding.isInitialized s2 = true /\ extractor s2 = true /\
         loads s2 = S (S (loads s))).
Proof.
  intros be [ex init promise n] err Hinit Hp Hfail. cbn in *. subst init promise.
  eexists. split.
  - unfold Embedding.ensureInitialized, Embedding.initialize. cbn.
    rewrite Hfail. cbn. reflexivity.
  - cbn. repeat split. intros Hok. eexists. split.
    + unfold Embedding.ensureInitialized, Embedding.initialize. cbn.
      rewrite Hok. cbn. reflexivity.
    + cbn. repeat split.
Qed.

Lemma embedding_failed_load_is_retried_witness :
  exists s1 s2,
    run (Embedding.ensureInitialized Scenes.slowStart) fresh
      = (Throw (newError "model download failed"), s1) /\
    run (Embedding.ensureInitialized Scenes.slowStart) s1 = (Ok tt, s2) /\
    Embedding.isInitialized s2 = true.
Proof.
  destruct (embedding_failed_load_is_retried Scenes.slowStart fresh
              (newError "model download failed") eq_refl eq_refl eq_refl)
    as (s1 & R1 & _ & _ & _ & Retry).
  destruct (Retry eq_refl) as (s2 & R2 & I2 & _).
  exists s1, s2. repeat split; assumption.
Defined.

(** X2: once [ensureInitialized] has succeeded on a service with no load
    in flight, the service is initialised, and every later
    [textToEmbeddings] or [batchTextToEmbeddings] leaves the service as it
    is: the model is not loaded again, whatever the encoder answers. *)
Theorem embedding_loaded_once :
  forall (be : Backend) (s s1 : EmbeddingService),
    initializationPromise s = None ->
    run (Embedding.ensureInitialized be) s = (Ok tt, s1) ->
    Embedding.isInitialized s1 = true /\ extractor s1 = true /\
    (loads s1 <= S (loads s))%nat /\
    (forall text r s2,
        run (Embedding.textToEmbeddings be text) s1 = (r, s2) -> s2 = s1) /\
    (forall texts r s2,
        run (batchTextToEmbeddings be texts) s1 = (r, s2) -> s2 = s1).
Proof.
  intros be [ex init promise n] s1 Hp R. cbn in Hp. subst promise.
  assert (Hs1 : Embedding.isInitialized s1 = true /\ extractor s1 = true /\
                (loads s1 <= S n)%nat).
  { revert R. unfold Embedding.ensureInitialized, Embedding.initialize. cbn.
    destruct init, ex; cbn; try (intros [= <-]; cbn; repeat split; lia);
      destruct (pipeline be n) as [[]|err]; cbn; try discriminate;
      intros [= <-]; cbn; repeat split; lia. }
  destruct Hs1 as (I1 & E1 & L1). repeat split; try assumption.
  - intros text r s2. unfold Embedding.textToEmbeddings, Embedding.ensureInitialized.
    rewrite !run_bind. cbn [get gets run]. rewrite I1, E1. cbn [andb negb].
    cbn [mret M_ret ret run]. rewrite run_bind. cbn [gets run]. rewrite E1. cbn [negb].
    rewrite run_try_catch, run_bind. cbn [await run].
    destruct (extract be [text]); cbn; now intros [= _ <-].
  - intros texts r s2. unfold batchTextToEmbeddings, Embedding.ensureInitialized.
    rewrite !run_bind. cbn [get gets run]. rewrite I1, E1. cbn [andb negb].
    cbn [mret M_ret ret run]. rewrite run_bind. cbn [gets run]. rewrite E1. cbn [negb].
    rewrite run_try_catch, run_bind. cbn [await run].
    destruct (extract be texts) as [resp|err]; cbn; [| now intros [= _ <-]].
    destruct (shapeResults texts resp); cbn; now intros [= _ <-].
Qed.

Lemma embedding_loaded_once_witness :
  exists s1,
    run (Embedding.ensureInitialized Demo.backend) fresh = (Ok tt, s1) /\
    loads s1 = 1%nat /\
    snd (run (Embedding.textToEmbeddings Demo.backend "hello") s1) = s1.
Proof.
  eassert (R : run (Embedding.ensureInitialized Demo.backend) fresh = (Ok tt, _))
    by (cbv; reflexivity).
  destruct (embedding_loaded_once Demo.backend fresh _ eq_refl R)
    as (_ & _ & _ & Keep & _).
  eexists. split; [exact R |]. split; [reflexivity |].
  destruct (run (Embedding.textToEmbeddings Demo.backend "hello") _) as [r s2] eqn:T.
  exact (Keep _ _ _ T).
Defined.

(** ** EmbeddingService: the shape of a batch *)

Lemma sliceRows_fits resp d (a count : nat) acc :
  0 < d ->
  Z.of_nat (a + count) * d <= Z.of_nat (length (data resp)) ->
  sliceRows resp d (Z.of_nat a) count acc
  = Ok (acc ++ map (fun j : nat =>
                      {| embeddings := take (Z.to_nat d) (drop (j * Z.to_nat d) (data resp));
                         dimensions := d;
                         model := modelName |}) (seq a count))%list.
Proof.
  intros Hd. revert a acc. induction count as [|count IH]; intros a acc Hfit.
  - cbn. now rewrite app_nil_r.
  - cbn [sliceRows].
    destruct (Z.geb_spec (Z.of_nat a * d) (Z.of_nat (length (data resp)))); [nia |].
    destruct (Z.gtb_spec (Z.of_nat a * d + d) (Z.of_nat (length (data resp)))); [nia |].
    cbn [orb].
    replace (Z.of_nat a + 1) with (Z.of_nat (S a)) by lia.
    rewrite IH by (replace (S a + count)%nat with (a + S count)%nat by lia; exact Hfit).
    f_equal. rewrite <- app_assoc. f_equal. cbn [seq map app].
    replace (Z.to_nat (Z.of_nat a * d)) with (a * Z.to_nat d)%nat by nia.
    f_equal. f_equal.
    rewrite length_take, length_drop. nia.
Qed.

Lemma sliceRows_short resp d (a count : nat) acc :
  0 < d ->
  Z.of_nat a * d <= Z.of_nat (length (data resp)) ->
  Z.of_nat (length (data resp)) < Z.of_nat (a + count) * d ->
  isOk (sliceRows resp d (Z.of_nat a) count acc) = false.
Proof.
  intros Hd. revert a acc. induction count as [|count IH]; intros a acc Hlo Hhi.
  - replace (a + 0)%nat with a in Hhi by lia. lia.
  - cbn [sliceRows].
    destruct (Z.gtb_spec (Z.of_nat a * d + d) (Z.of_nat (length (data resp)))).
    + rewrite orb_true_r. reflexivity.
    + destruct (Z.geb_spec (Z.of_nat a * d) (Z.of_nat (length (data resp)))); [nia |].
      cbn [orb]. replace (Z.of_nat a + 1) with (Z.of_nat (S a)) by lia.
      apply IH; [nia |].
      replace (S a + count)%nat with (a + S count)%nat by lia. exact Hhi.
Qed.

(** X3: for a rank-2 tensor [[n, d]] with [d > 0], [n] the number of texts
    and at least [n * d] values, the batch yields exactly one result per
    text, in order: the [j]-th result holds the values [j*d .. j*d+d-1] and
    reports [d] dimensions. *)
Theorem batch_rank2_rows :
  forall (texts : list string) (values : list Q) (d : Z),
    0 < d ->
    Z.of_nat (length texts) * d <= Z.of_nat (length values) ->
    shapeResults texts {| data := values; dims := [Z.of_nat (length texts); d] |}
    = Ok (map (fun j : nat =>
                 {| embeddings := take (Z.to_nat d) (drop (j * Z.to_nat d) values);
                    dimensions := d;
                    model := modelName |}) (seq 0 (length texts))).
Proof.
  intros texts values d Hd Hfit. unfold shapeResults.
  cbn [dims data last default from_option Datatypes.id lookup list_lookup length].
  destruct (Z.leb_spec d 0); [lia |].
  rewrite Z.eqb_refl. cbn [negb].
  apply (sliceRows_fits {| data := values; dims := _ |} d 0 (length texts) []); assumption.
Qed.

Lemma batch_rank2_rows_witness :
  fst (run (batchTextToEmbeddings Scenes.pairs ["a"; "b"]) Scenes.loaded)
  = Ok [ {| embeddings := [1%Q; 2%Q]; dimensions := 2; model := modelName |};
         {| embeddings := [3%Q; 4%Q]; dimensions := 2; model := modelName |} ].
Proof.
  unfold batchTextToEmbeddings. cbn -[shapeResults].
  change [2; 2] with [Z.of_nat (length ["a"; "b"]); 2].
  rewrite (batch_rank2_rows ["a"; "b"] [1%Q; 2%Q; 3%Q; 4%Q] 2 ltac:(lia) ltac:(cbn; lia)).
  reflexivity.
Defined.

(** X4: the shape checks accept a response exactly when it is a rank-1
    tensor of length 1 for one text, or a rank-2 tensor [[n, d]] with
    [d > 0] holding at least [n * d] values for [n] texts; and an accepted
    response always gives as many results as there were texts. *)
Theorem batch_accepts_exactly :
  forall (texts : list string) (resp : Tensor),
    let n := Z.of_nat (length texts) in
    (isOk (shapeResults texts resp) = true <->
       (dims resp = [1] /\ n = 1) \/
       (exists d, dims resp = [n; d] /\ 0 < d /\
                  n * d <= Z.of_nat (length (data resp)))) /\
    (forall rs, shapeResults texts resp = Ok rs -> length rs = length texts).
Proof.
  intros texts [values shape] n. subst n. cbn [dims data].
  destruct shape as [|b [|d [|c rest]]].
  - split.
    + split; [discriminate | intros [[E _] | (d & E & _)]; discriminate].
    + discriminate.
  - unfold shapeResults. cbn [dims data last default from_option Datatypes.id lookup list_lookup length].
    destruct (Z.leb_spec b 0).
    { split; [| discriminate].
      split; [discriminate |].
      intros [[[= ->] _] | (d & E & _)]; [lia | discriminate]. }
    destruct (Z.eqb_spec b (Z.of_nat (length texts))) as [->|Hne]; cbn [negb].
    + destruct (Z.eqb_spec (Z.of_nat (length texts)) 1) as [E1|Hne1]; cbn [negb].
      * split.
        -- split; [intros _; left; split; [now rewrite E1 | assumption] | reflexivity].
        -- intros rs [= <-]. cbn. lia.
      * split; [| discriminate].
        split; [discriminate |].
        intros [[_ E] | (d & E & _)]; [contradiction | discriminate].
    + split; [| discriminate].
      split; [discriminate |].
      intros [[[= ->] E] | (d & E & _)]; [congruence | discriminate].
  - unfold shapeResults. cbn [dims data last default from_option Datatypes.id lookup list_lookup length].
    destruct (Z.leb_spec d 0).
    { split; [| discriminate].
      split; [discriminate |].
      intros [[E _] | (d' & [= _ <-] & Hd & _)]; [discriminate | lia]. }
    destruct (Z.eqb_spec b (Z.of_nat (length texts))) as [->|Hne]; cbn [negb].
    + destruct (Z_le_gt_dec (Z.of_nat (length texts) * d) (Z.of_nat (length values)))
        as [Hfit|Hshort].
      * rewrite (sliceRows_fits {| data := values; dims := _ |} d 0 (length texts) [])
          by assumption.
        split.
        -- split; [intros _; right; exists d; repeat split; assumption | reflexivity].
        -- intros rs [= <-]. cbn. now rewrite length_map, length_seq.
      * pose proof (sliceRows_short {| data := values; dims := [Z.of_nat (length texts); d] |}
                      d 0 (length texts) [] ltac:(lia) ltac:(cbn; lia) ltac:(cbn; lia)) as Hno.
        cbn [data] in Hno. change (Z.of_nat 0) with 0 in Hno. split.
        -- split; [intros Hyes; congruence |].
           intros [[E _] | (d' & [= <-] & _ & Hfit)]; [discriminate | lia].
        -- intros rs E. rewrite E in Hno. discriminate.
    + split; [| discriminate].
      split; [discriminate |].
      intros [[E _] | (d' & [= E _] & _)]; [discriminate | congruence].
  - assert (Hno : isOk (shapeResults texts {| data := values; dims := b :: d :: c :: rest |})
                  = false).
    { unfold shapeResults. cbn [dims data length].
      destruct (_ <=? 0); [reflexivity |].
      destruct (negb _); reflexivity. }
    split.
    + split; [congruence | intros [[E _] | (d' & E & _)]; discriminate].
    + intros rs E. rewrite E in Hno. discriminate.
Qed.

Lemma batch_accepts_exactly_witness :
  isOk (shapeResults ["a"; "b"] {| data := [1%Q; 2%Q; 3%Q; 4%Q]; dims := [2; 2] |}) = true /\
  isOk (shapeResults ["a"; "b"] {| data := [1%Q; 2%Q; 3%Q]; dims := [2; 2] |}) = false.
Proof.
  split.
  - apply (proj1 (batch_accepts_exactly ["a"; "b"] _)). right. exists 2.
    repeat split; cbn; lia.
  - destruct (isOk _) eqn:E; [| reflexivity].
    apply (proj1 (batch_accepts_exactly ["a"; "b"] _)) in E
      as [[E _] | (d & [= <-] & _ & Hfit)]; [discriminate | cbn in Hfit; lia].
Defined.

(** X5: on an initialised service every failure of
    [batchTextToEmbeddings], of the encoder or of a shape check, is a plain
    [Error] whose message is the cause's message after the prefix
    "Failed to generate batch embeddings: ", and the service is unchanged. *)
Theorem batch_failures_are_wrapped :
  forall (be : Backend) (s s' : EmbeddingService) (texts : list string) (e : Exn),
    Embedding.isInitialized s = true ->
    extractor s = true ->
    run (batchTextToEmbeddings be texts) s = (Throw e, s') ->
    s' = s /\
    exists cause,
      e = JsError "Error" ("Failed to generate batch embeddings: " ++ messageOf cause) /\
      (extract be texts = Throw cause \/
       exists resp, extract be texts = Ok resp /\ shapeResults texts resp = Throw cause).
Proof.
  intros be s s' texts e Hinit Hex.
  unfold batchTextToEmbeddings, Embedding.ensureInitialized.
  rewrite !run_bind. cbn [get gets run]. rewrite Hinit, Hex. cbn [andb negb].
  cbn [mret M_ret ret run]. rewrite run_bind. cbn [gets run]. rewrite Hex. cbn [negb].
  rewrite run_try_catch, run_bind. cbn [await run].
  destruct (extract be texts) as [resp|cause] eqn:X; cbn.
  - destruct (shapeResults texts resp) as [rs|cause] eqn:Sh; cbn; [discriminate |].
    intros [= <- <-]. split; [reflexivity |]. exists cause. split; [reflexivity |].
    right. exists resp. split; [reflexivity | assumption].
  - intros [= <- <-]. split; [reflexivity |]. exists cause. split; [reflexivity |].
    now left.
Qed.

Lemma batch_failures_are_wrapped_witness :
  run (batchTextToEmbeddings Scenes.deaf ["a"]) Scenes.loaded
  = (Throw (newError "Failed to generate batch embeddings: session closed"), Scenes.loaded).
Proof.
  destruct (run (batchTextToEmbeddings Scenes.deaf ["a"]) Scenes.loaded) as [[rs|e] s'] eqn:R;
    [discriminate R |].
  destruct (batch_failures_are_wrapped Scenes.deaf Scenes.loaded s' ["a"] e
              eq_refl eq_refl R) as (-> & cause & -> & Why).
  destruct Why as [[= <-] | (resp & [=] & _)]. reflexivity.
Defined.

(** ** EizenService: configuration, creation and release *)

Section EizenMore.
Context {index : Type} `{VectorIndex index} (env : Env).

Lemma getSharedArweaveConfig_memo (w w1 : World index) config :
  run (getSharedArweaveConfig env) w = (Ok config, w1) ->
  sharedArweaveConfig (statics w1) = Some config /\
  (arweaveCalls w1 <= S (arweaveCalls w))%nat.
Proof.
  unfold getSharedArweaveConfig. destruct w as [[shared promise] sv d e l]. cbn.
  destruct shared as [c|]; cbn.
  - intros [= <- <-]. cbn. split; [reflexivity | lia].
  - destruct promise as [[c|err]|]; cbn; try discriminate.
    + intros [= <- <-]. cbn. split; [reflexivity | lia].
    + unfold arweaveCalls. cbn.
      destruct (getArweaveConfig env _) as [c|err]; cbn; [| discriminate].
      intros [= <- <-]. cbn. split; [reflexivity |].
      destruct (decide (true = true)); [apply le_n | apply le_S, le_n].
Qed.

Lemma getSharedArweaveConfig_cached (w : World index) config :
  sharedArweaveConfig (statics w) = Some config ->
  run (getSharedArweaveConfig env) w = (Ok config, w).
Proof.
  intros Hs. unfold getSharedArweaveConfig. rewrite run_bind. cbn [gets run].
  rewrite Hs. reflexivity.
Qed.

Lemma forContract_cached (w : World index) config cid :
  sharedArweaveConfig (statics w) = Some config ->
  run (forContract env cid) w
  = (Ok tt,
     set_service (fun _ =>
       {| vectorDb := Some (getHnswParams env);
          sdk := Some (wallet config, cid, warp config);
          contractId := cid;
          isInitialized := true |}) w).
Proof.
  intros Hs. unfold forContract, initialize. rewrite run_bind. cbn [modify run].
  rewrite run_try_catch, run_bind.
  rewrite (getSharedArweaveConfig_cached _ config) by (destruct w; exact Hs).
  destruct w. reflexivity.
Qed.

End EizenMore.

(** X6: once the shared configuration has been obtained it is kept: the
    next call returns the same configuration and changes nothing, and every
    service created afterwards is initialised with it without a further
    call of [getArweaveConfig]. *)
Theorem shared_config_is_memoised :
  forall (index : Type) (env : Env) (w w1 : World index) (config : ArweaveConfig),
    run (getSharedArweaveConfig env) w = (Ok config, w1) ->
    (arweaveCalls w1 <= S (arweaveCalls w))%nat /\
    run (getSharedArweaveConfig env) w1 = (Ok config, w1) /\
    (forall cid, exists w2,
        run (forContract env cid) w1 = (Ok tt, w2) /\
        statics w2 = statics w1 /\
        arweaveCalls w2 = arweaveCalls w1 /\
        sdk (service w2) = Some (wallet config, cid, warp config)).
Proof.
  intros index env w w1 config R.
  destruct (getSharedArweaveConfig_memo env w w1 config R) as [Hs Hc].
  split; [assumption |]. split; [now apply getSharedArweaveConfig_cached |].
  intros cid. eexists. split; [apply (forContract_cached env w1 config cid Hs) |].
  destruct w1. repeat split.
Qed.

Lemma shared_config_is_memoised_witness :
  exists w1 w2,
    run (getSharedArweaveConfig Demo.env) (Demo.start ([] : ListIndex.t))
      = (Ok Demo.config, w1) /\
    run (forContract Demo.env "contract-2") w1 = (Ok tt, w2) /\
    arweaveCalls w2 = 1%nat.
Proof.
  eassert (R : run (getSharedArweaveConfig Demo.env) (Demo.start ([] : ListIndex.t))
               = (Ok Demo.config, _)) by (cbv; reflexivity).
  destruct (shared_config_is_memoised ListIndex.t Demo.env _ _ _ R) as (_ & _ & Later).
  destruct (Later "contract-2") as (w2 & R2 & _ & Hc & _).
  eexists _, w2. split; [exact R |]. split; [exact R2 |]. rewrite Hc. reflexivity.
Defined.

(** X7: [forContract] hands out a service that is ready: when it
    succeeds, the new service is bound to the given
    contract, is initialised, and holds an index handle whose three HNSW
    parameters are the configured numbers, or 16, 200 and 50 where the
    variable is unset, not a number or 0; none of them is ever 0. *)
Theorem forContract_hands_out_ready_service :
  forall (index : Type) (env : Env) (w w2 : World index) (cid : string),
    run (forContract env cid) w = (Ok tt, w2) ->
    contractId (service w2) = cid /\
    initialised w2 /\
    db w2 = db w /\
    exists p, vectorDb (service w2) = Some p /\
      m p = numberOr (EIZEN_M env) 16 /\
      efConstruction p = numberOr (EIZEN_EF_CONSTRUCTION env) 200 /\
      efSearch p = numberOr (EIZEN_EF_SEARCH env) 50 /\
      m p <> 0 /\ efConstruction p <> 0 /\ efSearch p <> 0.
Proof.
  intros index env w w2 cid.
  assert (Hnz : forall v fallback, fallback <> 0 -> numberOr v fallback <> 0).
  { intros [n|] fallback Hf; cbn; [| assumption].
    destruct (Z.eqb_spec n 0); assumption. }
  unfold forContract, initialize. rewrite run_bind. cbn [modify run].
  rewrite run_try_catch, run_bind.
  destruct (run (getSharedArweaveConfig env) _) as [[c|err] w0] eqn:E; [| discriminate].
  apply getSharedArweaveConfig_quiet in E as [(Hd & _ & _) Hsv].
  cbn. intros [= <-]. cbn. rewrite Hsv. cbn.
  split; [reflexivity |]. split; [split; cbn; eauto |]. split; [exact Hd |].
  eexists. split; [reflexivity |]. cbn.
  repeat split; apply Hnz; discriminate.
Qed.

Lemma forContract_hands_out_ready_service_witness :
  exists w2,
    run (forContract Demo.env "contract-9") (Demo.start ([] : ListIndex.t)) = (Ok tt, w2) /\
    vectorDb (service w2) = Some {| m := 16; efConstruction := 200; efSearch := 50 |}.
Proof.
  eassert (R2 : run (forContract Demo.env "contract-9") (Demo.start ([] : ListIndex.t))
                = (Ok tt, _)) by (cbv; reflexivity).
  destruct (forContract_hands_out_ready_service ListIndex.t Demo.env _ _ _ R2)
    as (_ & _ & _ & p & Hp & Hm & Hc & Hs & _).
  eexists. split; [exact R2 |]. rewrite Hp. destruct p. cbn in *. now subst.
Defined.

Section EizenReads.
Context {index : Type} `{VectorIndex index} (env : Env).

Lemma getVector_after_init vectorId (w w1 : World index) :
  run (ensureInitialized env) w = (Ok tt, w1) ->
  run (getVector env vectorId) w
  = (match get_vector (db w1) vectorId with
     | Ok found => Ok found
     | Throw cause => Throw (newError ("Failed to retrieve vector: " ++ messageOf cause))
     end, logCall (CallGetVector vectorId) w1).
Proof.
  intros E. unfold getVector. rewrite run_bind, E, run_bind. cbn [gets run].
  destruct (ensureInitialized_quiet env _ _ _ E) as [_ V].
  destruct (V eq_refl) as [_ [h Hh]]. rewrite Hh.
  rewrite run_try_catch. cbn.
  destruct (get_vector (db w1) vectorId) as [[[p md]|]|cause]; reflexivity.
Qed.

Lemma ensureInitialized_after_cleanup (w : World index) config :
  sharedArweaveConfig (statics w) = Some config ->
  run (ensureInitialized env) (snd (run cleanup w))
  = (Ok tt,
     set_service (fun s =>
       {| vectorDb := Some (getHnswParams env);
          sdk := Some (wallet config, contractId s, warp config);
          contractId := contractId s;
          isInitialized := true |}) w).
Proof.
  intros Hs. destruct w as [st sv d e l]. cbn in Hs.
  unfold ensureInitialized, initialize, getSharedArweaveConfig. cbn.
  rewrite Hs. cbn. reflexivity.
Qed.

End EizenReads.

Lemma ready_initialised {index : Type} (d : index) : initialised (Demo.ready d).
Proof. split; cbn; eauto. Qed.

(** X8: [cleanup] never throws and only drops the handles of the service:
    the index, the statics and the log stay as they are, and a read made
    after it re-initialises the service from the memoised configuration,
    without a new call of [getArweaveConfig], and finds what a read before
    the cleanup would have found. *)
Theorem cleanup_keeps_the_data :
  forall (index : Type) (H : VectorIndex index) (env : Env)
         (w : World index) (config : ArweaveConfig),
    sharedArweaveConfig (statics w) = Some config ->
    initialised w ->
    exists w0,
      run cleanup w = (Ok tt, w0) /\
      db w0 = db w /\ statics w0 = statics w /\ log w0 = log w /\
      vectorDb (service w0) = None /\ sdk (service w0) = None /\
      isInitialized (service w0) = false /\
      forall vectorId,
        fst (run (getVector env vectorId) w0) = fst (run (getVector env vectorId) w) /\
        log (snd (run (getVector env vectorId) w0)) = CallGetVector vectorId :: log w.
Proof.
  intros index H env w config Hs Init.
  exists (snd (run cleanup w)). split; [reflexivity |].
  repeat (split; [destruct w; reflexivity |]).
  intros vectorId.
  rewrite (getVector_after_init env vectorId _ _
             (ensureInitialized_after_cleanup env w config Hs)).
  rewrite (getVector_after_init env vectorId w w (ensureInitialized_again env w Init)).
  destruct w; split; reflexivity.
Qed.

Lemma cleanup_keeps_the_data_witness :
  fst (run (getVector Demo.env 0) (snd (run cleanup (Demo.ready ([Demo.bare] : ListIndex.t)))))
  = Ok (Some Demo.bare).
Proof.
  destruct (cleanup_keeps_the_data ListIndex.t _ Demo.env
              (Demo.ready ([Demo.bare] : ListIndex.t)) Demo.config
              eq_refl ltac:(split; cbn; eauto)) as (w0 & R & _ & _ & _ & _ & _ & _ & Read).
  rewrite R. cbn [snd]. destruct (Read 0) as [-> _]. reflexivity.
Defined.

(** X9: on an initialised service a failing [insertVector] throws a plain
    [Error] whose message is the cause's after "Failed to insert vector: ";
    when it is the count that fails, no insert is attempted and the index
    is untouched; otherwise the count was read and the insert itself
    failed. *)
Theorem insertVector_failures :
  forall (index : Type) (H : VectorIndex index) (env : Env)
         (data : InsertVector) (w w' : World index) (e : Exn),
    initialised w ->
    run (insertVector env data) w = (Throw e, w') ->
    exists cause,
      e = JsError "Error" ("Failed to insert vector: " ++ messageOf cause) /\
      ((get_datasize (db w) = Throw cause /\
        db w' = db w /\ log w' = CallGetDatasize :: log w)
       \/
       (exists n, get_datasize (db w) = Ok n /\
          insert (db w) (vector data) (iv_metadata data) = (Throw cause, db w') /\
          log w' = CallInsert (vector data) (iv_metadata data)
                   :: CallGetDatasize :: log w)).
Proof.
  intros index H env data w w' e Init.
  unfold insertVector. rewrite run_bind, (ensureInitialized_again env w Init).
  rewrite run_bind. cbn [gets run]. destruct Init as [_ [h ->]].
  rewrite run_try_catch. cbn.
  destruct (get_datasize (db w)) as [n|cause] eqn:G; cbn.
  - destruct (insert (db w) (vector data) (iv_metadata data)) as [[[]|cause] d'] eqn:I;
      cbn; [discriminate |].
    intros [= <- <-]. exists cause. split; [reflexivity |]. right. exists n.
    cbn. repeat split.
  - intros [= <- <-]. exists cause. split; [reflexivity |]. left. repeat split.
Qed.

Lemma insertVector_failures_witness :
  let out := run (insertVector Demo.env {| vector := [1%Q]; iv_metadata := None |})
                 (Demo.ready tt) in
  fst out = Throw (newError "Failed to insert vector: Contract interaction failed") /\
  log (snd out) = CallGetDatasize :: log (Demo.ready tt).
Proof.
  intros out. subst out.
  destruct (run (insertVector Demo.env {| vector := [1%Q]; iv_metadata := None |})
                (Demo.ready tt)) as [[r|e] w'] eqn:R; [discriminate R |].
  destruct (insertVector_failures unit _ Demo.env _ _ _ _ (ready_initialised tt) R)
    as (cause & -> & [(G & Hd & Hl) | (n & G & _)]); [| discriminate G].
  injection G as <-. split; [reflexivity | exact Hl].
Defined.

(** ** EizenService: deployment *)

(** X10: the calls of a deployment follow one protocol: the address, the
    balance, one deployment call, the balance again.  A run stops somewhere
    along it, makes at most one deployment call, the one of its mode
    ([EizenDbVector.deploy] in production, [warp.deploy] otherwise), and a
    run that returns has gone through all of it. *)
Theorem deploy_call_protocol :
  forall (index : Type) (env : Env) (w w' : World index) (r : Res (string * string)),
    run (deployNewContract env) w = (r, w') ->
    let deploy := if isProduction env then CallDeployProduction else CallWarpDeploy in
    exists trace evs0,
      log w' = (trace ++ evs0 ++ log w)%list /\
      onlyConfigCalls evs0 /\
      In trace [ [];
                 [CallGetAddress];
                 [CallGetBalance; CallGetAddress];
                 [deploy; CallGetBalance; CallGetAddress];
                 [CallGetBalance; deploy; CallGetBalance; CallGetAddress] ] /\
      (isOk r = true ->
       trace = [CallGetBalance; deploy; CallGetBalance; CallGetAddress]).
Proof.
  intros index env w w' r R deploy.
  unfold deployNewContract in R. rewrite run_bind in R.
  destruct (run (getSharedArweaveConfig env) w) as [[config|err] w0] eqn:E;
    apply getSharedArweaveConfig_quiet in E as [(_ & _ & evs0 & Hl & Hc) _].
  2:{ injection R as <- <-. exists [], evs0. cbn.
      repeat split; [assumption | assumption | now left | discriminate]. }
  assert (Done : forall (trace : list Event),
             log w' = (trace ++ log w0)%list ->
             In trace [ [];
                        [CallGetAddress];
                        [CallGetBalance; CallGetAddress];
                        [deploy; CallGetBalance; CallGetAddress];
                        [CallGetBalance; deploy; CallGetBalance; CallGetAddress] ] ->
             (isOk r = true ->
              trace = [CallGetBalance; deploy; CallGetBalance; CallGetAddress]) ->
             exists trace evs0,
               log w' = (trace ++ evs0 ++ log w)%list /\
               onlyConfigCalls evs0 /\
               In trace [ [];
                          [CallGetAddress];
                          [CallGetBalance; CallGetAddress];
                          [deploy; CallGetBalance; CallGetAddress];
                          [CallGetBalance; deploy; CallGetBalance; CallGetAddress] ] /\
               (isOk r = true ->
                trace = [CallGetBalance; deploy; CallGetBalance; CallGetAddress])).
  { intros trace Ht Hin Hok. exists trace, evs0. rewrite Ht, Hl. repeat split; assumption. }
  revert R. rewrite run_try_catch, run_bind. unfold external at 1.
  rewrite run_bind. cbn [modify run await].
  destruct (getAddress env config) as [address|err]; cbn [fst snd].
  2:{ cbn. intros [= <- <-]. apply (Done [CallGetAddress]);
        [reflexivity | cbn; auto | discriminate]. }
  rewrite run_bind. unfold queryBalance at 1. rewrite run_bind. cbn [gets run].
  unfold external at 1. rewrite run_bind. cbn [modify run await].
  destruct (getBalance env address _) as [balance|err].
  2:{ cbn. intros [= <- <-]. apply (Done [CallGetBalance; CallGetAddress]);
        [reflexivity | cbn; auto | discriminate]. }
  destruct (notPositive (parseFloat env (winstonToAr env balance))).
  { destruct (isProduction env); cbn; intros [= <- <-];
      apply (Done [CallGetBalance; CallGetAddress]);
      solve [reflexivity | cbn; auto | discriminate]. }
  subst deploy. rewrite run_bind. destruct (isProduction env).
  - unfold external at 1. rewrite run_bind. cbn [modify run await].
    destruct (deployProduction env config) as [tx|err].
    2:{ cbn. intros [= <- <-].
        apply (Done [CallDeployProduction; CallGetBalance; CallGetAddress]);
          [reflexivity | cbn; auto | discriminate]. }
    rewrite run_bind. unfold queryBalance. rewrite run_bind. cbn [gets run].
    unfold external. rewrite run_bind. cbn [modify run await].
    destruct (getBalance env address _); cbn; intros [= <- <-];
      apply (Done [CallGetBalance; CallDeployProduction; CallGetBalance; CallGetAddress]);
      solve [reflexivity | cbn; auto 6].
  - rewrite !run_bind. cbn [await run].
    destruct (readFileSync env "data/contract.js") as [src|err].
    2:{ cbn. intros [= <- <-]. apply (Done [CallGetBalance; CallGetAddress]);
          [reflexivity | cbn; auto | discriminate]. }
    rewrite !run_bind. cbn [await run].
    destruct (readFileSync env "data/state.json") as [text|err].
    2:{ cbn. intros [= <- <-]. apply (Done [CallGetBalance; CallGetAddress]);
          [reflexivity | cbn; auto | discriminate]. }
    rewrite !run_bind. cbn [await run].
    destruct (stateWithOwner env text address) as [initState|err].
    2:{ cbn. intros [= <- <-]. apply (Done [CallGetBalance; CallGetAddress]);
          [reflexivity | cbn; auto | discriminate]. }
    unfold external at 1. rewrite run_bind. cbn [modify run await].
    destruct (warpDeploy env config initState src) as [tx|err].
    2:{ cbn. intros [= <- <-].
        apply (Done [CallWarpDeploy; CallGetBalance; CallGetAddress]);
          [reflexivity | cbn; auto | discriminate]. }
    rewrite run_bind. unfold queryBalance. rewrite run_bind. cbn [gets run].
    unfold external. rewrite run_bind. cbn [modify run await].
    destruct (getBalance env address _); cbn; intros [= <- <-];
      apply (Done [CallGetBalance; CallWarpDeploy; CallGetBalance; CallGetAddress]);
      solve [reflexivity | cbn; auto 6].
Qed.

Lemma deploy_call_protocol_witness :
  exists w',
    run (deployNewContract (Demo.ledger None "5")) (Demo.start ([] : ListIndex.t))
    = (Ok ("contract-tx", "wallet-address"), w') /\
    log w' = [CallGetBalance; CallWarpDeploy; CallGetBalance; CallGetAddress;
              CallGetArweaveConfig].
Proof.
  eassert (R : run (deployNewContract (Demo.ledger None "5"))
                   (Demo.start ([] : ListIndex.t)) = (Ok _, _)) by (cbv; reflexivity).
  destruct (deploy_call_protocol ListIndex.t _ _ _ _ R) as (trace & evs0 & _ & _ & _ & Hok).
  specialize (Hok eq_refl). eexists. split; [exact R | reflexivity].
Defined.

(** X11: only what happens inside the [try] block of [deployNewContract] is
    reported as a deployment failure: a failure to obtain the shared
    configuration is rethrown as it is, every later failure is a plain
    [Error] whose message starts with "Failed to deploy contract: ". *)
Theorem deploy_error_context :
  forall (index : Type) (env : Env) (w w' : World index) (e : Exn),
    run (deployNewContract env) w = (Throw e, w') ->
    match run (getSharedArweaveConfig env) w with
    | (Throw cause, w0) => e = cause /\ w' = w0
    | (Ok _, _) =>
        exists cause, e = JsError "Error" ("Failed to deploy contract: " ++ messageOf cause)
    end.
Proof.
  intros index env w w' e. unfold deployNewContract. rewrite run_bind.
  destruct (run (getSharedArweaveConfig env) w) as [[config|cause] w0].
  - rewrite run_try_catch.
    match goal with |- context [run ?body w0] => destruct (run body w0) as [[ok|cause] w1] end;
      cbn; [discriminate |].
    intros [= <- <-]. now exists cause.
  - intros [= <- <-]. split; reflexivity.
Qed.

Lemma deploy_error_context_witness :
  fst (run (deployNewContract Demo.flakyEnv) (Demo.start ([] : ListIndex.t)))
  = Throw (newError "wallet file missing").
Proof.
  destruct (run (deployNewContract Demo.flakyEnv) (Demo.start ([] : ListIndex.t)))
    as [[ok|e] w'] eqn:R; [discriminate R |].
  pose proof (deploy_error_context ListIndex.t Demo.flakyEnv _ _ _ R) as Ctx.
  cbn in Ctx. destruct Ctx as [-> _]. reflexivity.
Defined.

(** ** MemoryService: reading *)

Lemma getMemory_on_initialised {index : Type} `{VectorIndex index} (env : Env)
    (w : World index) (memoryId : Z) :
  initialised w ->
  run (getMemory env memoryId) w
  = (match get_vector (db w) memoryId with
     | Ok None => Ok None
     | Ok (Some v) =>
         Ok (Some {| mr_id := memoryId;
                     mr_content := nonEmpty (md ← sv_metadata v; content md);
                     mr_metadata := sv_metadata v;
                     mr_distance := None |})
     | Throw cause =>
         Throw (newError ("Failed to retrieve memory: Failed to retrieve vector: "
                          ++ messageOf cause))
     end,
     logCall (CallGetVector memoryId) w).
Proof.
  intros Init.
  unfold getMemory. rewrite run_try_catch, run_bind.
  rewrite (getVector_after_init env memoryId w w (ensureInitialized_again env w Init)).
  destruct (get_vector (db w) memoryId) as [[v|]|cause]; reflexivity.
Qed.

(** X12: on an initialised service [getMemory] makes one [get_vector] call
    and returns what it finds: [null] for an id the index does not hold
    (not an error), the reshaped record for one it holds, its content being
    the metadata's non-empty content; a failing index call is reported as
    "Failed to retrieve memory: Failed to retrieve vector: " and the
    cause's message. *)
Theorem getMemory_outcomes :
  forall (index : Type) (H : VectorIndex index) (env : Env)
         (w : World index) (memoryId : Z),
    initialised w ->
    run (getMemory env memoryId) w
    = (match get_vector (db w) memoryId with
       | Ok None => Ok None
       | Ok (Some v) =>
           Ok (Some {| mr_id := memoryId;
                       mr_content := nonEmpty (md ← sv_metadata v; content md);
                       mr_metadata := sv_metadata v;
                       mr_distance := None |})
       | Throw cause =>
           Throw (newError ("Failed to retrieve memory: Failed to retrieve vector: "
                            ++ messageOf cause))
       end,
       logCall (CallGetVector memoryId) w).
Proof.
  intros index H env w memoryId Init. now apply getMemory_on_initialised.
Qed.

Lemma getMemory_outcomes_witness :
  fst (run (getMemory Demo.env 7) (Demo.ready ([Demo.bare] : ListIndex.t))) = Ok None /\
  fst (run (getMemory Demo.env 7) (Demo.ready tt))
  = Throw (newError
      "Failed to retrieve memory: Failed to retrieve vector: Contract interaction failed").
Proof.
  rewrite (getMemory_outcomes ListIndex.t _ Demo.env _ 7
             (ready_initialised ([Demo.bare] : ListIndex.t))).
  rewrite (getMemory_outcomes unit _ Demo.env _ 7 (ready_initialised tt)).
  split; reflexivity.
Defined.

Section ReadOnly.
Context {index : Type} `{VectorIndex index}.
Context (env : Env) (be : Backend) (dateValue : string -> option Z).

Lemma onlyConfigCalls_noInsert evs : onlyConfigCalls evs ->
  Forall (fun e : Event => match e with CallInsert _ _ => False | _ => True end) evs.
Proof. intros Hc. eapply Forall_impl; [exact Hc |]. now intros e ->. Qed.

Lemma getVector_reads vectorId (w : World index) r w' :
  run (getVector env vectorId) w = (r, w') ->
  db w' = db w /\ exists evs, log w' = (evs ++ log w)%list /\
    Forall (fun e : Event => match e with CallInsert _ _ => False | _ => True end) evs.
Proof.
  unfold getVector. rewrite run_bind.
  destruct (run (ensureInitialized env) w) as [[[]|err] w1] eqn:E;
    apply ensureInitialized_quiet in E as [(Hd & _ & evs & Hl & Hc) _];
    apply onlyConfigCalls_noInsert in Hc.
  - rewrite run_bind. cbn [gets run]. destruct (vectorDb (service w1)).
    + rewrite run_try_catch. cbn.
      destruct (get_vector (db w1) vectorId) as [[v|]|cause]; cbn; intros [= <- <-];
        (split; [exact Hd |]); exists (CallGetVector vectorId :: evs); cbn; rewrite Hl;
        (split; [reflexivity | now constructor]).
    + cbn. intros [= <- <-]. split; [exact Hd |]. now exists evs.
  - intros [= <- <-]. split; [exact Hd |]. now exists evs.
Qed.

Lemma searchVectors_reads data (w : World index) r w' :
  run (searchVectors env data) w = (r, w') ->
  db w' = db w /\ exists evs, log w' = (evs ++ log w)%list /\
    Forall (fun e : Event => match e with CallInsert _ _ => False | _ => True end) evs.
Proof.
  unfold searchVectors. rewrite run_bind.
  destruct (run (ensureInitialized env) w) as [[[]|err] w1] eqn:E;
    apply ensureInitialized_quiet in E as [(Hd & _ & evs & Hl & Hc) _];
    apply onlyConfigCalls_noInsert in Hc.
  - rewrite run_bind. cbn [gets run]. destruct (vectorDb (service w1)).
    + rewrite run_try_catch. cbn.
      destruct (knn_search (db w1) (query data) (k data)); cbn; intros [= <- <-];
        (split; [exact Hd |]); exists (CallKnnSearch (query data) (k data) :: evs);
        cbn; rewrite Hl; (split; [reflexivity | now constructor]).
    + cbn. intros [= <- <-]. split; [exact Hd |]. now exists evs.
  - intros [= <- <-]. split; [exact Hd |]. now exists evs.
Qed.

End ReadOnly.

(** X13: the read operations never write: whatever their outcome,
    [searchMemories], [getMemory] and [getStats] leave the index as it was
    and make no insert call. *)
Theorem reads_never_write :
  forall (index : Type) (H : VectorIndex index) (env : Env) (be : Backend)
         (dateValue : string -> option Z) (w : World index),
    let untouched (w' : World index) :=
      db w' = db w /\
      exists evs, log w' = (evs ++ log w)%list /\
        Forall (fun e => match e with CallInsert _ _ => False | _ => True end) evs in
    (forall data, untouched (snd (run (searchMemories env be dateValue data) w))) /\
    (forall memoryId, untouched (snd (run (getMemory env memoryId) w))) /\
    untouched (snd (run Memory.getStats w)).
Proof.
  intros index H env be dateValue w untouched. subst untouched. cbn beta.
  split; [| split].
  - intros data. unfold searchMemories. rewrite run_try_catch, run_bind.
    destruct (run (Memory.textToEmbeddings be (sm_query data)) w) as [[v|err] w0] eqn:T;
      apply textToEmbeddings_frame in T as (_ & _ & Hd0 & Hl0).
    + rewrite run_bind.
      destruct (run (searchVectors env _) w0) as [[hits|err] w1] eqn:S;
        apply searchVectors_reads in S as (Hd & evs & Hl & Hn); cbn;
        (split; [congruence |]); exists evs; rewrite Hl, Hl0; now split.
    + cbn. split; [assumption |]. exists []. rewrite Hl0. now split.
  - intros memoryId. unfold getMemory. rewrite run_try_catch, run_bind.
    destruct (run (getVector env memoryId) w) as [[[v|]|err] w1] eqn:G;
      apply getVector_reads in G as (Hd & evs & Hl & Hn); cbn;
      (split; [assumption |]); exists evs; now split.
  - unfold Memory.getStats, Memory.getStatsWith, Eizen.getStats, getVectorCount. cbn.
    destruct (vectorDb (service w)) as [h|] eqn:V; cbn.
    + rewrite V. cbn.
      destruct (get_datasize (db w)); cbn;
        (split; [reflexivity |]); exists [CallGetDatasize]; split;
        solve [reflexivity | now repeat constructor].
    + split; [reflexivity |]. exists []. now split.
Qed.

(** ** MemoryService: creation that fails early *)

(** X14: when the embedding of the content fails, [createMemory] stops
    there: the service is not initialised, the index is not called, and the
    error is a plain [Error] reading "Failed to create memory: Failed to
    generate embeddings: " followed by the message of the embedding
    engine's own error. *)
Theorem createMemory_stops_at_embedding :
  forall (index : Type) (H : VectorIndex index) (env : Env) (be : Backend)
         (data : CreateMemory) (w : World index) (e : Exn) (s' : EmbeddingService),
    run (Embedding.textToEmbeddings be (cm_content data)) (embedding w) = (Throw e, s') ->
    exists w',
      run (createMemory env be data) w
      = (Throw (newError ("Failed to create memory: Failed to generate embeddings: "
                          ++ messageOf e)), w') /\
      embedding w' = s' /\
      statics w' = statics w /\ service w' = service w /\
      db w' = db w /\ log w' = log w.
Proof.
  intros index H env be data w e s' T.
  exists (set_embedding s' w). split; [| destruct w; repeat split].
  unfold createMemory, Memory.textToEmbeddings.
  rewrite !run_try_catch, run_bind, run_try_catch, run_bind.
  unfold liftE at 1. cbn [run]. rewrite T. reflexivity.
Qed.

Lemma createMemory_stops_at_embedding_witness :
  exists w',
    run (createMemory Demo.env Scenes.deaf Demo.darkMode) (Demo.ready ([] : ListIndex.t))
    = (Throw (newError
         ("Failed to create memory: Failed to generate embeddings: "
          ++ "Failed to generate embeddings: session closed")), w') /\
    log w' = [CallGetArweaveConfig] /\ db w' = [].
Proof.
  destruct (createMemory_stops_at_embedding ListIndex.t _ Demo.env Scenes.deaf Demo.darkMode
              (Demo.ready ([] : ListIndex.t))
              (newError "Failed to generate embeddings: session closed")
              Scenes.loaded eq_refl)
    as (w' & R & _ & _ & _ & Hd & Hl).
  exists w'. split; [exact R |]. split; [exact Hl | exact Hd].
Defined.

(** ** MemoryService: the filters *)

Lemma prefix_spec (p s : string) :
  String.prefix p s = true <-> exists rest, s = p ++ rest.
Proof.
  revert s. induction p as [|a p IH]; intros s.
  - split; [intros _; now exists s | intros _; now destruct s].
  - destruct s as [|b s]; cbn; [split; [discriminate | intros [rest [=]]] |].
    destruct (Ascii.ascii_dec a b) as [->|Hne].
    + rewrite IH. split; intros [rest E]; exists rest; [now rewrite E | now injection E].
    + split; [discriminate | intros [rest [= E _]]; congruence].
Qed.

Lemma includes_spec (haystack needle : string) :
  includes haystack needle = true <->
  exists before after, haystack = before ++ needle ++ after.
Proof.
  induction haystack as [|a h IH]; cbn [includes].
  - rewrite orb_false_r, prefix_spec. split.
    + intros [rest E]. now exists "", rest.
    + intros (before & after & E). destruct before; [now exists after | discriminate E].
  - rewrite orb_true_iff, prefix_spec, IH. split.
    + intros [[rest E] | (before & after & E)].
      * now exists "", rest.
      * exists (String a before), after. cbn. now rewrite E.
    + intros (before & after & E). destruct before as [|b before].
      * left. now exists after.
      * right. injection E as _ E. now exists before, after.
Qed.

Section FilterFacts.
Context (dateValue : string -> option Z).

Lemma kept_by_applyFilters memories f r :
  In r (applyFilters dateValue memories (Some f)) <->
  In r memories /\ keep dateValue f r = true.
Proof. cbn. apply filter_In. Qed.

End FilterFacts.

(** X15: with a tag filter, every returned hit that carries metadata has
    at least one of the filter's tags among its own; so a hit whose
    metadata has no tags, and any hit with metadata under an empty tag
    list, is filtered out. *)
Theorem tag_filter_is_enforced :
  forall (dateValue : string -> option Z) (memories : list MemoryResult)
         (f : SearchFilters) (wanted : list string) (r : MemoryResult)
         (md : VectorMetadata),
    f_tags f = Some wanted ->
    In r (applyFilters dateValue memories (Some f)) ->
    mr_metadata r = Some md ->
    exists tag own, tags md = Some own /\ In tag wanted /\ In tag own.
Proof.
  intros dateValue memories f wanted r md Hf Hin Hmd.
  apply kept_by_applyFilters in Hin as [_ K]. unfold keep in K. rewrite Hmd, Hf in K.
  destruct (existsb _ wanted) eqn:Ex; [| discriminate]. clear K.
  apply existsb_exists in Ex as (tag & Hw & Hown).
  apply bool_decide_eq_true in Hown. apply list_elem_of_In in Hown.
  destruct (tags md) as [own|]; [| destruct Hown].
  exists tag, own. repeat split; assumption.
Qed.

Lemma tag_filter_is_enforced_witness :
  let tagged := {| mr_id := 0; mr_content := None;
                   mr_metadata := cm_metadata Demo.darkMode; mr_distance := None |} in
  let untagged := {| mr_id := 1; mr_content := None;
                     mr_metadata := Some emptyMetadata; mr_distance := None |} in
  let f := {| f_tags := Some ["preference"; "ui"]; importance_min := None;
              importance_max := None; date_from := None; date_to := None;
              f_context := None; f_client := None |} in
  applyFilters Demo.noDate [tagged; untagged] (Some f) = [tagged] /\
  exists tag own, tags (default emptyMetadata (cm_metadata Demo.darkMode)) = Some own /\
                  In tag ["preference"; "ui"] /\ In tag own.
Proof.
  intros tagged untagged f. split; [reflexivity |].
  exact (tag_filter_is_enforced Demo.noDate [tagged; untagged] f ["preference"; "ui"]
           tagged _ eq_refl (or_introl eq_refl) eq_refl).
Defined.

(** X16: with [importance_max = hi], every returned hit that carries
    metadata has an importance of at most [hi], a missing importance
    counting as 0: unlike the minimum, the maximum lets a hit without
    importance through whenever [hi >= 0]. *)
Theorem importance_max_is_enforced :
  forall (dateValue : string -> option Z) (memories : list MemoryResult)
         (f : SearchFilters) (hi : Z),
    importance_max f = Some hi ->
    (forall r md,
        In r (applyFilters dateValue memories (Some f)) ->
        mr_metadata r = Some md ->
        default 0 (importance md) <= hi) /\
    (forall r md,
        In r memories ->
        mr_metadata r = Some md ->
        importance md = None ->
        0 <= hi ->
        f_tags f = None -> importance_min f = None ->
        nonEmpty (f_client f) = None ->
        nonEmpty (date_from f) = None -> nonEmpty (date_to f) = None ->
        In r (applyFilters dateValue memories (Some f))).
Proof.
  intros dateValue memories f hi Hf. split.
  - intros r md Hin Hmd.
    apply kept_by_applyFilters in Hin as [_ K]. unfold keep in K. rewrite Hmd, Hf in K.
    destruct (match f_tags f with Some _ => _ | None => _ end); [discriminate |].
    destruct (match importance_min f with Some _ => _ | None => _ end); [discriminate |].
    destruct (Z.gtb_spec (default 0 (importance md)) hi); [discriminate | lia].
  - intros r md Hin Hmd Himp Hhi Ht Hmin Hc Hfrom Hto.
    apply kept_by_applyFilters. split; [assumption |].
    unfold keep. rewrite Hmd, Hf, Ht, Hmin, Hc, Hfrom, Hto, Himp. cbn.
    destruct (Z.gtb_spec 0 hi); [lia | reflexivity].
Qed.

Lemma importance_max_is_enforced_witness :
  let plain := {| mr_id := 1; mr_content := None;
                  mr_metadata := Some emptyMetadata; mr_distance := None |} in
  let heavy := {| mr_id := 0; mr_content := None;
                  mr_metadata := cm_metadata Demo.darkMode; mr_distance := None |} in
  let f := {| f_tags := None; importance_min := None; importance_max := Some 5;
              date_from := None; date_to := None; f_context := None; f_client := None |} in
  In plain (applyFilters Demo.noDate [heavy; plain] (Some f)) /\
  ~ In heavy (applyFilters Demo.noDate [heavy; plain] (Some f)).
Proof.
  intros plain heavy f.
  destruct (importance_max_is_enforced Demo.noDate [heavy; plain] f 5 eq_refl)
    as [Bound Lets].
  split.
  - apply (Lets plain emptyMetadata); try reflexivity; [right; now left | lia].
  - intros Hin. specialize (Bound heavy _ Hin eq_refl). cbn in Bound. lia.
Defined.

(** X17: with a non-empty client filter, every returned hit that carries
    metadata has a client string that contains the filter's text as a
    substring; a hit whose metadata has no client is filtered out. *)
Theorem client_filter_is_enforced :
  forall (dateValue : string -> option Z) (memories : list MemoryResult)
         (f : SearchFilters) (wanted : string) (r : MemoryResult)
         (md : VectorMetadata),
    f_client f = Some wanted ->
    wanted <> "" ->
    In r (applyFilters dateValue memories (Some f)) ->
    mr_metadata r = Some md ->
    exists own before after,
      client md = Some own /\ own = before ++ wanted ++ after.
Proof.
  intros dateValue memories f wanted r md Hf Hne Hin Hmd.
  apply kept_by_applyFilters in Hin as [_ K]. unfold keep in K. rewrite Hmd, Hf in K.
  destruct (match f_tags f with Some _ => _ | None => _ end); [discriminate |].
  destruct (match importance_min f with Some _ => _ | None => _ end); [discriminate |].
  destruct (match importance_max f with Some _ => _ | None => _ end); [discriminate |].
  assert (Hw : nonEmpty (Some wanted) = Some wanted)
    by (destruct wanted; [contradiction | reflexivity]).
  rewrite Hw in K.
  destruct (includes (default "" (client md)) wanted) eqn:Inc; [| discriminate].
  apply includes_spec in Inc as (before & after & E).
  destruct (client md) as [own|]; cbn in E.
  - exists own, before, after. split; [reflexivity | assumption].
  - destruct before; [destruct wanted; [contradiction | discriminate E] | discriminate E].
Qed.

Lemma client_filter_is_enforced_witness :
  let fromCursor := {| mr_id := 0; mr_content := None;
                       mr_metadata := Some Scenes.cursorNote;
                       mr_distance := None |} in
  let f := {| f_tags := None; importance_min := None; importance_max := None;
              date_from := None; date_to := None; f_context := None;
              f_client := Some "cursor" |} in
  exists own before after,
    applyFilters Demo.noDate [fromCursor] (Some f) = [fromCursor] /\
    own = "cursor-ide" /\ own = before ++ "cursor" ++ after.
Proof.
  intros fromCursor f.
  destruct (client_filter_is_enforced Demo.noDate [fromCursor] f "cursor" fromCursor _
              eq_refl ltac:(discriminate) (or_introl eq_refl) eq_refl)
    as (own & before & after & [= <-] & E).
  exists "cursor-ide", before, after. repeat split. exact E.
Defined.

(** X18: with a date range, a returned hit whose metadata has a timestamp
    (or, failing that, a creation date) that reads as a date lies within
    the bounds that read as dates, both inclusive; a hit whose metadata has
    neither a timestamp nor a creation date is let through by the date
    filter. *)
Theorem date_filter_is_enforced :
  forall (dateValue : string -> option Z) (memories : list MemoryResult)
         (f : SearchFilters),
    (forall r md stamp t,
        In r (applyFilters dateValue memories (Some f)) ->
        mr_metadata r = Some md ->
        nonEmpty (orElse (timestamp md) (createdAt md)) = Some stamp ->
        dateValue stamp = Some t ->
        (forall from lo, nonEmpty (date_from f) = Some from ->
                         dateValue from = Some lo -> lo <= t) /\
        (forall to hi, nonEmpty (date_to f) = Some to ->
                       dateValue to = Some hi -> t <= hi)) /\
    (forall r md,
        In r memories ->
        mr_metadata r = Some md ->
        timestamp md = None -> createdAt md = None ->
        In r (applyFilters dateValue memories (Some (Scenes.onlyDates f)))).
Proof.
  intros dateValue memories f. split.
  - intros r md stamp t Hin Hmd Hstamp Ht.
    apply kept_by_applyFilters in Hin as [_ K]. unfold keep in K. rewrite Hmd in K.
    destruct (match f_tags f with Some _ => _ | None => _ end); [discriminate |].
    destruct (match importance_min f with Some _ => _ | None => _ end); [discriminate |].
    destruct (match importance_max f with Some _ => _ | None => _ end); [discriminate |].
    destruct (match nonEmpty (f_client f) with Some _ => _ | None => _ end);
      [discriminate |].
    rewrite Hstamp, Ht in K.
    destruct (nonEmpty (date_from f)) as [from|], (nonEmpty (date_to f)) as [to|];
      (split; [intros from' lo [= <-] Hlo | intros to' hi [= <-] Hhi]);
      try discriminate;
      repeat match type of K with
             | context [dateValue ?x] =>
                 match goal with Hx : dateValue x = _ |- _ => rewrite Hx in K end
             end;
      cbn in K;
      repeat match type of K with
             | context [?a <? ?b] => destruct (Z.ltb_spec a b); try discriminate
             end;
      repeat match type of K with
             | (if ?c then _ else _) = _ => destruct c
             end;
      try discriminate; lia.
  - intros r md Hin Hmd Hts Hcr. apply kept_by_applyFilters. split; [assumption |].
    unfold keep. rewrite Hmd. cbn. rewrite Hts, Hcr. cbn.
    destruct (nonEmpty (date_from f)), (nonEmpty (date_to f)); reflexivity.
Qed.

Lemma date_filter_is_enforced_witness :
  let dated := {| mr_id := 0; mr_content := None;
                  mr_metadata := Some Scenes.stamped; mr_distance := None |} in
  let undated := {| mr_id := 1; mr_content := None;
                    mr_metadata := Some Scenes.cursorNote; mr_distance := None |} in
  applyFilters Scenes.dayNumber [dated; undated] (Some (Scenes.onlyDates Scenes.january))
    = [dated; undated] /\
  20260101 <= 20260115 <= 20260131.
Proof.
  intros dated undated.
  destruct (date_filter_is_enforced Scenes.dayNumber [dated; undated]
              (Scenes.onlyDates Scenes.january)) as [Bound _].
  destruct (Bound dated Scenes.stamped "20260115" 20260115
              (or_introl eq_refl) eq_refl eq_refl eq_refl) as [Lo Hi].
  split; [reflexivity |]. split.
  - exact (Lo "20260101" 20260101 eq_refl eq_refl).
  - exact (Hi "20260131" 20260131 eq_refl eq_refl).
Defined.

(** X19: the filter categories are combined by AND: a hit is returned
    under a filter exactly when it is returned under each of its five
    categories taken alone (tags, minimum, maximum, client, dates). *)
Theorem filters_are_and_combined :
  forall (dateValue : string -> option Z) (memories : list MemoryResult)
         (f : SearchFilters) (r : MemoryResult),
    In r (applyFilters dateValue memories (Some f)) <->
    In r (applyFilters dateValue memories (Some (Scenes.onlyTags f))) /\
    In r (applyFilters dateValue memories (Some (Scenes.onlyMin f))) /\
    In r (applyFilters dateValue memories (Some (Scenes.onlyMax f))) /\
    In r (applyFilters dateValue memories (Some (Scenes.onlyClient f))) /\
    In r (applyFilters dateValue memories (Some (Scenes.onlyDates f))).
Proof.
  intros dateValue memories f r. rewrite !kept_by_applyFilters.
  assert (K : keep dateValue f r =
              keep dateValue (Scenes.onlyTags f) r && keep dateValue (Scenes.onlyMin f) r
              && keep dateValue (Scenes.onlyMax f) r
              && keep dateValue (Scenes.onlyClient f) r
              && keep dateValue (Scenes.onlyDates f) r).
  { unfold keep. destruct (mr_metadata r) as [md|]; [| reflexivity]. cbn.
    destruct (match f_tags f with Some _ => _ | None => _ end); [reflexivity |].
    destruct (match importance_min f with Some _ => _ | None => _ end); [reflexivity |].
    destruct (match importance_max f with Some _ => _ | None => _ end); [reflexivity |].
    destruct (match nonEmpty (f_client f) with Some _ => _ | None => _ end);
      [reflexivity |].
    cbn. destruct (nonEmpty (date_from f)), (nonEmpty (date_to f)); reflexivity. }
  rewrite K, !andb_true_iff. tauto.
Qed.

(** ** The schema in front of the search *)

Lemma searchMemorySchema_k isDatetime (input out : SearchMemory) :
  MemorySchema.searchMemorySchema isDatetime input = MemorySchema.Valid out ->
  exists n, sm_k out = Some n /\ 1 <= n <= 100 /\ n = default 10 (sm_k input).
Proof.
  unfold MemorySchema.searchMemorySchema, MemorySchema.parseK.
  destruct (sm_k input) as [given|]; cbn.
  - unfold MemorySchema.boundIssues.
    destruct (Z.ltb_spec given 1); cbn.
    { destruct (MemorySchema.queryIssues _); discriminate. }
    destruct (Z.gtb_spec given 100); cbn.
    { destruct (MemorySchema.queryIssues _); discriminate. }
    destruct (_ ++ _)%list; [| discriminate].
    intros [= <-]. cbn. exists given. repeat split; lia.
  - destruct (_ ++ _)%list; [| discriminate].
    intros [= <-]. cbn. exists 10. repeat split; lia.
Qed.

(** X20: a search request accepted by [searchMemorySchema] reaches the
    index with a [k] between 1 and 100, the given one or 10 when none was
    given; the service itself passes any non-zero [k] on unchecked. *)
Theorem validated_search_k_in_range :
  forall (index : Type) (H : VectorIndex index) (env : Env) (be : Backend)
         (dateValue : string -> option Z) (isDatetime : string -> bool),
    (forall (input out : SearchMemory) (w w' : World index) r evs,
        MemorySchema.searchMemorySchema isDatetime input = MemorySchema.Valid out ->
        run (searchMemories env be dateValue out) w = (r, w') ->
        log w' = (evs ++ log w)%list ->
        forall q n, In (CallKnnSearch q n) evs ->
          1 <= n <= 100 /\ n = default 10 (sm_k input)) /\
    (forall (data : SearchMemory) (given : Z) (w w' : World index) r evs,
        sm_k data = Some given -> given <> 0 ->
        run (searchMemories env be dateValue data) w = (r, w') ->
        log w' = (evs ++ log w)%list ->
        forall q n, In (CallKnnSearch q n) evs -> n = given).
Proof.
  intros index H env be dateValue isDatetime.
  assert (Calls : forall (data : SearchMemory) (w w' : World index) r evs,
             run (searchMemories env be dateValue data) w = (r, w') ->
             log w' = (evs ++ log w)%list ->
             forall q n, In (CallKnnSearch q n) evs -> n = kOrDefault (sm_k data)).
  { intros data w w' r evs R Hl q n Hin.
    destruct (searchMemories_log env be dateValue _ _ _ _ R) as (evs' & Hl' & Hc).
    rewrite Hl in Hl'. apply app_inv_tail in Hl'. subst evs'. eauto. }
  split.
  - intros input out w w' r evs V R Hl q n Hin.
    rewrite (Calls out w w' r evs R Hl q n Hin).
    destruct (searchMemorySchema_k isDatetime input out V) as (k & Hk & Hrange & Hgiven).
    rewrite Hk. cbn. destruct (Z.eqb_spec k 0); [lia |].
    split; assumption.
  - intros data given w w' r evs Hk Hnz R Hl q n Hin.
    rewrite (Calls data w w' r evs R Hl q n Hin), Hk. cbn.
    destruct (Z.eqb_spec given 0); [contradiction | reflexivity].
Qed.

Lemma validated_search_k_in_range_witness :
  exists r w' q rest,
    run (searchMemories Demo.env Demo.backend Demo.noDate Scenes.wide)
        (Demo.ready ([Demo.bare] : ListIndex.t)) = (r, w') /\
    log w' = CallKnnSearch q 250 :: rest /\
    MemorySchema.searchMemorySchema (fun _ => true) Scenes.wide
    = MemorySchema.Invalid [MemorySchema.mkIssue "k" "too_big"].
Proof.
  destruct (validated_search_k_in_range ListIndex.t _ Demo.env Demo.backend Demo.noDate
              (fun _ => true)) as [_ Unchecked].
  eassert (R : run (searchMemories Demo.env Demo.backend Demo.noDate Scenes.wide)
                   (Demo.ready ([Demo.bare] : ListIndex.t)) = (_, _))
    by (cbv; reflexivity).
  match type of R with
  | _ = (_, ?w) =>
      eassert (Hl : log w = ([CallKnnSearch _ _]
                             ++ log (Demo.ready ([Demo.bare] : ListIndex.t)))%list)
        by (cbv; reflexivity)
  end.
  pose proof (Unchecked Scenes.wide 250 _ _ _ _ eq_refl ltac:(lia) R Hl _ _
                (or_introl eq_refl)) as Hk.
  eexists _, _, _, _. split; [exact R |]. split; [| reflexivity].
  reflexivity.
Defined.

(** ** The quota gate: soundness and failures *)

(** X21: the gate lets a request through only for an authenticated user
    whose subscription was found, is active and has quota left: if the
    middleware returns, the rest of the chain has run, with that
    subscription attached to the context. *)
Theorem quota_gate_is_sound :
  forall (getUserSubscription : string -> Res (option Subscription))
         (next : M Context unit) (c c' : Context),
    run (quotaMiddleware getUserSubscription next) c = (Ok tt, c') ->
    exists uid s,
      ctx_userId c = Some uid /\ uid <> "" /\
      getUserSubscription uid = Ok (Some s) /\
      isActive s = true /\ quotaUsed s < quotaLimit s /\
      run next (attach s c) = (Ok tt, c').
Proof.
  intros getUserSubscription next c c'. unfold quotaMiddleware.
  rewrite run_bind. cbn [gets run].
  destruct (ctx_userId c) as [[|a rest]|] eqn:Hu; try discriminate.
  rewrite run_try_catch, run_bind. cbn [await run].
  destruct (getUserSubscription (String a rest)) as [[s|]|err] eqn:G.
  - destruct (isActive s) eqn:Ha; cbn [negb]; [| discriminate].
    destruct (Z.geb_spec (quotaUsed s) (quotaLimit s)); [discriminate |].
    rewrite run_bind. cbn [modify run].
    destruct (run next (attach s c)) as [[[]|err] c1] eqn:N.
    + intros [= <-]. exists (String a rest), s. repeat split; try assumption. discriminate.
    + cbn. destruct err; discriminate.
  - discriminate.
  - cbn. destruct err; discriminate.
Qed.

Lemma quota_gate_is_sound_witness :
  let s := {| userId := "user-1"; plan := pro; quotaLimit := 1000;
              quotaUsed := 999; isActive := true; renewsAt := "2026-01-01" |} in
  let c := {| ctx_userId := Some "user-1"; ctx_subscription := None |} in
  run (quotaMiddleware (fun _ => Ok (Some s)) (mret tt)) c = (Ok tt, attach s c) /\
  quotaUsed s < quotaLimit s.
Proof.
  intros s c.
  assert (R : run (quotaMiddleware (fun _ => Ok (Some s)) (mret tt)) c
              = (Ok tt, attach s c)) by (cbv; reflexivity).
  destruct (quota_gate_is_sound (fun _ => Ok (Some s)) (mret tt) c (attach s c) R)
    as (uid & s' & _ & _ & [= <-] & _ & Hq & _).
  split; [exact R | exact Hq].
Defined.

(** X22: the gate fails with an [HTTPException] only: 401 and an untouched
    context without a user id, and 500 "Failed to check quota" when the
    subscription lookup itself throws an ordinary error. *)
Theorem quota_gate_failures :
  forall (getUserSubscription : string -> Res (option Subscription))
         (next : M Context unit) (c c' : Context) (e : Exn),
    run (quotaMiddleware getUserSubscription next) c = (Throw e, c') ->
    (exists status message, e = HTTPException status message) /\
    (nonEmpty (ctx_userId c) = None ->
     e = HTTPException 401 "Authentication required" /\ c' = c) /\
    (forall uid name message,
        nonEmpty (ctx_userId c) = Some uid ->
        getUserSubscription uid = Throw (JsError name message) ->
        e = HTTPException 500 "Failed to check quota" /\ c' = c).
Proof.
  intros getUserSubscription next c c' e. unfold quotaMiddleware.
  rewrite run_bind. cbn [gets run].
  destruct (ctx_userId c) as [[|a rest]|] eqn:Hu; cbn [nonEmpty truthy].
  1,3: intros [= <- <-]; split; [eauto |]; split; [now split | discriminate].
  rewrite run_try_catch, run_bind. cbn [await run].
  destruct (getUserSubscription (String a rest)) as [[s|]|err] eqn:G.
  - destruct (isActive s); cbn [negb].
    + destruct (quotaUsed s >=? quotaLimit s).
      * cbn. intros [= <- <-]. split; [eauto |]. split; [discriminate |].
        intros uid nm msg [= <-] Hx. congruence.
      * rewrite run_bind. cbn [modify run].
        destruct (run next (attach s c)) as [[[]|err] c1]; [discriminate |].
        cbn. destruct err; cbn; intros [= <- <-]; (split; [eauto |]);
          (split; [discriminate |]); intros uid nm msg [= <-] Hx; congruence.
    + cbn. intros [= <- <-]. split; [eauto |]. split; [discriminate |].
      intros uid nm msg [= <-] Hx. congruence.
  - cbn. intros [= <- <-]. split; [eauto |]. split; [discriminate |].
    intros uid nm msg [= <-] Hx. congruence.
  - cbn. destruct err; cbn; intros [= <- <-]; (split; [eauto |]);
      (split; [discriminate |]); intros uid nm msg [= <-] Hx;
      rewrite G in Hx; try discriminate; now split.
Qed.

Lemma quota_gate_failures_witness :
  let c := {| ctx_userId := Some "user-1"; ctx_subscription := None |} in
  run (quotaMiddleware (fun _ => Throw (newError "database unreachable")) (mret tt)) c
  = (Throw (HTTPException 500 "Failed to check quota"), c).
Proof.
  intros c.
  destruct (run (quotaMiddleware (fun _ => Throw (newError "database unreachable"))
                                 (mret tt)) c) as [[[]|e] c'] eqn:R; [discriminate R |].
  destruct (quota_gate_failures _ _ _ _ _ R) as (_ & _ & Lookup).
  destruct (Lookup "user-1" "Error" "database unreachable" eq_refl eq_refl) as [-> ->].
  reflexivity.
Defined.

(** ** The schema in front of the creation *)

Lemma boundIssues_nil path lo hi n :
  MemorySchema.boundIssues path lo hi n = [] <-> lo <= n <= hi.
Proof.
  unfold MemorySchema.boundIssues.
  destruct (Z.ltb_spec n lo); [split; [discriminate | lia] |].
  destruct (Z.gtb_spec n hi); [split; [discriminate | lia] |].
  split; [lia | reflexivity].
Qed.

(** X23: [createMemorySchema] accepts a request exactly when its content
    has 1 to 10,000 characters, counted as [content.length] counts them, and
    its metadata, if any, has an importance of 1 to 10 (when given) and a
    well-formed timestamp (when given).  The accepted request has the same
    content and metadata if and only if the request had one; the client of
    that metadata is the given one, or "unknown" when none was given, and
    every other field is the given one.  A content of no character is
    reported as too small and one of more than 10,000 as too big, first of
    the issues. *)
Theorem createMemorySchema_accepts :
  forall (isDatetime : string -> bool) (input : CreateMemory),
    ((exists out, MemorySchema.createMemorySchema isDatetime input = MemorySchema.Valid out)
     <->
     (1 <= strlen (cm_content input) <= 10000 /\
      forall md, cm_metadata input = Some md ->
        (forall i, importance md = Some i -> 1 <= i <= 10) /\
        (forall stamp, timestamp md = Some stamp -> isDatetime stamp = true)))
    /\
    (forall out,
        MemorySchema.createMemorySchema isDatetime input = MemorySchema.Valid out ->
        cm_content out = cm_content input /\
        match cm_metadata input, cm_metadata out with
        | None, None => True
        | Some given, Some kept =>
            client kept = Some match client given with
                               | Some named => named
                               | None => "unknown"
                               end /\
            content kept = content given /\
            context kept = context given /\
            importance kept = importance given /\
            tags kept = tags given /\
            timestamp kept = timestamp given /\
            sessionId kept = sessionId given /\
            Schemas.userId kept = Schemas.userId given /\
            createdAt kept = createdAt given /\
            extra kept = extra given
        | _, _ => False
        end)
    /\
    (strlen (cm_content input) < 1 ->
     exists rest,
       MemorySchema.createMemorySchema isDatetime input
       = MemorySchema.Invalid (MemorySchema.mkIssue "content" "too_small" :: rest))
    /\
    (10000 < strlen (cm_content input) ->
     exists rest,
       MemorySchema.createMemorySchema isDatetime input
       = MemorySchema.Invalid (MemorySchema.mkIssue "content" "too_big" :: rest)).
Proof.
  intros isDatetime [text meta]. cbn [cm_content cm_metadata].
  unfold MemorySchema.createMemorySchema, MemorySchema.contentIssues. cbn [cm_content cm_metadata].
  split; [| split; [| split]].
  - destruct (MemorySchema.boundIssues "content" 1 10000 (strlen text)) as [|i0 is0] eqn:B.
    + apply boundIssues_nil in B. cbn [app].
      destruct meta as [md|]; cbn [MemorySchema.metadataIssues].
      * unfold MemorySchema.optionalBound, MemorySchema.datetimeIssues.
        destruct (importance md) as [i|] eqn:Hi.
        -- destruct (MemorySchema.boundIssues "metadata.importance" 1 10 i) as [|j0 js] eqn:Bi.
           ++ apply boundIssues_nil in Bi. cbn [app].
              destruct (timestamp md) as [stamp|] eqn:Hs.
              ** destruct (isDatetime stamp) eqn:Hd.
                 --- split; [intros _ | eauto]. split; [assumption |].
                     intros md' [= <-]. split.
                     +++ intros i' Hi'. rewrite Hi in Hi'. now injection Hi' as <-.
                     +++ intros s' Hs'. rewrite Hs in Hs'. now injection Hs' as <-.
                 --- split; [intros [out [=]] |].
                     intros [_ Hm]. destruct (Hm md eq_refl) as [_ Hst].
                     specialize (Hst stamp Hs). congruence.
              ** split; [intros _ | eauto]. split; [assumption |].
                 intros md' [= <-]. split.
                 --- intros i' Hi'. rewrite Hi in Hi'. now injection Hi' as <-.
                 --- intros s' Hs'. congruence.
           ++ split; [intros [out [=]] |].
              intros [_ Hm]. destruct (Hm md eq_refl) as [Him _].
              specialize (Him i Hi).
              apply (proj2 (boundIssues_nil "metadata.importance" 1 10 i)) in Him. congruence.
        -- cbn [app]. destruct (timestamp md) as [stamp|] eqn:Hs.
           ++ destruct (isDatetime stamp) eqn:Hd.
              ** split; [intros _ | eauto]. split; [assumption |].
                 intros md' [= <-]. split; [congruence |].
                 intros s' Hs'. rewrite Hs in Hs'. now injection Hs' as <-.
              ** split; [intros [out [=]] |].
                 intros [_ Hm]. destruct (Hm md eq_refl) as [_ Hst].
                 specialize (Hst stamp Hs). congruence.
           ++ split; [intros _ | eauto]. split; [assumption |].
              intros md' [= <-]. split; congruence.
      * split; [intros _ | eauto]. split; [assumption | discriminate].
    + split; [intros [out [=]] |].
      intros [Hb _]. apply (proj2 (boundIssues_nil "content" 1 10000 _)) in Hb. congruence.
  - intros out.
    destruct (_ ++ _)%list; [| discriminate]. intros [= <-]. cbn [cm_content cm_metadata].
    split; [reflexivity |].
    destruct meta as [md|]; cbn; [| exact I].
    destruct (client md); repeat split.
  - intros Short. unfold MemorySchema.boundIssues.
    destruct (Z.ltb_spec (strlen text) 1); [| lia]. cbn [app]. eauto.
  - intros Long. unfold MemorySchema.boundIssues.
    destruct (Z.ltb_spec (strlen text) 1); [lia |].
    destruct (Z.gtb_spec (strlen text) 10000); [| lia]. cbn [app]. eauto.
Qed.

(** Ten thousand accented letters are 20,000 bytes and 10,000 characters:
    the request is accepted, and its metadata, which names no client, gets
    the client "unknown". *)
Lemma createMemorySchema_accepts_witness :
  exists out,
    MemorySchema.createMemorySchema (fun _ => true) Scenes.accents = MemorySchema.Valid out /\
    Z.of_nat (String.length (cm_content out)) = 20000 /\
    strlen (cm_content out) = 10000 /\
    (md ← cm_metadata out; client md) = Some "unknown" /\
    (md ← cm_metadata out; importance md) = Some 4.
Proof.
  destruct (createMemorySchema_accepts (fun _ => true) Scenes.accents) as (Iff & Shape & _).
  destruct (proj2 Iff) as [out V].
  { split; [vm_compute; split; discriminate |].
    intros md [= <-]. split; [intros i [= <-]; lia | intros stamp E; discriminate E]. }
  destruct (Shape out V) as (Hc & Hm).
  unfold Scenes.accents in Hm. cbn [cm_metadata] in Hm.
  exists out. split; [exact V |]. rewrite Hc.
  split; [vm_compute; reflexivity |]. split; [vm_compute; reflexivity |].
  destruct (cm_metadata out) as [kept|]; [| contradiction].
  destruct Hm as (Hclient & _ & _ & Himp & _). cbn. rewrite Hclient, Himp.
  split; reflexivity.
Defined.

(** ** The routes of the memories *)

Section RouteFacts.
Context {index : Type} `{VectorIndex index}.
Context (env : Env) (be : Backend) (dateValue : string -> option Z).
Context (databases : Appwrite.Databases) (now : string).
Context (parseInt : string -> option Z).

Import Routes Responses.

Lemma forContract_inv cid (w : World index) r w1 :
  run (forContract env cid) w = (r, w1) ->
  db w1 = db w /\ embedding w1 = embedding w /\
  (r = Ok tt -> initialised w1 /\ contractId (service w1) = cid).
Proof.
  unfold forContract, initialize. rewrite run_bind. cbn [modify run].
  rewrite run_try_catch, run_bind.
  destruct (run (getSharedArweaveConfig env) _) as [[c|err] w0] eqn:E;
    apply getSharedArweaveConfig_quiet in E as [(Hd & He & _) Hsv]; cbn.
  - intros [= <- <-]. cbn. rewrite Hsv. cbn.
    repeat split; try assumption. cbn. eauto.
  - intros [= <- <-]. repeat split; try assumption; discriminate.
Qed.

(** What [getUserMemoryService] answers and what it leaves alone. *)
Lemma getUserMemoryService_cases user (s : Server index) :
  exists r s',
    run (getUserMemoryService env databases user) s = (Ok r, s') /\
    updates s' = updates s /\
    db (world s') = db (world s) /\
    embedding (world s') = embedding (world s) /\
    match r with
    | Some svc =>
        initialised (world s') /\ svc = service (world s') /\
        exists account instances instance,
          user = Some account /\
          Appwrite.listInstances databases (user_id account) = Ok instances /\
          pickInstance instances = Some instance /\
          Appwrite.contractId instance <> "" /\
          contractId svc = Appwrite.contractId instance
    | None =>
        user = None \/
        exists account, user = Some account /\
          match Appwrite.listInstances databases (user_id account) with
          | Throw _ => s' = s
          | Ok instances =>
              match pickInstance instances with
              | None => s' = s
              | Some instance =>
                  Appwrite.contractId instance = "" /\ s' = s \/
                  isOk (fst (run (forContract env (Appwrite.contractId instance))
                                 (world s))) = false
              end
          end
    end.
Proof.
  destruct s as [w u]. destruct user as [account|]; cbn [getUserMemoryService].
  2:{ exists None. eexists. cbn. repeat split. now left. }
  rewrite run_try_catch, run_bind.
  unfold inAppwrite at 1, Appwrite.listUserInstances. cbn [run updates world].
  rewrite run_try_catch, run_bind. cbn [await run].
  destruct (Appwrite.listInstances databases (user_id account)) as [instances|err] eqn:L.
  2:{ cbn. exists None. eexists. repeat split. right. exists account.
      split; [reflexivity |]. now rewrite L. }
  cbn [mret M_ret ret run].
  destruct instances as [|first others].
  { cbn. exists None. eexists. repeat split. right. exists account.
    split; [reflexivity |]. now rewrite L. }
  cbn [length Nat.eqb].
  destruct (pickInstance (first :: others)) as [instance|] eqn:P.
  2:{ cbn. exists None. eexists. repeat split. right. exists account.
      split; [reflexivity |]. now rewrite L, P. }
  destruct (truthy (Appwrite.contractId instance)) eqn:T; cbn [negb].
  2:{ cbn. exists None. eexists. repeat split. right. exists account.
      split; [reflexivity |]. rewrite L, P. left.
      split; [now destruct (Appwrite.contractId instance) | reflexivity]. }
  rewrite run_bind. unfold inWorld at 1. cbn [run world updates].
  destruct (run (forContract env (Appwrite.contractId instance)) w) as [[[]|err] w1] eqn:F;
    pose proof (forContract_inv _ _ _ _ F) as (Hd & He & Hok).
  - destruct (Hok eq_refl) as [Init Hcid].
    exists (Some (service w1)), (mkServer w1 u).
    split; [reflexivity |]. split; [reflexivity |].
    split; [exact Hd |]. split; [exact He |].
    split; [exact Init |]. split; [reflexivity |].
    exists account, (first :: others), instance.
    split; [reflexivity |]. split; [exact L |]. split; [exact P |].
    split; [intros E; rewrite E in T; discriminate | exact Hcid].
  - exists None, (mkServer w1 u).
    split; [reflexivity |]. split; [reflexivity |].
    split; [exact Hd |]. split; [exact He |].
    right. exists account. split; [reflexivity |]. rewrite L, P. right.
    cbn [world]. now rewrite F.
Qed.

(** The best-effort recording of the usage in [insertHandler]. *)
Lemma usage_block uid (s : Server index) :
  exists s',
    run (try_catch
           (subscription ← inAppwrite (Appwrite.getUserSubscription databases uid);
            match subscription with
            | Some subscription =>
                inAppwrite (Appwrite.incrementQuota databases
                              (Appwrite.sub_id subscription));;
                mret tt
            | None => mret tt
            end)
           (fun _ => mret tt)) s = (Ok tt, s') /\
    world s' = world s /\
    (updates s' = updates s \/
     exists found rest stored,
       Appwrite.listSubscriptions databases uid = Ok (found :: rest) /\
       Appwrite.getDocument databases (Appwrite.sub_id found) = Ok stored /\
       updates s' = (Appwrite.sub_id found, quotaUsed (Appwrite.sub stored) + 1)
                    :: updates s).
Proof.
  destruct s as [w u]. rewrite run_try_catch, run_bind.
  unfold inAppwrite at 1, Appwrite.getUserSubscription. cbn [run updates world].
  rewrite run_try_catch, run_bind. cbn [await run].
  destruct (Appwrite.listSubscriptions databases uid) as [[|found rest]|err] eqn:L; cbn.
  1,3: eexists; repeat split; now left.
  destruct (Appwrite.getDocument databases (Appwrite.sub_id found)) as [stored|err] eqn:G;
    cbn.
  - destruct (Appwrite.updateDocument databases _ _); cbn;
      eexists; (split; [reflexivity |]); (split; [reflexivity |]); right;
      exists found, rest, stored; repeat split; assumption.
  - eexists. repeat split. now left.
Qed.

End RouteFacts.

Lemma pickInstance_spec (instances : list Appwrite.Instance) (chosen : Appwrite.Instance) :
  Routes.pickInstance instances = Some chosen ->
  In chosen instances /\
  ((Appwrite.isActive chosen = Some true /\
    exists before after,
      instances = (before ++ chosen :: after)%list /\
      Forall (fun i => Appwrite.isActive i <> Some true) before)
   \/
   (Forall (fun i => Appwrite.isActive i <> Some true) instances /\
    head instances = Some chosen)).
Proof.
  unfold Routes.pickInstance.
  destruct (List.find _ instances) as [found|] eqn:F.
  - intros [= <-]. induction instances as [|i rest IH]; [discriminate |].
    cbn in F. destruct (Appwrite.isActive i) as [[|]|] eqn:A; cbn in F.
    + injection F as <-. split; [now left |]. left. split; [assumption |].
      exists [], rest. split; [reflexivity | constructor].
    + destruct (IH F) as [Hin [[Ha (before & after & -> & Hb)] | [Hn Hh]]].
      * split; [now right |]. left. split; [assumption |].
        exists (i :: before), after. split; [reflexivity |].
        constructor; [congruence | assumption].
      * exfalso. apply find_some in F as [Hf Hact].
        rewrite Forall_forall in Hn. apply list_elem_of_In in Hf.
        specialize (Hn _ Hf). destruct (Appwrite.isActive found) as [[|]|];
          cbn in Hact; congruence.
    + destruct (IH F) as [Hin [[Ha (before & after & -> & Hb)] | [Hn Hh]]].
      * split; [now right |]. left. split; [assumption |].
        exists (i :: before), after. split; [reflexivity |].
        constructor; [congruence | assumption].
      * exfalso. apply find_some in F as [Hf Hact].
        rewrite Forall_forall in Hn. apply list_elem_of_In in Hf.
        specialize (Hn _ Hf). destruct (Appwrite.isActive found) as [[|]|];
          cbn in Hact; congruence.
  - intros Hh. split.
    + destruct instances; [discriminate |]. injection Hh as <-. now left.
    + right. split; [| assumption].
      rewrite Forall_forall. intros i Hi Ha. apply list_elem_of_In in Hi.
      pose proof (find_none _ _ F i Hi) as Hno. cbn in Hno. rewrite Ha in Hno.
      discriminate.
Qed.

(** X24: the memory service of a request is bound to one instance of the
    user: the first instance marked active in the listing or, when none is
    marked, the first instance listed; its contract id is not empty, the
    service is initialised for that contract, and neither the index nor
    the recorded usage is touched. *)
Theorem memory_service_selection :
  forall (index : Type) (env : Env) (databases : Appwrite.Databases)
         (user : option Routes.AppUser) (s s' : Routes.Server index)
         (svc : EizenService),
    run (Routes.getUserMemoryService env databases user) s = (Ok (Some svc), s') ->
    exists account instances chosen,
      user = Some account /\
      Appwrite.listInstances databases (Routes.user_id account) = Ok instances /\
      In chosen instances /\
      ((Appwrite.isActive chosen = Some true /\
        exists before after,
          instances = (before ++ chosen :: after)%list /\
          Forall (fun i => Appwrite.isActive i <> Some true) before)
       \/
       (Forall (fun i => Appwrite.isActive i <> Some true) instances /\
        head instances = Some chosen)) /\
      Appwrite.contractId chosen <> "" /\
      contractId svc = Appwrite.contractId chosen /\
      svc = service (Routes.world s') /\
      initialised (Routes.world s') /\
      db (Routes.world s') = db (Routes.world s) /\
      Routes.updates s' = Routes.updates s.
Proof.
  intros index env databases user s s' svc R.
  destruct (getUserMemoryService_cases env databases user s)
    as (r & s1 & R1 & Hu & Hd & _ & Hr).
  rewrite R in R1. injection R1 as <- <-.
  destruct Hr as (Init & Hsvc & account & instances & chosen & Huser & L & P & Hne & Hcid).
  destruct (pickInstance_spec instances chosen P) as [Hin Hwhich].
  exists account, instances, chosen.
  split; [exact Huser |]. split; [exact L |]. split; [exact Hin |].
  split; [exact Hwhich |]. split; [exact Hne |]. split; [exact Hcid |].
  split; [exact Hsvc |]. split; [exact Init |]. split; [exact Hd | exact Hu].
Qed.

Lemma memory_service_selection_witness :
  exists svc s',
    run (Routes.getUserMemoryService Demo.env Scenes.office (Some Scenes.alice))
        Scenes.opening = (Ok (Some svc), s') /\
    contractId svc = "contract-new".
Proof.
  eassert (R : run (Routes.getUserMemoryService Demo.env Scenes.office (Some Scenes.alice))
                   Scenes.opening = (Ok (Some _), _)) by (cbv; reflexivity).
  destruct (memory_service_selection ListIndex.t Demo.env Scenes.office _ _ _ _ R)
    as (account & instances & chosen & _ & [= <-] & Hin & Hwhich & _ & Hcid & _).
  eexists _, _. split; [exact R |]. rewrite Hcid.
  destruct Hwhich as [[Ha _] | [Hn _]].
  - destruct Hin as [<- | [<- | []]]; [discriminate Ha | reflexivity].
  - exfalso. rewrite Forall_forall in Hn.
    apply (Hn (Appwrite.mkInstance "inst-2" "alice" "contract-new" (Some true)));
      [apply list_elem_of_In; right; now left | reflexivity].
Defined.

Section RouteOutcomes.
Context {index : Type} `{VectorIndex index}.
Context (env : Env) (be : Backend) (dateValue : string -> option Z).
Context (databases : Appwrite.Databases) (now : string).
Context (parseInt : string -> option Z).

Import Routes Responses.

Lemma inWorld_run {A} (c : M (World index) A) (s : Server index) :
  run (inWorld c) s
  = (fst (run c (world s)), mkServer (snd (run c (world s))) (updates s)).
Proof. unfold inWorld. cbn. now destruct (run c (world s)). Qed.

(** The created memory is answered with 201 whatever happens to the usage. *)
Lemma insertHandler_created account body (s s1 : Server index) svc result w2 :
  run (getUserMemoryService env databases (Some account)) s = (Ok (Some svc), s1) ->
  run (createMemory env be body) (world s1) = (Ok result, w2) ->
  exists s',
    run (insertHandler env be databases now (Some account) body) s
    = (Ok {| status := 201;
             body := Success result (Some "Memory created successfully") now |}, s') /\
    world s' = w2 /\
    (updates s' = updates s1 \/
     exists found rest stored,
       Appwrite.listSubscriptions databases (user_id account) = Ok (found :: rest) /\
       Appwrite.getDocument databases (Appwrite.sub_id found) = Ok stored /\
       updates s' = (Appwrite.sub_id found, quotaUsed (Appwrite.sub stored) + 1)
                    :: updates s1).
Proof.
  intros G C.
  destruct (usage_block databases (user_id account) (mkServer w2 (updates s1)))
    as (s' & U & Hw & Hu).
  exists s'. split; [| split; [exact Hw | exact Hu]].
  unfold insertHandler. rewrite run_try_catch, run_bind, G, run_bind.
  rewrite inWorld_run, C. cbn [fst snd]. rewrite run_bind, U. reflexivity.
Qed.

End RouteOutcomes.

(** X25: the handler of [POST /memories/insert], which runs once the quota
    middleware and the validator have let the request through, always
    answers, and its answer is fixed by what it meets: without a user, 401
    "Authentication failed" and nothing done; with a user but no memory
    service, 500 "Memory service not available"; when [createMemory]
    throws, 500 "Failed to create memory" with the message of the error;
    when [createMemory] returns, 201 with its result.  Only the 201 sends a
    usage update, and at most one. *)
Theorem insert_route_outcomes :
  forall (index : Type) (H : VectorIndex index) (env : Env) (be : Backend)
         (databases : Appwrite.Databases) (now : string)
         (user : option Routes.AppUser) (body : CreateMemory)
         (s : Routes.Server index),
    match user with
    | None =>
        run (Routes.insertHandler env be databases now user body) s
        = (Ok {| Routes.status := 401;
                 Routes.body := Responses.Failure "Authentication failed"
                                  (Some "User not found") now |}, s)
    | Some account =>
        exists r s1,
          run (Routes.getUserMemoryService env databases user) s = (Ok r, s1) /\
          Routes.updates s1 = Routes.updates s /\
          match r with
          | None =>
              run (Routes.insertHandler env be databases now user body) s
              = (Ok {| Routes.status := 500;
                       Routes.body := Responses.Failure "Memory service not available"
                                        (Some "Unable to initialize memory service") now |},
                 s1)
          | Some _ =>
              exists outcome w2,
                run (createMemory env be body) (Routes.world s1) = (outcome, w2) /\
                match outcome with
                | Throw cause =>
                    run (Routes.insertHandler env be databases now user body) s
                    = (Ok {| Routes.status := 500;
                             Routes.body := Responses.Failure "Failed to create memory"
                                              (Some (messageOf cause)) now |},
                       Routes.mkServer w2 (Routes.updates s))
                | Ok result =>
                    exists s',
                      run (Routes.insertHandler env be databases now user body) s
                      = (Ok {| Routes.status := 201;
                               Routes.body := Responses.Success result
                                                (Some "Memory created successfully") now |},
                         s') /\
                      Routes.world s' = w2 /\
                      (Routes.updates s' = Routes.updates s \/
                       exists found rest stored,
                         Appwrite.listSubscriptions databases (Routes.user_id account)
                           = Ok (found :: rest) /\
                         Appwrite.getDocument databases (Appwrite.sub_id found) = Ok stored /\
                         Routes.updates s'
                         = (Appwrite.sub_id found, quotaUsed (Appwrite.sub stored) + 1)
                           :: Routes.updates s)
                end
          end
    end.
Proof.
  intros index H env be databases now user body s.
  destruct user as [account|]; [| reflexivity].
  destruct (getUserMemoryService_cases env databases (Some account) s)
    as (r & s1 & G & Hu & _ & _ & _).
  exists r, s1. split; [exact G |]. split; [exact Hu |].
  destruct r as [svc|].
  - destruct (run (createMemory env be body) (Routes.world s1)) as [[result|cause] w2] eqn:C;
      eexists _, w2; (split; [reflexivity |]).
    + destruct (insertHandler_created env be databases now account body s s1 svc result w2 G C)
        as (s' & R & Hw & Hup).
      exists s'. split; [exact R |]. split; [exact Hw |]. now rewrite <- Hu.
    + unfold Routes.insertHandler. rewrite run_try_catch, run_bind, G, run_bind.
      rewrite inWorld_run, C. cbn [fst snd]. now rewrite <- Hu.
  - unfold Routes.insertHandler. rewrite run_try_catch, run_bind, G. reflexivity.
Qed.

(** X26: recording the usage is best effort: once the memory is created,
    the answer is 201 with the result, the created memory stays, and the
    usage is written at most once, as the stored [quotaUsed] plus 1; a
    subscription that is missing, cannot be read or cannot be written
    changes nothing of the answer. *)
Theorem insert_usage_is_best_effort :
  forall (index : Type) (H : VectorIndex index) (env : Env) (be : Backend)
         (databases : Appwrite.Databases) (now : string)
         (account : Routes.AppUser) (body : CreateMemory)
         (s s1 : Routes.Server index) (svc : EizenService)
         (result : CreateMemoryResult) (w2 : World index),
    run (Routes.getUserMemoryService env databases (Some account)) s = (Ok (Some svc), s1) ->
    run (createMemory env be body) (Routes.world s1) = (Ok result, w2) ->
    exists s',
      run (Routes.insertHandler env be databases now (Some account) body) s
      = (Ok {| Routes.status := 201;
               Routes.body := Responses.Success result
                                (Some "Memory created successfully") now |}, s') /\
      Routes.world s' = w2 /\
      (Routes.updates s' = Routes.updates s \/
       exists found rest stored,
         Appwrite.listSubscriptions databases (Routes.user_id account)
           = Ok (found :: rest) /\
         Appwrite.getDocument databases (Appwrite.sub_id found) = Ok stored /\
         Routes.updates s'
         = (Appwrite.sub_id found, quotaUsed (Appwrite.sub stored) + 1)
           :: Routes.updates s).
Proof.
  intros index H env be databases now account body s s1 svc result w2 G C.
  destruct (getUserMemoryService_cases env databases (Some account) s)
    as (r & s1' & G' & Hu & _).
  rewrite G in G'. injection G' as <- <-.
  destruct (insertHandler_created env be databases now account body s s1 svc result w2 G C)
    as (s' & R & Hw & Hup).
  exists s'. split; [exact R |]. split; [exact Hw |]. now rewrite <- Hu.
Qed.

Lemma insert_usage_is_best_effort_witness :
  exists resp s',
    run (Routes.insertHandler Demo.env Demo.backend Scenes.office "2026-01-15T10:00:00Z"
           (Some Scenes.alice) Demo.darkMode) Scenes.opening = (Ok resp, s') /\
    Routes.status resp = 201 /\
    Routes.updates s' = [("sub-1", 1000)] /\
    length (db (Routes.world s')) = 1%nat.
Proof.
  eassert (G : run (Routes.getUserMemoryService Demo.env Scenes.office (Some Scenes.alice))
                   Scenes.opening = (Ok (Some _), _)) by (cbv; reflexivity).
  match type of G with
  | _ = (_, ?s1) =>
      eassert (C : run (createMemory Demo.env Demo.backend Demo.darkMode) (Routes.world s1)
                   = (Ok _, _)) by (cbv; reflexivity)
  end.
  destruct (insert_usage_is_best_effort ListIndex.t _ Demo.env Demo.backend Scenes.office
              "2026-01-15T10:00:00Z" Scenes.alice Demo.darkMode _ _ _ _ _ G C)
    as (s' & R & Hw & Hup).
  assert (E : s' = snd (run (Routes.insertHandler Demo.env Demo.backend Scenes.office
                               "2026-01-15T10:00:00Z" (Some Scenes.alice) Demo.darkMode)
                            Scenes.opening)) by now rewrite R.
  eexists _, s'. split; [exact R |]. split; [reflexivity |].
  rewrite E. split; cbv; reflexivity.
Defined.

(** With an encoder that rejects every input, the user's service is
    obtained and [createMemory] throws: the answer is 500 with the message
    of the error, the index stays empty and no usage is recorded. *)
Lemma insert_route_outcomes_witness :
  exists s',
    run (Routes.insertHandler Demo.env Scenes.deaf Scenes.office "2026-01-15T10:00:00Z"
           (Some Scenes.alice) Demo.darkMode) Scenes.opening
    = (Ok {| Routes.status := 500;
             Routes.body := Responses.Failure "Failed to create memory"
               (Some ("Failed to create memory: Failed to generate embeddings: "
                      ++ "Failed to generate embeddings: session closed"))
               "2026-01-15T10:00:00Z" |}, s') /\
    db (Routes.world s') = [] /\
    Routes.updates s' = [].
Proof.
  destruct (insert_route_outcomes ListIndex.t _ Demo.env Scenes.deaf Scenes.office
              "2026-01-15T10:00:00Z" (Some Scenes.alice) Demo.darkMode Scenes.opening)
    as (r & s1 & G & _ & Out).
  eassert (G' : run (Routes.getUserMemoryService Demo.env Scenes.office (Some Scenes.alice))
                    Scenes.opening = (Ok (Some _), _)) by (cbv; reflexivity).
  rewrite G' in G. injection G as <- <-.
  destruct Out as (outcome & w2 & C & Out).
  match type of C with
  | run ?c ?w = _ =>
      eassert (C' : run c w = (Throw _, _)) by (cbv; reflexivity)
  end.
  rewrite C' in C. injection C as <- <-.
  eexists. split; [rewrite Out; reflexivity |]. split; reflexivity.
Defined.

Section ReadRoutes.
Context {index : Type} `{VectorIndex index}.
Context (env : Env) (be : Backend) (dateValue : string -> option Z).
Context (databases : Appwrite.Databases) (now : string).
Context (parseInt : string -> option Z).

Import Routes Responses.

Lemma memory_getStats_total (w : World index) :
  exists stats w', run Memory.getStats w = (Ok stats, w').
Proof.
  destruct (eizen_getStats_total w) as (w' & R & _).
  eexists _, w'. unfold Memory.getStats, Memory.getStatsWith.
  rewrite run_try_catch, run_bind, R. reflexivity.
Qed.

End ReadRoutes.

(** X27: [GET /memories/:id] obtains the service first and reads the id
    afterwards: without a service it answers 500, also for a malformed id;
    with one, 400 for an id that is not a number, without any index call;
    404 for an id the index does not hold; 200 with the reshaped record for
    one it holds; 500 with the wrapped cause when the index call fails. *)
Theorem get_route_outcomes :
  forall (index : Type) (H : VectorIndex index) (env : Env)
         (databases : Appwrite.Databases) (now : string)
         (parseInt : string -> option Z)
         (user : option Routes.AppUser) (idParam : string)
         (s s1 : Routes.Server index) (r : option EizenService),
    run (Routes.getUserMemoryService env databases user) s = (Ok r, s1) ->
    run (Routes.getHandler env databases now parseInt user idParam) s
    = match r, parseInt idParam with
      | None, _ =>
          (Ok {| Routes.status := 500;
                 Routes.body := Responses.Failure "Memory service not available"
                                  (Some "Unable to initialize memory service") now |}, s1)
      | Some _, None =>
          (Ok {| Routes.status := 400;
                 Routes.body := Responses.Failure "Invalid memory ID"
                                  (Some "Memory ID must be a number") now |}, s1)
      | Some _, Some memoryId =>
          (Ok match get_vector (db (Routes.world s)) memoryId with
              | Ok None =>
                  {| Routes.status := 404;
                     Routes.body := Responses.Failure "Memory not found"
                       (Some ("No memory found with ID: " ++ showZ memoryId)) now |}
              | Ok (Some v) =>
                  {| Routes.status := 200;
                     Routes.body := Responses.Success
                       {| mr_id := memoryId;
                          mr_content := nonEmpty (md ← sv_metadata v; content md);
                          mr_metadata := sv_metadata v;
                          mr_distance := None |}
                       (Some "Memory retrieved successfully") now |}
              | Throw cause =>
                  {| Routes.status := 500;
                     Routes.body := Responses.Failure "Failed to retrieve memory"
                       (Some ("Failed to retrieve memory: Failed to retrieve vector: "
                              ++ messageOf cause)) now |}
              end,
           Routes.mkServer (logCall (CallGetVector memoryId) (Routes.world s1))
                           (Routes.updates s1))
      end.
Proof.
  intros index H env databases now parseInt user idParam s s1 r G.
  destruct (getUserMemoryService_cases env databases user s)
    as (r' & s1' & G' & _ & Hd & _ & Hr).
  rewrite G in G'. injection G' as <- <-.
  unfold Routes.getHandler. rewrite run_try_catch, run_bind, G.
  destruct r as [svc|]; [| reflexivity].
  destruct (parseInt idParam) as [memoryId|]; [| reflexivity].
  destruct Hr as (Init & _).
  rewrite run_bind, inWorld_run, (getMemory_on_initialised env _ memoryId Init).
  cbn [fst snd]. rewrite Hd.
  destruct (get_vector (db (Routes.world s)) memoryId) as [[v|]|cause]; reflexivity.
Qed.

Lemma get_route_outcomes_witness :
  exists missing malformed s1 s2,
    run (Routes.getHandler Demo.env Scenes.office "2026-01-15T10:00:00Z"
           Scenes.decimalId (Some Scenes.alice) "41") Scenes.opening
      = (Ok missing, s1) /\
    Routes.status missing = 404 /\
    run (Routes.getHandler Demo.env Scenes.office "2026-01-15T10:00:00Z"
           Scenes.decimalId (Some Scenes.alice) "latest") Scenes.opening
      = (Ok malformed, s2) /\
    Routes.status malformed = 400.
Proof.
  eassert (G : run (Routes.getUserMemoryService Demo.env Scenes.office (Some Scenes.alice))
                   Scenes.opening = (Ok (Some _), _)) by (cbv; reflexivity).
  rewrite (get_route_outcomes ListIndex.t _ Demo.env Scenes.office "2026-01-15T10:00:00Z"
             Scenes.decimalId (Some Scenes.alice) "41" _ _ _ G).
  rewrite (get_route_outcomes ListIndex.t _ Demo.env Scenes.office "2026-01-15T10:00:00Z"
             Scenes.decimalId (Some Scenes.alice) "latest" _ _ _ G).
  eexists _, _, _, _. repeat split.
Defined.

(** X28: [GET /memories] answers 200 with the statistics whenever a
    service could be obtained, because [getStats] cannot fail, and 500
    "Memory service not available" otherwise; it never reaches its own
    "Failed to get memory statistics" answer, and it records no usage. *)
Theorem stats_route_outcomes :
  forall (index : Type) (H : VectorIndex index) (env : Env)
         (databases : Appwrite.Databases) (now : string)
         (user : option Routes.AppUser)
         (s s1 : Routes.Server index) (r : option EizenService),
    run (Routes.getUserMemoryService env databases user) s = (Ok r, s1) ->
    exists resp s',
      run (Routes.statsHandler env databases now user) s = (Ok resp, s') /\
      Routes.updates s' = Routes.updates s /\
      match r with
      | None =>
          resp = {| Routes.status := 500;
                    Routes.body := Responses.Failure "Memory service not available"
                                     (Some "Unable to initialize memory service") now |}
      | Some _ =>
          exists stats,
            fst (run Memory.getStats (Routes.world s1)) = Ok stats /\
            resp = {| Routes.status := 200;
                      Routes.body := Responses.Success stats
                                       (Some "Memory statistics retrieved") now |}
      end.
Proof.
  intros index H env databases now user s s1 r G.
  destruct (getUserMemoryService_cases env databases user s)
    as (r' & s1' & G' & Hu & _).
  rewrite G in G'. injection G' as <- <-.
  unfold Routes.statsHandler. rewrite run_try_catch, run_bind, G.
  destruct r as [svc|].
  - destruct (memory_getStats_total (Routes.world s1)) as (stats & w' & St).
    rewrite run_bind, inWorld_run, St. cbn.
    eexists _, _. split; [reflexivity |]. split; [exact Hu |].
    exists stats. split; reflexivity.
  - cbn. eexists _, _. split; [reflexivity |]. split; [exact Hu | reflexivity].
Qed.

Lemma stats_route_outcomes_witness :
  exists resp s',
    run (Routes.statsHandler Demo.env Scenes.office "2026-01-15T10:00:00Z"
           (Some Scenes.alice)) Scenes.opening = (Ok resp, s') /\
    Routes.status resp = 200.
Proof.
  eassert (G : run (Routes.getUserMemoryService Demo.env Scenes.office (Some Scenes.alice))
                   Scenes.opening = (Ok (Some _), _)) by (cbv; reflexivity).
  destruct (stats_route_outcomes ListIndex.t _ Demo.env Scenes.office
              "2026-01-15T10:00:00Z" (Some Scenes.alice) _ _ _ G)
    as (resp & s' & R & _ & stats & _ & ->).
  eexists _, s'. split; [exact R | reflexivity].
Defined.

Lemma filters_are_and_combined_witness :
  let dated := {| mr_id := 0; mr_content := None;
                  mr_metadata := Some Scenes.stamped; mr_distance := None |} in
  let undated := {| mr_id := 1; mr_content := None;
                    mr_metadata := Some Scenes.cursorNote; mr_distance := None |} in
  In dated (applyFilters Scenes.dayNumber [dated; undated] (Some Scenes.january)) /\
  ~ In undated (applyFilters Scenes.dayNumber [dated; undated] (Some Scenes.january)).
Proof.
  intros dated undated. split.
  - apply (proj2 (filters_are_and_combined Scenes.dayNumber [dated; undated]
                    Scenes.january dated)).
    repeat split; left; reflexivity.
  - intros Hin.
    apply (proj1 (filters_are_and_combined Scenes.dayNumber [dated; undated]
                    Scenes.january undated)) in Hin as (_ & Hmin & _).
    destruct Hmin as [E | []]. discriminate E.
Defined.

Lemma searchMemories_db {index : Type} `{VectorIndex index} (env : Env) (be : Backend)
    (dateValue : string -> option Z) (data : SearchMemory) (w : World index) :
  db (snd (run (searchMemories env be dateValue data) w)) = db w.
Proof.
  unfold searchMemories. rewrite run_try_catch, run_bind.
  destruct (run (Memory.textToEmbeddings be (sm_query data)) w) as [[v|err] w0] eqn:T;
    apply textToEmbeddings_frame in T as (_ & _ & Hd0 & _).
  - rewrite run_bind.
    destruct (run (searchVectors env _) w0) as [[hits|err] w1] eqn:S;
      apply searchVectors_reads in S as (Hd & _); cbn; congruence.
  - cbn. assumption.
Qed.

(** X29: the handler of [POST /memories/search], run on a body that
    [searchMemorySchema] accepted, always answers, and its answer is fixed
    by what it meets: without a memory service, 500 "Memory service not
    available"; when [searchMemories] returns, 200 with its results and a
    message counting them; when it throws, 500 "Failed to search memories"
    with the message of the error.  The index is searched with the [k] of
    the request, between 1 and 100, or with 10 when none was given; the
    index is left as it was and no usage is recorded. *)
Theorem search_route_outcomes :
  forall (index : Type) (H : VectorIndex index) (env : Env) (be : Backend)
         (dateValue : string -> option Z) (isDatetime : string -> bool)
         (databases : Appwrite.Databases) (now : string)
         (user : option Routes.AppUser) (input body : SearchMemory)
         (s : Routes.Server index),
    MemorySchema.searchMemorySchema isDatetime input = MemorySchema.Valid body ->
    exists r s1,
      run (Routes.getUserMemoryService env databases user) s = (Ok r, s1) /\
      Routes.updates s1 = Routes.updates s /\
      db (Routes.world s1) = db (Routes.world s) /\
      match r with
      | None =>
          run (Routes.searchHandler env be dateValue databases now user body) s
          = (Ok {| Routes.status := 500;
                   Routes.body := Responses.Failure "Memory service not available"
                                    (Some "Unable to initialize memory service") now |},
             s1)
      | Some _ =>
          exists outcome w2 evs,
            run (searchMemories env be dateValue body) (Routes.world s1) = (outcome, w2) /\
            run (Routes.searchHandler env be dateValue databases now user body) s
            = (Ok match outcome with
                  | Ok results =>
                      {| Routes.status := 200;
                         Routes.body := Responses.Success results
                           (Some ("Found " ++ showZ (Z.of_nat (length results))
                                  ++ " relevant memories")) now |}
                  | Throw cause =>
                      {| Routes.status := 500;
                         Routes.body := Responses.Failure "Failed to search memories"
                                          (Some (messageOf cause)) now |}
                  end,
               Routes.mkServer w2 (Routes.updates s)) /\
            db w2 = db (Routes.world s) /\
            log w2 = (evs ++ log (Routes.world s1))%list /\
            forall q n, In (CallKnnSearch q n) evs ->
              1 <= n <= 100 /\ n = default 10 (sm_k input)
      end.
Proof.
  intros index H env be dateValue isDatetime databases now user input body s V.
  destruct (getUserMemoryService_cases env databases user s)
    as (r & s1 & G & Hu & Hd & _ & _).
  exists r, s1. split; [exact G |]. split; [exact Hu |]. split; [exact Hd |].
  unfold Routes.searchHandler. rewrite run_try_catch, run_bind, G.
  destruct r as [svc|]; [| reflexivity].
  rewrite run_bind, inWorld_run.
  pose proof (searchMemories_db env be dateValue body (Routes.world s1)) as Hdb.
  destruct (run (searchMemories env be dateValue body) (Routes.world s1))
    as [outcome w2] eqn:S.
  destruct (searchMemories_log env be dateValue _ _ _ _ S) as (evs & Hl & Hc).
  exists outcome, w2, evs. split; [reflexivity |]. cbn [fst snd] in Hdb |- *.
  split; [rewrite <- Hu; destruct outcome; reflexivity |].
  split; [congruence |]. split; [exact Hl |].
  intros q n Hin. rewrite (Hc q n Hin).
  destruct (searchMemorySchema_k isDatetime input body V) as (k & Hk & Hrange & Hgiven).
  rewrite Hk. cbn. destruct (Z.eqb_spec k 0); [lia |]. split; assumption.
Qed.

(** A request for the memories of importance 5 at least, without a [k],
    on the shelf of five vectors: the validator fills in 10, the index is
    asked for 10 neighbours, and the answer is 200 with the three memories
    3, 2 and 0. *)
Lemma search_route_outcomes_witness :
  exists body results s',
    MemorySchema.searchMemorySchema (fun _ => true) Demo.importantOnly
      = MemorySchema.Valid body /\
    sm_k body = Some 10 /\
    run (Routes.searchHandler Demo.env Demo.backend Demo.noDate Scenes.office
           "2026-01-15T10:00:00Z" (Some Scenes.alice) body) Scenes.library
      = (Ok {| Routes.status := 200;
               Routes.body := Responses.Success results
                 (Some "Found 3 relevant memories") "2026-01-15T10:00:00Z" |}, s') /\
    map mr_id results = [3; 2; 0] /\
    (exists q rest, log (Routes.world s') = CallKnnSearch q 10 :: rest) /\
    db (Routes.world s') = Scenes.shelf /\
    Routes.updates s' = [].
Proof.
  eassert (V : MemorySchema.searchMemorySchema (fun _ => true) Demo.importantOnly
               = MemorySchema.Valid _) by (cbv; reflexivity).
  destruct (search_route_outcomes ListIndex.t _ Demo.env Demo.backend Demo.noDate
              (fun _ => true) Scenes.office "2026-01-15T10:00:00Z" (Some Scenes.alice)
              _ _ Scenes.library V)
    as (r & s1 & G & _ & _ & Out).
  eassert (G' : run (Routes.getUserMemoryService Demo.env Scenes.office (Some Scenes.alice))
                    Scenes.library = (Ok (Some _), _)) by (cbv; reflexivity).
  rewrite G' in G. injection G as <- <-.
  destruct Out as (outcome & w2 & evs & S & Out & _).
  match type of S with
  | run ?c ?w = _ =>
      eassert (S' : run c w = (Ok _, _)) by (cbv; reflexivity)
  end.
  rewrite S' in S. injection S as <- <-.
  eexists _, _, _. split; [exact V |]. split; [reflexivity |].
  split; [rewrite Out; reflexivity |]. split; [reflexivity |].
  split; [eexists _, _; reflexivity |]. split; reflexivity.
Defined.
